(** * plaicube-py: the pipeline manager, its validators, the runway service
    and the endpoints

    A shallow embedding of [src/models.py], [src/exceptions.py],
    [src/utils/validators.py], [src/pipeline_manager.py],
    [download_video] and [process_video] of [src/services/runway_service.py],
    and the handlers of [src/main.py] that call the manager.

    Conventions of the embedding.
    - Python [str] is [string], one element per character, for text whose
      characters are below 256; [Dict[str, Any]] is an insertion-ordered
      association list, [Optional[T]] is [option T], the counters ([order],
      [progress], [totalSteps], [completedSteps]) are [nat].
    - Code that raises lives in a state-and-exception monad [M S A]; the state [S]
      is the object the code mutates (a step, a pipeline, the whole manager).
    - [datetime.now()] and [uuid.uuid4()] read two oracles; the environment [Env]
      counts the reads so that successive calls may return different values.
    - An [await] on an executor resolves to an [awaited] outcome supplied by a
      script: a returned value, an [Exception], or the [asyncio.CancelledError]
      thrown into a task cancelled while it is suspended.  A task runs from one
      [await] to the next without interleaving; calls made by other coroutines
      are sequenced before or after a run of the task ([run_task]). *)

From Stdlib Require Import String Ascii List Bool Arith Lia.
From stdpp Require Import base option list.
Import ListNotations.
Local Open Scope string_scope.
Local Open Scope nat_scope.

(** ** Python dictionaries (insertion ordered, keyed by [str]) *)

Module Dict.
Definition t (V : Type) : Type := list (string * V).

Fixpoint get {V} (k : string) (d : t V) : option V :=
  match d with
  | [] => None
  | (k', v) :: d' => if String.eqb k k' then Some v else get k d'
  end.

(** [k in d] *)
Definition contains {V} (k : string) (d : t V) : bool :=
  match get k d with Some _ => true | None => false end.

(** [d[k] = v]: an existing key keeps its position, a new key goes last. *)
Fixpoint set {V} (k : string) (v : V) (d : t V) : t V :=
  match d with
  | [] => [(k, v)]
  | (k', v') :: d' =>
      if String.eqb k k' then (k, v) :: d' else (k', v') :: set k v d'
  end.

(** [del d[k]] *)
Fixpoint del {V} (k : string) (d : t V) : t V :=
  match d with
  | [] => []
  | (k', v') :: d' =>
      if String.eqb k k' then del k d' else (k', v') :: del k d'
  end.

(** [list(d.values())] *)
Definition values {V} (d : t V) : list V := map snd d.

(** [d.keys()] *)
Definition keys {V} (d : t V) : list string := map fst d.
End Dict.

(** ** [models.py] *)

Inductive StepType :=
| RUNWAY_VIDEO | FFMPEG_PROCESS | WHISPER_TRANSCRIBE | GPT4_ANALYSIS | CUSTOM_PROCESS.

Module StepStatus.
Inductive t := PENDING | PROCESSING | COMPLETED | FAILED | SKIPPED.
Definition eqb (a b : t) : bool :=
  match a, b with
  | PENDING, PENDING | PROCESSING, PROCESSING | COMPLETED, COMPLETED
  | FAILED, FAILED | SKIPPED, SKIPPED => true
  | _, _ => false
  end.
End StepStatus.

Module PipelineStatus.
Inductive t := PENDING | PROCESSING | COMPLETED | FAILED | CANCELLED.
Definition eqb (a b : t) : bool :=
  match a, b with
  | PENDING, PENDING | PROCESSING, PROCESSING | COMPLETED, COMPLETED
  | FAILED, FAILED | CANCELLED, CANCELLED => true
  | _, _ => false
  end.
(** The terminal values of the specification. *)
Definition terminal (a : t) : bool :=
  match a with COMPLETED | FAILED | CANCELLED => true | _ => false end.
End PipelineStatus.

(** Values of type [Any] found in payload dictionaries. *)
#[warnings="-register-all"]
Inductive pyval :=
| PyNone
| PyBool (b : bool)
| PyInt (n : nat)
| PyStr (s : string)
| PyList (l : list pyval)
| PyDict (d : list (string * pyval)).

Definition pydict : Type := Dict.t pyval.
Definition datetime : Type := nat.

Record PipelineStep := mkStep {
  stepId : string;
  stepType : StepType;
  step_status : StepStatus.t;
  order : nat;
  input : pydict;
  output : option pydict;
  error : option string;
  startedAt : option datetime;
  step_completedAt : option datetime;
  progress : nat
}.

Record Pipeline := mkPipeline {
  pipelineId : string;
  videoId : string;
  videoUrl : string;                  (* [str(pipeline.videoUrl)], the text of the [HttpUrl] *)
  prompt : string;
  status : PipelineStatus.t;
  steps : list PipelineStep;
  createdAt : datetime;
  updatedAt : option datetime;
  completedAt : option datetime;
  totalSteps : nat;
  completedSteps : nat
}.

Record VideoRequest := mkRequest {
  req_videoId : string;
  req_videoUrl : string;
  req_prompt : string;
  pipelineConfig : option pydict
}.

Record VideoResponse := mkResponse {
  resp_videoId : string;
  resp_pipelineId : string;
  resp_status : PipelineStatus.t;
  message : string;
  resp_totalSteps : nat;
  resp_completedSteps : nat;
  resp_createdAt : datetime;
  resp_updatedAt : option datetime
}.

Record PipelineConfig := mkConfig {
  enableRunwayVideo : bool;
  enableFfmpeg : bool;
  enableWhisper : bool;
  enableGpt4 : bool;
  customSteps : list pydict
}.

(** [PipelineConfig()]: the field defaults. *)
Definition PipelineConfig_default : PipelineConfig :=
  mkConfig true false false false [].

(** Attribute assignments [obj.field = v]. *)
Definition set_step_status (v : StepStatus.t) (s : PipelineStep) : PipelineStep :=
  mkStep (stepId s) (stepType s) v (order s) (input s) (output s) (error s)
         (startedAt s) (step_completedAt s) (progress s).
Definition set_output (v : option pydict) (s : PipelineStep) : PipelineStep :=
  mkStep (stepId s) (stepType s) (step_status s) (order s) (input s) v (error s)
         (startedAt s) (step_completedAt s) (progress s).
Definition set_error (v : option string) (s : PipelineStep) : PipelineStep :=
  mkStep (stepId s) (stepType s) (step_status s) (order s) (input s) (output s) v
         (startedAt s) (step_completedAt s) (progress s).
Definition set_startedAt (v : option datetime) (s : PipelineStep) : PipelineStep :=
  mkStep (stepId s) (stepType s) (step_status s) (order s) (input s) (output s) (error s)
         v (step_completedAt s) (progress s).
Definition set_step_completedAt (v : option datetime) (s : PipelineStep) : PipelineStep :=
  mkStep (stepId s) (stepType s) (step_status s) (order s) (input s) (output s) (error s)
         (startedAt s) v (progress s).
Definition set_progress (v : nat) (s : PipelineStep) : PipelineStep :=
  mkStep (stepId s) (stepType s) (step_status s) (order s) (input s) (output s) (error s)
         (startedAt s) (step_completedAt s) v.

Definition set_videoUrl (v : string) (p : Pipeline) : Pipeline :=
  mkPipeline (pipelineId p) (videoId p) v (prompt p) (status p) (steps p) (createdAt p)
             (updatedAt p) (completedAt p) (totalSteps p) (completedSteps p).

Definition set_status (v : PipelineStatus.t) (p : Pipeline) : Pipeline :=
  mkPipeline (pipelineId p) (videoId p) (videoUrl p) (prompt p) v (steps p)
             (createdAt p) (updatedAt p) (completedAt p) (totalSteps p) (completedSteps p).
Definition set_steps (v : list PipelineStep) (p : Pipeline) : Pipeline :=
  mkPipeline (pipelineId p) (videoId p) (videoUrl p) (prompt p) (status p) v
             (createdAt p) (updatedAt p) (completedAt p) (totalSteps p) (completedSteps p).
Definition set_updatedAt (v : option datetime) (p : Pipeline) : Pipeline :=
  mkPipeline (pipelineId p) (videoId p) (videoUrl p) (prompt p) (status p) (steps p)
             (createdAt p) v (completedAt p) (totalSteps p) (completedSteps p).
Definition set_completedAt (v : option datetime) (p : Pipeline) : Pipeline :=
  mkPipeline (pipelineId p) (videoId p) (videoUrl p) (prompt p) (status p) (steps p)
             (createdAt p) (updatedAt p) v (totalSteps p) (completedSteps p).
Definition set_completedSteps (v : nat) (p : Pipeline) : Pipeline :=
  mkPipeline (pipelineId p) (videoId p) (videoUrl p) (prompt p) (status p) (steps p)
             (createdAt p) (updatedAt p) (completedAt p) (totalSteps p) v.

(** ** [exceptions.py] and the interpreter's exceptions *)

Inductive exn :=
| PipelineException (msg : string)
| ServiceException (msg : string)
| ValidationException (msg : string)
| PyException (cls : string) (msg : string)   (* KeyError, pydantic's ValidationError, ... *)
| CancelledError.                             (* derives from BaseException *)

(** [isinstance(e, Exception)] *)
Definition is_Exception (e : exn) : bool :=
  match e with CancelledError => false | _ => true end.

(** [str(e)] *)
Definition str (e : exn) : string :=
  match e with
  | PipelineException m | ServiceException m | ValidationException m => m
  | PyException _ m => m
  | CancelledError => ""
  end.

(** ** The monad of mutating, raising code *)

Record Env := mkEnv {
  ticks : nat;   (* reads of the wall clock so far *)
  draws : nat    (* identifiers drawn so far *)
}.

Inductive result (A : Type) :=
| Ok (a : A)
| Raise (e : exn).
Arguments Ok {A} a.
Arguments Raise {A} e.

Definition M (S A : Type) : Type := S -> Env -> result A * S * Env.

Definition ret {S A} (a : A) : M S A := fun s env => (Ok a, s, env).

Definition bind {S A B} (m : M S A) (k : A -> M S B) : M S B :=
  fun s env =>
    match m s env with
    | (Ok a, s', env') => k a s' env'
    | (Raise e, s', env') => (Raise e, s', env')
    end.

Definition raise {S A} (e : exn) : M S A := fun s env => (Raise e, s, env).

Definition get_state {S} : M S S := fun s env => (Ok s, s, env).

Definition modify {S} (f : S -> S) : M S unit := fun s env => (Ok tt, f s, env).

Notation "x <- m ;; k" := (bind m (fun x => k))
  (at level 100, m at next level, right associativity).
Notation "m ;;; k" := (bind m (fun _ => k))
  (at level 100, right associativity).

(** [try: body  except Exception as e: handler e] *)
Definition try_except {S A} (body : M S A) (handler : exn -> M S A) : M S A :=
  fun s env =>
    match body s env with
    | (Raise e, s', env') =>
        if is_Exception e then handler e s' env' else (Raise e, s', env')
    | r => r
    end.

(** [try: body  finally: cleanup] *)
Definition try_finally {S A} (body : M S A) (cleanup : M S unit) : M S A :=
  fun s env =>
    match body s env with
    | (r, s', env') =>
        match cleanup s' env' with
        | (Ok _, s'', env'') => (r, s'', env'')
        | (Raise e, s'', env'') => (Raise e, s'', env'')
        end
    end.

(** Run code written against a part [T] of the state [S]. *)
Definition zoom {S T A} (proj : S -> T) (upd : T -> S -> S) (m : M T A) : M S A :=
  fun s env =>
    match m (proj s) env with
    | (r, t', env') => (r, upd t' s, env')
    end.

(** ** The outside world *)

(** What an [await] on an external collaborator resolves to. *)
Inductive awaited :=
| Returns (v : option pydict)   (* the call returned [v] ([None] or a dict) *)
| Throws (e : exn).             (* the call raised, or the task was cancelled in flight *)

(** A task of the event loop, as [asyncio.create_task] and [Task.cancel] see it. *)
Inductive TaskState :=
| Scheduled (pipeline_id : string)
| CancelRequested (pipeline_id : string)
| Finished.

Record PipelineManager := mkManager {
  pipelines : Dict.t Pipeline;
  running_pipelines : Dict.t nat      (* pipeline id -> task handle *)
}.

Record World := mkWorld {
  manager : PipelineManager;          (* the module-level [pipeline_manager] *)
  tasks : list TaskState;             (* the event loop's tasks, by handle *)
  background_tasks : list string      (* [start_pipeline] calls queued by the endpoint *)
}.

Definition set_pipelines (d : Dict.t Pipeline) (w : World) : World :=
  mkWorld (mkManager d (running_pipelines (manager w))) (tasks w) (background_tasks w).
Definition set_running_pipelines (d : Dict.t nat) (w : World) : World :=
  mkWorld (mkManager (pipelines (manager w)) d) (tasks w) (background_tasks w).
Definition set_tasks (l : list TaskState) (w : World) : World :=
  mkWorld (manager w) l (background_tasks w).
Definition set_background_tasks (l : list string) (w : World) : World :=
  mkWorld (manager w) (tasks w) l.

(** [PipelineManager()] in a fresh process. *)
Definition World_init : World := mkWorld (mkManager [] []) [] [].

(** The outcome of a request handler. *)
Inductive http_exn :=
| HTTPException (status_code : nat) (detail : string)
| Uncaught (e : exn).

(** [models.py]: the answer of the status endpoint. *)
Record PipelineStatusResponse := mkStatusResponse {
  sr_pipelineId : string;
  sr_videoId : string;
  sr_status : PipelineStatus.t;
  sr_message : string;
  sr_steps : list PipelineStep;
  sr_totalSteps : nat;
  sr_completedSteps : nat;
  sr_createdAt : datetime;
  sr_updatedAt : option datetime;
  sr_completedAt : option datetime
}.

(** One entry of the list endpoint's "pipelines". *)
Record PipelineSummary := mkSummary {
  ps_pipelineId : string;
  ps_videoId : string;
  ps_status : PipelineStatus.t;
  ps_totalSteps : nat;
  ps_completedSteps : nat;
  ps_createdAt : datetime;
  ps_updatedAt : option datetime;
  ps_completedAt : option datetime
}.

(** What the collaborators of the runway service answer: the HTTP download, the
    write of the temporary file, and the SDK call that waits for the task. *)
Inductive fetched :=
| Responds (status_code : nat)
| FetchThrows (e : exn).

Inductive written :=
| Written
| WriteThrows (e : exn).

Inductive sdk_task :=
| TaskOutput (output : option pyval)     (* [task.output], [None] when it has no such attribute *)
| TaskFailedError (task_details : pyval) (* the SDK's exception, an [Exception] *)
| SdkThrows (e : exn).

(** ** Python string helpers used by the validators *)

(** [c.isspace()] for a character below 256, which is also what [str.strip()]
    removes: TAB, LF, VT, FF, CR, FS, GS, RS, US, the space, NEL (133) and the
    no-break space (160). *)
Definition py_isspace (c : ascii) : bool :=
  let n := nat_of_ascii c in
  ((9 <=? n) && (n <=? 13)) || ((28 <=? n) && (n <=? 32)) || (n =? 133) || (n =? 160).

Fixpoint lstrip (s : string) : string :=
  match s with
  | EmptyString => EmptyString
  | String c s' => if py_isspace c then lstrip s' else s
  end.

Fixpoint rstrip (s : string) : string :=
  match s with
  | EmptyString => EmptyString
  | String c s' =>
      match rstrip s' with
      | EmptyString => if py_isspace c then EmptyString else String c EmptyString
      | r => String c r
      end
  end.

(** [s.strip()] *)
Definition strip (s : string) : string := rstrip (lstrip s).

(** [not s] for a [str]. *)
Definition str_falsy (s : string) : bool :=
  match s with EmptyString => true | _ => false end.

(** Every character of [s] is white space (so is the empty string's none). *)
Fixpoint all_space (s : string) : bool :=
  match s with
  | EmptyString => true
  | String c s' => py_isspace c && all_space s'
  end.

(** The oracles: what the clock, the identifier source and the libraries answer. *)
Class Oracles := {
  now : nat -> datetime;                 (* the n-th [datetime.now()] *)
  uuid4 : nat -> string;                 (* the n-th [str(uuid.uuid4())] *)
  is_uuid : string -> bool;              (* [uuid.UUID(s)] does not raise [ValueError] *)
  HttpUrl_error : string -> option string;
    (* pydantic's verdict on a [HttpUrl] field: [None], or the error text *)
  HttpUrl_text : string -> string;
    (* [str()] of the [HttpUrl] pydantic builds from an accepted string: the
       normalised text (host in lower case, a path added when there is none) *)
  PipelineConfig_parse : pydict -> PipelineConfig + string;
    (* [PipelineConfig] built from the dict: the configuration, or pydantic's error text *)
  py_repr : pyval -> string;             (* [str(v)] for a [v] that is not a [str] *)
  format_status : PipelineStatus.t -> string   (* the enum member inside an f-string *)
}.

Section Program.
Context `{Oracles}.

Definition datetime_now {S} : M S datetime :=
  fun s env => (Ok (now (ticks env)), s, mkEnv (Datatypes.S (ticks env)) (draws env)).

Definition uuid4_str {S} : M S string :=
  fun s env => (Ok (uuid4 (draws env)), s, mkEnv (ticks env) (Datatypes.S (draws env))).

(** [await coro] *)
Definition await {S} (r : awaited) : M S (option pydict) :=
  match r with
  | Returns v => ret v
  | Throws e => raise e
  end.

(** [f"{v}"] *)
Definition py_str (v : pyval) : string :=
  match v with PyStr s => s | _ => py_repr v end.

(** ** [utils/validators.py] *)

Definition validate_uuid {S} (uuid_string field_name : string) : M S bool :=
  if is_uuid uuid_string then ret true
  else raise (ValidationException ("Invalid " ++ field_name ++ " format: " ++ uuid_string)).

(** The scan for a video extension that follows the two tests changes nothing
    ([pass]). *)
Definition validate_video_url {S} (url : string) : M S bool :=
  if str_falsy url then raise (ValidationException "Video URL cannot be empty")
  else if negb (String.prefix "http://" url || String.prefix "https://" url)
  then raise (ValidationException "Video URL must be a valid HTTP/HTTPS URL")
  else ret true.

Definition validate_prompt {S} (prompt : string) : M S bool :=
  if str_falsy prompt || str_falsy (strip prompt)
  then raise (ValidationException "Prompt cannot be empty")
  else if 1000 <? String.length prompt
  then raise (ValidationException "Prompt too long (max 1000 characters)")
  else ret true.

Definition allowed_keys : list string :=
  ["enableRunwayVideo"; "enableFfmpeg"; "enableWhisper"; "enableGpt4"; "customSteps"].

Fixpoint check_config_keys {S} (ks : list string) : M S bool :=
  match ks with
  | [] => ret true
  | key :: ks' =>
      if negb (existsb (String.eqb key) allowed_keys)
      then raise (ValidationException ("Invalid pipeline config key: " ++ key))
      else check_config_keys ks'
  end.

Definition validate_pipeline_config {S} (config : pydict) : M S bool :=
  check_config_keys (Dict.keys config).

(** ** [pipeline_manager.py] *)

(** [Pipeline(...)]: pydantic validates the [HttpUrl] field when the model is
    built, and the field of the model is the [HttpUrl] object, whose text is the
    normalised one, not the string that was given. *)
Definition Pipeline_new {S} (p : Pipeline) : M S Pipeline :=
  match HttpUrl_error (videoUrl p) with
  | None => ret (set_videoUrl (HttpUrl_text (videoUrl p)) p)
  | Some msg => raise (PyException "ValidationError" msg)
  end.

(** One [steps.append(PipelineStep(...)); order += 1] of [_create_steps]. *)
Definition append_step {S} (ty : StepType) (inp : pydict)
    (acc : list PipelineStep * nat) : M S (list PipelineStep * nat) :=
  let '(steps, order) := acc in
  sid <- uuid4_str ;;
  ret (app steps [mkStep sid ty StepStatus.PENDING order inp None None None None 0],
       order + 1).

Fixpoint append_custom_steps {S} (cs : list pydict)
    (acc : list PipelineStep * nat) : M S (list PipelineStep * nat) :=
  match cs with
  | [] => ret acc
  | custom_step :: cs' =>
      acc' <- append_step CUSTOM_PROCESS custom_step acc ;;
      append_custom_steps cs' acc'
  end.

Definition _create_steps {S} (config : PipelineConfig) : M S (list PipelineStep) :=
  acc <- (if enableRunwayVideo config then append_step RUNWAY_VIDEO [] ([], 0)
          else ret ([], 0)) ;;
  acc <- (if enableFfmpeg config then append_step FFMPEG_PROCESS [] acc else ret acc) ;;
  acc <- (if enableWhisper config then append_step WHISPER_TRANSCRIBE [] acc else ret acc) ;;
  acc <- (if enableGpt4 config then append_step GPT4_ANALYSIS [] acc else ret acc) ;;
  acc <- append_custom_steps (customSteps config) acc ;;
  ret (fst acc).

(** The assignments [config.enableFfmpeg = False] ... at the head of [create_pipeline]. *)
Definition force_disabled (config : PipelineConfig) : PipelineConfig :=
  mkConfig (enableRunwayVideo config) false false false (customSteps config).

Definition create_pipeline (video_id video_url prompt : string)
    (config : option PipelineConfig) : M World Pipeline :=
  let config := match config with None => PipelineConfig_default | Some c => c end in
  let config := force_disabled config in
  pipeline_id <- uuid4_str ;;
  steps <- _create_steps config ;;
  t <- datetime_now ;;
  pipeline <- Pipeline_new
    (mkPipeline pipeline_id video_id video_url prompt PipelineStatus.PENDING steps
                t None None (length steps) 0) ;;
  modify (fun w => set_pipelines (Dict.set pipeline_id pipeline (pipelines (manager w))) w) ;;;
  ret pipeline.

(** [self.pipelines[pipeline_id].field = v] *)
Definition update_pipeline (pipeline_id : string) (f : Pipeline -> Pipeline) : M World unit :=
  modify (fun w =>
    match Dict.get pipeline_id (pipelines (manager w)) with
    | Some p => set_pipelines (Dict.set pipeline_id (f p) (pipelines (manager w))) w
    | None => w
    end).

(** [asyncio.create_task(coro)]: the handle is the task's index in the loop. *)
Definition create_task (pipeline_id : string) : M World nat :=
  fun w env => (Ok (length (tasks w)), set_tasks (app (tasks w) [Scheduled pipeline_id]) w, env).

(** [task.cancel()] *)
Definition Task_cancel (h : nat) : M World unit :=
  modify (fun w =>
    set_tasks (alter (fun t => match t with
                               | Scheduled pid => CancelRequested pid
                               | _ => t
                               end) h (tasks w)) w).

Definition start_pipeline (pipeline_id : string) : M World unit :=
  w <- get_state ;;
  if negb (Dict.contains pipeline_id (pipelines (manager w)))
  then raise (PipelineException ("Pipeline " ++ pipeline_id ++ " not found"))
  else
    update_pipeline pipeline_id (set_status PipelineStatus.PROCESSING) ;;;
    t <- datetime_now ;;
    update_pipeline pipeline_id (set_updatedAt (Some t)) ;;;
    task <- create_task pipeline_id ;;
    modify (fun w => set_running_pipelines
                       (Dict.set pipeline_id task (running_pipelines (manager w))) w).

(** [if result and result.get("status") == "success"] *)
Definition truthy (result : option pydict) : bool :=
  match result with
  | Some (_ :: _) => true
  | _ => false
  end.

Definition is_success (result : option pydict) : bool :=
  match result with
  | Some d => match Dict.get "status" d with
              | Some (PyStr s) => String.eqb s "success"
              | _ => false
              end
  | None => false
  end.

(** [result.get("error", "Unknown error") if result else "No result"], as the
    f-string of the next line renders it. *)
Definition failure_text (result : option pydict) : string :=
  match result with
  | Some ((_ :: _) as d) =>
      match Dict.get "error" d with
      | Some v => py_str v
      | None => "Unknown error"
      end
  | _ => "No result"
  end.

(** [stored] is what the manager holds under [pipeline_id] when the step runs:
    [pipeline = self.pipelines[pipeline_id]] raises [KeyError] when there is
    nothing, and [str] of a [KeyError] is the [repr] of the key: the identifier
    between single quotes, for an identifier free of quotes and escapes, as the
    UUID texts the manager uses are.  The argument [r] is what the call
    [await runway_service.process_video(video_url=pipeline.videoUrl,
    prompt=pipeline.prompt, pipeline_id=pipeline_id)] resolves to. *)
Definition _execute_runway_step (pipeline_id : string) (stored : option Pipeline)
    (r : awaited) : M PipelineStep unit :=
  match stored with
  | None => raise (PyException "KeyError" ("'" ++ pipeline_id ++ "'"))
  | Some pipeline =>
      result <- await r ;;
      if truthy result && is_success result
      then modify (set_output result)
      else
        modify (set_step_status StepStatus.FAILED) ;;;
        modify (set_error (Some (failure_text result))) ;;;
        raise (ServiceException ("Runway service failed: " ++ failure_text result))
  end.

Definition _execute_ffmpeg_step_placeholder : M PipelineStep unit :=
  modify (set_step_status StepStatus.SKIPPED) ;;;
  modify (set_error (Some "FFmpeg service is currently disabled")).

Definition _execute_whisper_step_placeholder : M PipelineStep unit :=
  modify (set_step_status StepStatus.SKIPPED) ;;;
  modify (set_error (Some "Whisper service is currently disabled")).

Definition _execute_gpt4_step_placeholder : M PipelineStep unit :=
  modify (set_step_status StepStatus.SKIPPED) ;;;
  modify (set_error (Some "GPT4 service is currently disabled")).

(** The argument [r] is what [await asyncio.sleep(1)] resolves to. *)
Definition _execute_custom_step (r : awaited) : M PipelineStep unit :=
  _ <- await r ;;
  step <- get_state ;;
  modify (set_output (Some [("custom_result", PyStr "Custom processing result...");
                            ("step_data", PyDict (input step));
                            ("status", PyStr "success")])).

(** The five members of [StepType] exhaust the chain of [if]/[elif]; its final
    [else] (status SKIPPED, progress 100) has no step type left to serve. *)
Definition _execute_step (pipeline_id : string) (stored : option Pipeline) (r : awaited)
    : M PipelineStep unit :=
  modify (set_step_status StepStatus.PROCESSING) ;;;
  t <- datetime_now ;;
  modify (set_startedAt (Some t)) ;;;
  modify (set_progress 10) ;;;
  try_finally
    (try_except
       (step <- get_state ;;
        match stepType step with
        | RUNWAY_VIDEO => _execute_runway_step pipeline_id stored r
        | FFMPEG_PROCESS => _execute_ffmpeg_step_placeholder
        | WHISPER_TRANSCRIBE => _execute_whisper_step_placeholder
        | GPT4_ANALYSIS => _execute_gpt4_step_placeholder
        | CUSTOM_PROCESS => _execute_custom_step r
        end)
       (fun e =>
          modify (set_step_status StepStatus.FAILED) ;;;
          modify (set_error (Some (str e))) ;;;
          modify (set_progress 0) ;;;
          step <- get_state ;;
          raise (ServiceException ("Step " ++ stepId step ++ " failed: " ++ str e))))
    (t <- datetime_now ;;
     modify (set_step_completedAt (Some t)) ;;;
     step <- get_state ;;
     if StepStatus.eqb (step_status step) StepStatus.PROCESSING
     then modify (set_step_status StepStatus.COMPLETED) ;;; modify (set_progress 100)
     else ret tt).

(** Code run on the step object [pipeline.steps[i]]. *)
Definition on_step (i : nat) (m : M PipelineStep unit) : M Pipeline unit :=
  fun p env =>
    match steps p !! i with
    | Some step =>
        match m step env with
        | (r, step', env') => (r, set_steps (<[i := step']> (steps p)) p, env')
        end
    | None => (Ok tt, p, env)
    end.

(** [for step in pipeline.steps: ...], over the positions still to visit;
    [script i] is what the executor awaited for step [i] resolves to.  The task
    runs without interleaving, so the pipeline it holds is the one the manager
    still stores under [pipeline_id] when a step looks it up. *)
Fixpoint for_steps (pipeline_id : string) (script : nat -> awaited)
    (idxs : list nat) : M Pipeline unit :=
  match idxs with
  | [] => ret tt
  | i :: rest =>
      pipeline <- get_state ;;
      if PipelineStatus.eqb (status pipeline) PipelineStatus.CANCELLED
      then ret tt                                               (* break *)
      else
        on_step i (_execute_step pipeline_id (Some pipeline) (script i)) ;;;
        pipeline <- get_state ;;
        match step_status <$> steps pipeline !! i with
        | Some StepStatus.FAILED =>
            modify (set_status PipelineStatus.FAILED)           (* break *)
        | Some StepStatus.COMPLETED =>
            modify (fun p => set_completedSteps (completedSteps p + 1) p) ;;;
            for_steps pipeline_id script rest
        | _ => for_steps pipeline_id script rest
        end
  end.

(** The [try] block of [_execute_pipeline] and its [except Exception] handler,
    on the pipeline object the task holds. *)
Definition _execute_pipeline_try (pipeline_id : string) (script : nat -> awaited)
    : M Pipeline unit :=
  try_except
    (pipeline <- get_state ;;
     for_steps pipeline_id script (seq 0 (length (steps pipeline))) ;;;
     pipeline <- get_state ;;
     (if negb (PipelineStatus.eqb (status pipeline) PipelineStatus.FAILED)
      then modify (set_status PipelineStatus.COMPLETED) ;;;
           t <- datetime_now ;;
           modify (set_completedAt (Some t))
      else ret tt) ;;;
     t <- datetime_now ;;
     modify (set_updatedAt (Some t)))
    (fun e =>
       modify (set_status PipelineStatus.FAILED) ;;;
       t <- datetime_now ;;
       modify (set_updatedAt (Some t)) ;;;
       raise (PipelineException ("Pipeline " ++ pipeline_id ++ " failed: " ++ str e))).

Definition _execute_pipeline (pipeline_id : string) (script : nat -> awaited)
    : M World unit :=
  w <- get_state ;;
  match Dict.get pipeline_id (pipelines (manager w)) with
  | None => raise (PyException "KeyError" ("'" ++ pipeline_id ++ "'"))
  | Some pipeline =>
      try_finally
        (zoom (fun _ => pipeline)
              (fun p w => set_pipelines (Dict.set pipeline_id p (pipelines (manager w))) w)
              (_execute_pipeline_try pipeline_id script))
        (w <- get_state ;;
         if Dict.contains pipeline_id (running_pipelines (manager w))
         then modify (fun w => set_running_pipelines
                                 (Dict.del pipeline_id (running_pipelines (manager w))) w)
         else ret tt)
  end.

(** The event loop runs the task with handle [h] to its end.  A task cancelled
    before its first step never enters the coroutine; an exception that escapes
    the coroutine stays in the task object. *)
Definition run_task (h : nat) (script : nat -> awaited) (w : World) (env : Env)
    : World * Env :=
  match tasks w !! h with
  | Some (Scheduled pipeline_id) =>
      match _execute_pipeline pipeline_id script w env with
      | (_, w', env') => (set_tasks (<[h := Finished]> (tasks w')) w', env')
      end
  | Some (CancelRequested _) => (set_tasks (<[h := Finished]> (tasks w)) w, env)
  | _ => (w, env)
  end.

Definition get_pipeline (pipeline_id : string) (w : World) : option Pipeline :=
  Dict.get pipeline_id (pipelines (manager w)).

Definition get_all_pipelines (w : World) : list Pipeline :=
  Dict.values (pipelines (manager w)).

(** The block [if pipeline_id in self.running_pipelines: ...cancel(); del ...]. *)
Definition cancel_running_task (pipeline_id : string) : M World unit :=
  w <- get_state ;;
  match Dict.get pipeline_id (running_pipelines (manager w)) with
  | Some task =>
      Task_cancel task ;;;
      modify (fun w => set_running_pipelines
                         (Dict.del pipeline_id (running_pipelines (manager w))) w)
  | None => ret tt
  end.

Definition cancel_pipeline (pipeline_id : string) : M World bool :=
  w <- get_state ;;
  if negb (Dict.contains pipeline_id (pipelines (manager w)))
  then ret false
  else
    update_pipeline pipeline_id (set_status PipelineStatus.CANCELLED) ;;;
    t <- datetime_now ;;
    update_pipeline pipeline_id (set_updatedAt (Some t)) ;;;
    cancel_running_task pipeline_id ;;;
    ret true.

Definition delete_pipeline (pipeline_id : string) : M World bool :=
  w <- get_state ;;
  if negb (Dict.contains pipeline_id (pipelines (manager w)))
  then ret false
  else
    cancel_running_task pipeline_id ;;;
    modify (fun w => set_pipelines (Dict.del pipeline_id (pipelines (manager w))) w) ;;;
    ret true.

(** ** [main.py]: the transform endpoint *)

Definition VideoResponse_of (request : VideoRequest) (p : Pipeline) (msg : string)
    (updated : option datetime) : VideoResponse :=
  mkResponse (req_videoId request) (pipelineId p) (status p) msg
             (totalSteps p) (completedSteps p) (createdAt p) updated.

(** The [try] block of [transform_video]. *)
Definition transform_video_try (request : VideoRequest) : M World VideoResponse :=
  _ <- validate_uuid (req_videoId request) "videoId" ;;
  _ <- validate_video_url (req_videoUrl request) ;;
  _ <- validate_prompt (req_prompt request) ;;
  _ <- (if truthy (pipelineConfig request)
        then validate_pipeline_config (default [] (pipelineConfig request))
        else ret true) ;;
  w <- get_state ;;
  match filter (fun p => String.eqb (videoId p) (req_videoId request) = true)
               (get_all_pipelines w) with
  | existing_pipeline :: _ =>
      ret (VideoResponse_of request existing_pipeline
             ("Pipeline already exists with status: "
                ++ format_status (status existing_pipeline))
             (updatedAt existing_pipeline))
  | [] =>
      config <- (if truthy (pipelineConfig request)
                 then match PipelineConfig_parse (default [] (pipelineConfig request)) with
                      | inl c => ret (Some c)
                      | inr msg => raise (PyException "ValidationError" msg)
                      end
                 else ret None) ;;
      pipeline <- create_pipeline (req_videoId request) (req_videoUrl request)
                                  (req_prompt request) config ;;
      modify (fun w => set_background_tasks
                         (app (background_tasks w) [pipelineId pipeline]) w) ;;;
      ret (VideoResponse_of request pipeline "Pipeline created and started" None)
  end.

Definition transform_video (request : VideoRequest) (w : World) (env : Env)
    : (VideoResponse + http_exn) * World * Env :=
  match transform_video_try request w env with
  | (Ok response, w', env') => (inl response, w', env')
  | (Raise (ValidationException m), w', env') => (inr (HTTPException 400 m), w', env')
  | (Raise (PipelineException m), w', env') => (inr (HTTPException 500 m), w', env')
  | (Raise e, w', env') =>
      if is_Exception e
      then (inr (HTTPException 500 ("Internal server error: " ++ str e)), w', env')
      else (inr (Uncaught e), w', env')
  end.

(** ** [services/runway_service.py] *)

(** [bool(v)] *)
Definition py_truthy (v : pyval) : bool :=
  match v with
  | PyNone => false
  | PyBool b => b
  | PyInt n => negb (n =? 0)
  | PyStr s => negb (str_falsy s)
  | PyList l => match l with [] => false | _ => true end
  | PyDict d => match d with [] => false | _ => true end
  end.

(** [os.path.join(a, b)] on POSIX, for a relative [b]. *)
Definition os_path_join (a b : string) : string :=
  if str_falsy a then b
  else if String.eqb (String.substring (String.length a - 1) 1 a) "/" then a ++ b
  else a ++ "/" ++ b.

(** [tmpdir] is [tempfile.gettempdir()]; [get] is what [await client.get(...)]
    resolves to and [wr] what writing the file does. *)
Definition download_video {S} (tmpdir pipeline_id : string) (get : fetched) (wr : written)
    : M S (option string) :=
  try_except
    (let temp_file := os_path_join tmpdir ("video_" ++ pipeline_id ++ ".mp4") in
     status_code <- (match get with
                     | Responds c => ret c
                     | FetchThrows e => raise e
                     end) ;;
     if status_code =? 200
     then (match wr with Written => ret tt | WriteThrows e => raise e end) ;;;
          ret (Some temp_file)
     else ret None)
    (fun _ => ret None).

(** [not local_video_path] *)
Definition path_falsy (path : option string) : bool :=
  match path with
  | Some s => str_falsy s
  | None => true
  end.

(** [task.output[0] if isinstance(task.output, list) else str(task.output)] *)
Definition output_url_of (output : pyval) : pyval :=
  match output with
  | PyList (x :: _) => x
  | v => PyStr (py_str v)
  end.

(** [sdk] is what [self.client.text_to_image.create(...).wait_for_task_output()]
    does.  The handler of [TaskFailedError] is applied where the SDK raises it;
    removing the temporary file cannot fail (bare [except: pass]). *)
Definition process_video {S} (tmpdir video_url prompt pipeline_id : string)
    (get : fetched) (wr : written) (sdk : sdk_task) : M S (option pydict) :=
  try_except
    (local_video_path <- download_video tmpdir pipeline_id get wr ;;
     if path_falsy local_video_path
     then ret (Some [("error", PyStr "Failed to download video from URL");
                     ("status", PyStr "failed")])
     else
       match sdk with
       | TaskOutput output =>
           match output with
           | Some out =>
               if py_truthy out
               then ret (Some [("video_url", output_url_of out);
                               ("processing_time", PyStr "2.5s");
                               ("model", PyStr "gen4_image");
                               ("status", PyStr "success")])
               else ret None
           | None => ret None
           end
       | TaskFailedError task_details =>
           ret (Some [("error", PyStr (py_str task_details)); ("status", PyStr "failed")])
       | SdkThrows e => raise e
       end)
    (fun e => ret (Some [("error", PyStr (str e)); ("status", PyStr "failed")])).


(** ** Clients of the manager *)

(** One call made on the manager from outside a task, or one run of a task. *)
Inductive Call :=
| Create (video_id video_url prompt : string) (config : option PipelineConfig)
| Start (pipeline_id : string)
| Run (task : nat) (script : nat -> awaited)
| Cancel (pipeline_id : string)
| Delete (pipeline_id : string).

Definition apply_call (c : Call) (st : World * Env) : World * Env :=
  let '(w, env) := st in
  match c with
  | Create video_id video_url prompt config =>
      match create_pipeline video_id video_url prompt config w env with
      | (_, w', env') => (w', env')
      end
  | Start pipeline_id =>
      match start_pipeline pipeline_id w env with (_, w', env') => (w', env') end
  | Run task script => run_task task script w env
  | Cancel pipeline_id =>
      match cancel_pipeline pipeline_id w env with (_, w', env') => (w', env') end
  | Delete pipeline_id =>
      match delete_pipeline pipeline_id w env with (_, w', env') => (w', env') end
  end.

(** The calls of [cs], in order, from the state [st]. *)
Definition run_calls (cs : list Call) (st : World * Env) : World * Env :=
  fold_left (fun st c => apply_call c st) cs st.

End Program.

(** ** [main.py]: the other endpoints *)

Module main.

(** The [except] clauses the endpoints share: a [ValidationException] becomes
    status 400, an [HTTPException] raised in the [try] block (here: returned on
    the right) is raised again, any other [Exception] becomes status 500. *)
Definition handle_errors {A} (x : result (A + http_exn) * World * Env)
    : (A + http_exn) * World * Env :=
  match x with
  | (Ok answer, w, env) => (answer, w, env)
  | (Raise (ValidationException m), w, env) => (inr (HTTPException 400 m), w, env)
  | (Raise e, w, env) =>
      if is_Exception e
      then (inr (HTTPException 500 ("Internal server error: " ++ str e)), w, env)
      else (inr (Uncaught e), w, env)
  end.

Definition get_pipeline_status `{Oracles} (pipeline_id : string) (w : World) (env : Env)
    : (PipelineStatusResponse + http_exn) * World * Env :=
  handle_errors
    ((_ <- validate_uuid pipeline_id "pipelineId" ;;
      w <- get_state ;;
      match get_pipeline pipeline_id w with
      | None => ret (inr (HTTPException 404 "Pipeline not found"))
      | Some pipeline =>
          ret (inl (mkStatusResponse (pipelineId pipeline) (videoId pipeline)
                      (status pipeline)
                      ("Pipeline status: " ++ format_status (status pipeline))
                      (steps pipeline) (totalSteps pipeline) (completedSteps pipeline)
                      (createdAt pipeline) (updatedAt pipeline) (completedAt pipeline)))
      end) w env).

Definition get_video_status_legacy `{Oracles} (video_id : string) (w : World) (env : Env)
    : (VideoResponse + http_exn) * World * Env :=
  handle_errors
    ((_ <- validate_uuid video_id "videoId" ;;
      w <- get_state ;;
      match filter (fun p => String.eqb (videoId p) video_id = true)
                   (get_all_pipelines w) with
      | [] => ret (inr (HTTPException 404 "Video not found"))
      | pipeline :: _ =>
          ret (inl (mkResponse (videoId pipeline) (pipelineId pipeline) (status pipeline)
                      ("Pipeline status: " ++ format_status (status pipeline))
                      (totalSteps pipeline) (completedSteps pipeline)
                      (createdAt pipeline) (updatedAt pipeline)))
      end) w env).

(** The answer is the pair of "pipelines" and "total". *)
Definition get_all_pipelines (w : World) (env : Env)
    : (list PipelineSummary * nat + http_exn) * World * Env :=
  handle_errors
    ((w <- get_state ;;
      let pipelines := get_all_pipelines w in
      ret (inl (map (fun p => mkSummary (pipelineId p) (videoId p) (status p)
                                (totalSteps p) (completedSteps p) (createdAt p)
                                (updatedAt p) (completedAt p)) pipelines,
                length pipelines))) w env).

(** The answer is the "message". *)
Definition cancel_pipeline `{Oracles} (pipeline_id : string) (w : World) (env : Env)
    : (string + http_exn) * World * Env :=
  handle_errors
    ((_ <- validate_uuid pipeline_id "pipelineId" ;;
      success <- cancel_pipeline pipeline_id ;;
      if negb success then ret (inr (HTTPException 404 "Pipeline not found"))
      else ret (inl "Pipeline cancelled successfully")) w env).

Definition delete_pipeline `{Oracles} (pipeline_id : string) (w : World) (env : Env)
    : (string + http_exn) * World * Env :=
  handle_errors
    ((_ <- validate_uuid pipeline_id "pipelineId" ;;
      success <- delete_pipeline pipeline_id ;;
      if negb success then ret (inr (HTTPException 404 "Pipeline not found"))
      else ret (inl "Pipeline deleted successfully")) w env).

End main.

(** The components of what a computation returns. *)
Definition result_of {A S} (x : result A * S * Env) : result A := fst (fst x).
Definition state_of {A S} (x : result A * S * Env) : S := snd (fst x).
Definition env_of {A S} (x : result A * S * Env) : Env := snd x.

(** The number of steps whose status is COMPLETED. *)
Definition count_completed (l : list PipelineStep) : nat :=
  length (List.filter (fun s => StepStatus.eqb (step_status s) StepStatus.COMPLETED) l).

(** The specification's plan for a configuration, to compare [_create_steps]
    with: one step per enabled flag in the precedence order primary-transform,
    media-process, transcribe, content-analyze, each with an empty input, then
    one custom step per entry of [customSteps], with that entry as its input. *)
Definition planned_steps (config : PipelineConfig) : list (StepType * pydict) :=
  app (if enableRunwayVideo config then [(RUNWAY_VIDEO, [])] else [])
   (app (if enableFfmpeg config then [(FFMPEG_PROCESS, [])] else [])
    (app (if enableWhisper config then [(WHISPER_TRANSCRIBE, [])] else [])
     (app (if enableGpt4 config then [(GPT4_ANALYSIS, [])] else [])
          (map (fun c => (CUSTOM_PROCESS, c)) (customSteps config))))).

(** The specification's count of the enabled flags of a configuration. *)
Definition enabled_flags (config : PipelineConfig) : nat :=
  Nat.b2n (enableRunwayVideo config) + Nat.b2n (enableFfmpeg config)
  + Nat.b2n (enableWhisper config) + Nat.b2n (enableGpt4 config).

(** The step [_create_steps] builds at position [i] from the [d]-th identifier on. *)
Definition fresh_step `{Oracles} (d : nat) (i : nat) (x : StepType * pydict) : PipelineStep :=
  mkStep (uuid4 (d + i)) (fst x) StepStatus.PENDING i (snd x) None None None None 0.

(** The three assignments that open [_execute_step]. *)
Definition begun (t : datetime) (s : PipelineStep) : PipelineStep :=
  set_progress 10 (set_startedAt (Some t) (set_step_status StepStatus.PROCESSING s)).


(** Two states of one step: the fields no execution assigns agree. *)
Definition same_identity (s s' : PipelineStep) : Prop :=
  stepId s' = stepId s /\ stepType s' = stepType s /\ order s' = order s
  /\ input s' = input s.

(** The step types that have an executor; the others are placeholders. *)
Definition executes (ty : StepType) : bool :=
  match ty with
  | RUNWAY_VIDEO | CUSTOM_PROCESS => true
  | _ => false
  end.

(** The executor awaited for the step does not fail: the runway call returns a
    successful result, the custom step's sleep returns. *)
Definition cooperates (r : awaited) (s : PipelineStep) : bool :=
  match stepType s, r with
  | RUNWAY_VIDEO, Returns result => truthy result && is_success result
  | CUSTOM_PROCESS, Returns _ => true
  | (RUNWAY_VIDEO | CUSTOM_PROCESS), Throws _ => false
  | _, _ => true
  end.

(** What a cooperative execution leaves of a step. *)
Definition executed_well (s s' : PipelineStep) : Prop :=
  step_status s' = (if executes (stepType s) then StepStatus.COMPLETED
                    else StepStatus.SKIPPED)
  /\ progress s' = (if executes (stepType s) then 100 else 10)
  /\ (step_completedAt s' <> None).

(** A step as [_create_steps] makes it. *)
Definition untouched (s : PipelineStep) : Prop :=
  step_status s = StepStatus.PENDING /\ progress s = 0 /\ output s = None
  /\ error s = None /\ startedAt s = None /\ step_completedAt s = None.

(** The request passes the four validators of [transform_video]. *)
Definition acceptable `{Oracles} (request : VideoRequest) : bool :=
  is_uuid (req_videoId request)
  && negb (str_falsy (req_videoUrl request))
  && (String.prefix "http://" (req_videoUrl request)
      || String.prefix "https://" (req_videoUrl request))
  && negb (all_space (req_prompt request))
  && (String.length (req_prompt request) <=? 1000)
  && (if truthy (pipelineConfig request)
      then forallb (fun k => existsb (String.eqb k) allowed_keys)
                   (Dict.keys (default [] (pipelineConfig request)))
      else true).

(** The configuration [transform_video] hands to [create_pipeline], when the
    request's dict parses. *)
Definition parsed_config `{Oracles} (request : VideoRequest)
    : option (option PipelineConfig) :=
  if truthy (pipelineConfig request)
  then match PipelineConfig_parse (default [] (pipelineConfig request)) with
       | inl c => Some (Some c)
       | inr _ => None
       end
  else Some None.

(** The pipelines stored for a video, oldest first. *)
Definition pipelines_of_video (video_id : string) (w : World) : list Pipeline :=
  filter (fun p => String.eqb (videoId p) video_id = true) (get_all_pipelines w).

(** ** A sample environment and sample inputs *)

Definition sample_oracles : Oracles := {|
  now := fun n => 1000 + n;
  uuid4 := fun n => String (ascii_of_nat (97 + n)) "-uuid";
  is_uuid := fun s => String.eqb s "vid-1" || String.eqb s "vid-2";
  HttpUrl_error := fun u =>
    if String.prefix "http://" u || String.prefix "https://" u then None
    else Some "invalid or missing URL scheme";
  HttpUrl_text := fun u =>
    if String.eqb u "https://EXAMPLE.com" then "https://example.com/" else u;
  PipelineConfig_parse := fun d =>
    inl (mkConfig true
           (match Dict.get "enableFfmpeg" d with Some (PyBool b) => b | _ => false end)
           false false []);
  py_repr := fun _ => "<object>";
  format_status := fun _ => "PipelineStatus"
|}.

Definition env0 : Env := mkEnv 0 0.

(** The executor succeeds, [Success{output: {video_url: ...}}]. *)
Definition success_result : pydict :=
  [("video_url", PyStr "https://x/out.mp4"); ("processing_time", PyStr "2.5s");
   ("model", PyStr "gen4_image"); ("status", PyStr "success")].
Definition success_script : nat -> awaited := fun _ => Returns (Some success_result).

(** The executor fails, [Failure{error: "quota exceeded"}]. *)
Definition quota_result : pydict :=
  [("error", PyStr "quota exceeded"); ("status", PyStr "failed")].
Definition quota_script : nat -> awaited := fun _ => Returns (Some quota_result).

Definition pending_step (sid : string) (ty : StepType) (i : nat) : PipelineStep :=
  mkStep sid ty StepStatus.PENDING i [] None None None None 0.

(** A pipeline in status PROCESSING with the given fresh steps. *)
Definition processing_pipeline (l : list PipelineStep) : Pipeline :=
  mkPipeline "p-1" "vid-1" "https://x/in.mp4" "make it blue" PipelineStatus.PROCESSING
             l 1000 (Some 1001) None (length l) 0.

(** Scenario calls: create with the default configuration, start, run the task. *)
Definition create_default : Call :=
  Create "vid-1" "https://x/in.mp4" "make it blue" None.

Definition started_state : World * Env :=
  run_calls (H := sample_oracles) [create_default; Start "a-uuid"] (World_init, env0).

Definition completed_state : World * Env :=
  run_calls (H := sample_oracles)
            [create_default; Start "a-uuid"; Run 0 success_script] (World_init, env0).

(** The pipeline that [started_state] stores under "a-uuid". *)
Definition started_pipeline : Pipeline :=
  mkPipeline "a-uuid" "vid-1" "https://x/in.mp4" "make it blue" PipelineStatus.PROCESSING
             [pending_step "b-uuid" RUNWAY_VIDEO 0] 1000 (Some 1001) None 1 0.

(** Every flag set, and one custom step. *)
Definition all_enabled : PipelineConfig :=
  mkConfig true true true true [[("type", PyStr "resize")]].

(** A store with one started pipeline, under an identifier the UUID check
    accepts, for the video "vid-2"; its task is scheduled under handle 0. *)
Definition mixed_steps : list PipelineStep :=
  [pending_step "s-1" RUNWAY_VIDEO 0; pending_step "s-2" FFMPEG_PROCESS 1;
   pending_step "s-3" CUSTOM_PROCESS 2].

Definition stored_pipeline : Pipeline :=
  mkPipeline "vid-1" "vid-2" "https://x/in.mp4" "make it blue" PipelineStatus.PROCESSING
             mixed_steps 1000 (Some 1001) None 3 0.

Definition stored_world : World :=
  mkWorld (mkManager [("vid-1", stored_pipeline)] [("vid-1", 0)]) [Scheduled "vid-1"] [].

(** Requests to the transform endpoint: for the video, with its defaults. *)
Definition request_for (video_id : string) : VideoRequest :=
  mkRequest video_id "https://x/in.mp4" "make it blue" None.

(** The SDK task ends with a list of one output URL. *)
Definition sdk_output : sdk_task := TaskOutput (Some (PyList [PyStr "https://x/out.mp4"])).

(** The awaits of a pipeline with the runway step first: the runway call
    succeeds, and each [asyncio.sleep] of a custom step returns nothing. *)
Definition runway_then_sleep : nat -> awaited :=
  fun i => match i with
           | 0 => Returns (Some success_result)
           | _ => Returns None
           end.

(** A prompt of blanks below and above 128: a space, a no-break space, NEL. *)
Definition blank_prompt_latin1 : string :=
  String " " (String (ascii_of_nat 160) (String (ascii_of_nat 133) EmptyString)).

(** * Properties *)

(** ** Dictionaries *)

Lemma Dict_get_set_eq {V} (k : string) (v : V) (d : Dict.t V) :
  Dict.get k (Dict.set k v d) = Some v.
Proof.
  induction d as [|[k' v'] d IH]; simpl.
  - now rewrite String.eqb_refl.
  - destruct (String.eqb k k') eqn:E; simpl; rewrite ?String.eqb_refl, ?E; auto.
Qed.

Lemma Dict_get_set_ne {V} (k k' : string) (v : V) (d : Dict.t V) :
  k' <> k -> Dict.get k' (Dict.set k v d) = Dict.get k' d.
Proof.
  intros Hne. apply String.eqb_neq in Hne.
  induction d as [|[k0 v0] d IH]; simpl.
  - now rewrite Hne.
  - destruct (String.eqb k k0) eqn:E; simpl.
    + apply String.eqb_eq in E. subst k0. now rewrite Hne.
    + destruct (String.eqb k' k0); auto.
Qed.

Lemma Dict_get_del_eq {V} (k : string) (d : Dict.t V) :
  Dict.get k (Dict.del k d) = None.
Proof.
  induction d as [|[k' v'] d IH]; simpl; auto.
  destruct (String.eqb k k') eqn:E; simpl; rewrite ?E; auto.
Qed.

Lemma Dict_get_del_ne {V} (k k' : string) (d : Dict.t V) :
  k' <> k -> Dict.get k' (Dict.del k d) = Dict.get k' d.
Proof.
  intros Hne. apply String.eqb_neq in Hne.
  induction d as [|[k0 v0] d IH]; simpl; auto.
  destruct (String.eqb k k0) eqn:E; simpl.
  - apply String.eqb_eq in E. subst k0. now rewrite Hne.
  - destruct (String.eqb k' k0); auto.
Qed.

Lemma Dict_contains_get {V} (k : string) (d : Dict.t V) (v : V) :
  Dict.get k d = Some v -> Dict.contains k d = true.
Proof. unfold Dict.contains. now intros ->. Qed.

Lemma Dict_contains_None {V} (k : string) (d : Dict.t V) :
  Dict.get k d = None -> Dict.contains k d = false.
Proof. unfold Dict.contains. now intros ->. Qed.

(** ** Status comparisons *)

Lemma StepStatus_eqb_eq (a b : StepStatus.t) : StepStatus.eqb a b = true <-> a = b.
Proof. destruct a, b; simpl; split; congruence. Qed.

Lemma PipelineStatus_eqb_eq (a b : PipelineStatus.t) :
  PipelineStatus.eqb a b = true <-> a = b.
Proof. destruct a, b; simpl; split; congruence. Qed.

Section Properties.
Context `{Oracles}.

(** ** Building the steps *)

Lemma append_custom_steps_spec {S} (cs : list pydict) (acc : list PipelineStep)
    (s : S) (env : Env) :
  append_custom_steps cs (acc, length acc) s env =
  (Ok (app acc (imap (fun i c => mkStep (uuid4 (draws env + i)) CUSTOM_PROCESS
                                     StepStatus.PENDING (length acc + i) c
                                     None None None None 0) cs),
       length acc + length cs),
   s, mkEnv (ticks env) (draws env + length cs)).
Proof.
  revert acc env. induction cs as [|c cs IH]; intros acc env; simpl.
  - unfold ret. rewrite app_nil_r, !Nat.add_0_r. now destruct env.
  - unfold bind at 1. unfold append_step, uuid4_str, bind, ret. simpl.
    replace (length acc + 1) with (length (app acc
      [mkStep (uuid4 (draws env)) CUSTOM_PROCESS StepStatus.PENDING (length acc) c
              None None None None 0])) by (rewrite length_app; simpl; lia).
    rewrite IH. simpl. rewrite length_app. simpl.
    rewrite <- app_assoc. simpl. rewrite !Nat.add_0_r.
    assert (Himap : forall f g : nat -> pydict -> PipelineStep,
               (forall i x, f i x = g i x) -> imap f cs = imap g cs)
      by (intros f g Hfg; apply imap_ext; auto).
    rewrite (Himap _ (fun (i : nat) (c0 : pydict) =>
               mkStep (uuid4 (draws env + Datatypes.S i)) CUSTOM_PROCESS StepStatus.PENDING
                      (length acc + Datatypes.S i) c0 None None None None 0)).
    + replace (length acc + 1 + length cs) with (length acc + Datatypes.S (length cs)) by lia.
      replace (Datatypes.S (draws env + length cs))
        with (draws env + Datatypes.S (length cs)) by lia.
      reflexivity.
    + intros i x. f_equal; [f_equal|]; lia.
Qed.

Lemma create_steps_spec {S} (config : PipelineConfig) (s : S) (env : Env) :
  _create_steps config s env =
  (Ok (imap (fresh_step (draws env)) (planned_steps config)), s,
   mkEnv (ticks env) (draws env + length (planned_steps config))).
Proof.
  destruct config as [r f w g cs]. unfold _create_steps, planned_steps. simpl.
  destruct r, f, w, g; simpl;
    unfold bind at 1; unfold append_step, uuid4_str, bind, ret; simpl;
    match goal with
    | |- context [append_custom_steps cs (?acc, _) s ?e] =>
        pose proof (append_custom_steps_spec cs acc s e) as E; simpl in E; rewrite E
    end; simpl; rewrite ?length_map;
    (apply (f_equal2 pair); [apply (f_equal2 pair); [f_equal|reflexivity] | f_equal; lia]);
    repeat (apply (f_equal2 cons); [unfold fresh_step; simpl; repeat f_equal; lia|]);
    (rewrite imap_fmap; apply imap_ext; intros i x _; unfold fresh_step; simpl;
     repeat f_equal; lia).
Qed.

Lemma planned_steps_length (config : PipelineConfig) :
  length (planned_steps config) = enabled_flags config + length (customSteps config).
Proof.
  destruct config as [r f w g cs]. unfold planned_steps, enabled_flags. simpl.
  rewrite !length_app, length_map. destruct r, f, w, g; simpl; lia.
Qed.

Lemma fresh_steps_order (d : nat) (l : list (StepType * pydict)) (i : nat) (s : PipelineStep) :
  imap (fresh_step d) l !! i = Some s -> order s = i.
Proof.
  rewrite list_lookup_imap. destruct (l !! i); simpl; [|discriminate].
  intros [= <-]. reflexivity.
Qed.

Lemma fresh_steps_kind (d : nat) (l : list (StepType * pydict)) :
  (fun s => (stepType s, input s)) <$> imap (fresh_step d) l = l.
Proof.
  rewrite fmap_imap. rewrite <- (list_fmap_id l) at 2. rewrite <- imap_const.
  apply imap_ext. intros i [ty inp] _. reflexivity.
Qed.

(** What [create_pipeline] returns and stores when pydantic accepts the URL. *)
Lemma create_pipeline_spec (video_id video_url prompt : string)
    (config : option PipelineConfig) (w : World) (env : Env) :
  HttpUrl_error video_url = None ->
  let plan := planned_steps (force_disabled (default PipelineConfig_default config)) in
  let l := imap (fresh_step (Datatypes.S (draws env))) plan in
  let p := mkPipeline (uuid4 (draws env)) video_id (HttpUrl_text video_url) prompt
                      PipelineStatus.PENDING l (now (ticks env)) None None (length l) 0 in
  create_pipeline video_id video_url prompt config w env =
  (Ok p, set_pipelines (Dict.set (uuid4 (draws env)) p (pipelines (manager w))) w,
   mkEnv (Datatypes.S (ticks env)) (Datatypes.S (draws env) + length plan)).
Proof.
  intros Hurl. unfold create_pipeline.
  unfold bind at 1. unfold uuid4_str at 1. cbv beta iota.
  unfold bind at 1. rewrite create_steps_spec. cbv beta iota.
  unfold bind at 1. unfold datetime_now at 1. cbv beta iota.
  unfold bind at 1. unfold Pipeline_new. simpl. rewrite Hurl.
  destruct config; reflexivity.
Qed.

(** ** One step *)

(** The fields [_execute_step] never assigns. *)
Lemma execute_step_frame (pipeline_id : string) (stored : option Pipeline) (r : awaited)
    (s : PipelineStep) (env : Env) :
  let s' := state_of (_execute_step pipeline_id stored r s env) in
  stepId s' = stepId s /\ stepType s' = stepType s /\ order s' = order s
  /\ input s' = input s.
Proof.
  destruct s as [sid ty st o inp out err sa ca pr].
  unfold _execute_step, _execute_runway_step, _execute_custom_step,
    _execute_ffmpeg_step_placeholder, _execute_whisper_step_placeholder,
    _execute_gpt4_step_placeholder, await, state_of,
    try_finally, try_except, bind, modify, get_state, ret, raise, datetime_now.
  destruct ty; simpl; try (repeat split; reflexivity);
    try (destruct stored as [q|]; simpl; [|repeat split; reflexivity]);
    destruct r as [v|e]; simpl;
    try (destruct (truthy v && is_success v); simpl);
    try (destruct (is_Exception e); simpl);
    repeat split; reflexivity.
Qed.

(** A step whose execution returns is COMPLETED or SKIPPED. *)
Lemma execute_step_Ok_status (pipeline_id : string) (stored : option Pipeline)
    (r : awaited) (s : PipelineStep) (env : Env) :
  result_of (_execute_step pipeline_id stored r s env) = Ok tt ->
  step_status (state_of (_execute_step pipeline_id stored r s env)) = StepStatus.COMPLETED
  \/ step_status (state_of (_execute_step pipeline_id stored r s env)) = StepStatus.SKIPPED.
Proof.
  destruct s as [sid ty st o inp out err sa ca pr].
  unfold _execute_step, _execute_runway_step, _execute_custom_step,
    _execute_ffmpeg_step_placeholder, _execute_whisper_step_placeholder,
    _execute_gpt4_step_placeholder, await, state_of, result_of,
    try_finally, try_except, bind, modify, get_state, ret, raise, datetime_now.
  destruct ty; simpl; auto;
    try (destruct stored as [q|]; simpl; [|discriminate]);
    destruct r as [v|e]; simpl;
    try (destruct (truthy v && is_success v); simpl);
    try (destruct (is_Exception e); simpl);
    auto; discriminate.
Qed.

(** The runway executor answers with a successful result. *)
Lemma execute_step_runway_success (pipeline_id : string) (q : Pipeline)
    (result : option pydict) (s : PipelineStep) (env : Env) :
  stepType s = RUNWAY_VIDEO ->
  truthy result && is_success result = true ->
  _execute_step pipeline_id (Some q) (Returns result) s env =
  (Ok tt,
   set_progress 100 (set_step_status StepStatus.COMPLETED
     (set_step_completedAt (Some (now (Datatypes.S (ticks env))))
        (set_output result (begun (now (ticks env)) s)))),
   mkEnv (Datatypes.S (Datatypes.S (ticks env))) (draws env)).
Proof.
  destruct s as [sid ty st o inp out err sa ca pr]. simpl. intros -> Hok.
  unfold _execute_step, _execute_runway_step, await,
    try_finally, try_except, bind, modify, get_state, ret, raise, datetime_now.
  simpl. rewrite Hok. reflexivity.
Qed.

(** The runway executor answers with a result that is not a success. *)
Lemma execute_step_runway_failure (pipeline_id : string) (q : Pipeline)
    (result : option pydict) (s : PipelineStep) (env : Env) :
  stepType s = RUNWAY_VIDEO ->
  truthy result && is_success result = false ->
  let text := "Runway service failed: " ++ failure_text result in
  _execute_step pipeline_id (Some q) (Returns result) s env =
  (Raise (ServiceException ("Step " ++ stepId s ++ " failed: " ++ text)),
   set_step_completedAt (Some (now (Datatypes.S (ticks env))))
     (set_progress 0 (set_error (Some text)
        (set_step_status StepStatus.FAILED (begun (now (ticks env)) s)))),
   mkEnv (Datatypes.S (Datatypes.S (ticks env))) (draws env)).
Proof.
  destruct s as [sid ty st o inp out err sa ca pr]. simpl. intros -> Hko.
  unfold _execute_step, _execute_runway_step, await,
    try_finally, try_except, bind, modify, get_state, ret, raise, datetime_now.
  simpl. rewrite Hko. reflexivity.
Qed.


(** The awaited call raises an [Exception]. *)
Lemma execute_step_raised (pipeline_id : string) (q : Pipeline) (e : exn)
    (s : PipelineStep) (env : Env) :
  stepType s = RUNWAY_VIDEO \/ stepType s = CUSTOM_PROCESS ->
  is_Exception e = true ->
  _execute_step pipeline_id (Some q) (Throws e) s env =
  (Raise (ServiceException ("Step " ++ stepId s ++ " failed: " ++ str e)),
   set_step_completedAt (Some (now (Datatypes.S (ticks env))))
     (set_progress 0 (set_error (Some (str e))
        (set_step_status StepStatus.FAILED (begun (now (ticks env)) s)))),
   mkEnv (Datatypes.S (Datatypes.S (ticks env))) (draws env)).
Proof.
  destruct s as [sid ty st o inp out err sa ca pr]. simpl. intros Hty He.
  unfold _execute_step, _execute_runway_step, _execute_custom_step, await,
    try_finally, try_except, bind, modify, get_state, ret, raise, datetime_now.
  destruct Hty as [-> | ->]; simpl; rewrite He; reflexivity.
Qed.

(** The awaited call is interrupted by something that is not an [Exception]. *)
Lemma execute_step_interrupted (pipeline_id : string) (q : Pipeline) (e : exn)
    (s : PipelineStep) (env : Env) :
  stepType s = RUNWAY_VIDEO \/ stepType s = CUSTOM_PROCESS ->
  is_Exception e = false ->
  _execute_step pipeline_id (Some q) (Throws e) s env =
  (Raise e,
   set_progress 100 (set_step_status StepStatus.COMPLETED
     (set_step_completedAt (Some (now (Datatypes.S (ticks env))))
        (begun (now (ticks env)) s))),
   mkEnv (Datatypes.S (Datatypes.S (ticks env))) (draws env)).
Proof.
  destruct s as [sid ty st o inp out err sa ca pr]. simpl. intros Hty He.
  unfold _execute_step, _execute_runway_step, _execute_custom_step, await,
    try_finally, try_except, bind, modify, get_state, ret, raise, datetime_now.
  destruct Hty as [-> | ->]; simpl; rewrite He; reflexivity.
Qed.


(** ** The loop over the steps *)

Lemma on_step_Some (i : nat) (m : M PipelineStep unit) (p : Pipeline) (env : Env)
    (s : PipelineStep) :
  steps p !! i = Some s ->
  on_step i m p env =
  (result_of (m s env), set_steps (<[i := state_of (m s env)]> (steps p)) p,
   env_of (m s env)).
Proof.
  intros Hs. unfold on_step. rewrite Hs.
  destruct (m s env) as [[r s'] env']. reflexivity.
Qed.

Lemma on_step_None (i : nat) (m : M PipelineStep unit) (p : Pipeline) (env : Env) :
  steps p !! i = None -> on_step i m p env = (Ok tt, p, env).
Proof. intros Hs. unfold on_step. now rewrite Hs. Qed.

(** One iteration, unfolded. *)
Lemma for_steps_cons (pipeline_id : string) (script : nat -> awaited) (i : nat)
    (rest : list nat) (p : Pipeline) (env : Env) :
  for_steps pipeline_id script (i :: rest) p env =
  if PipelineStatus.eqb (status p) PipelineStatus.CANCELLED then (Ok tt, p, env)
  else
    match on_step i (_execute_step pipeline_id (Some p) (script i)) p env with
    | (Ok _, p', env') =>
        match step_status <$> steps p' !! i with
        | Some StepStatus.FAILED => (Ok tt, set_status PipelineStatus.FAILED p', env')
        | Some StepStatus.COMPLETED =>
            for_steps pipeline_id script rest
                      (set_completedSteps (completedSteps p' + 1) p') env'
        | _ => for_steps pipeline_id script rest p' env'
        end
    | (Raise e, p', env') => (Raise e, p', env')
    end.
Proof.
  simpl. unfold bind at 1. unfold get_state at 1. cbv beta iota.
  destruct (PipelineStatus.eqb (status p) PipelineStatus.CANCELLED); [reflexivity|].
  unfold bind at 1.
  destruct (on_step i (_execute_step pipeline_id (Some p) (script i)) p env) as [[[[]|e] p'] env'];
    [|reflexivity].
  unfold bind at 1. unfold get_state at 1. cbv beta iota.
  destruct (step_status <$> steps p' !! i) as [[]|]; reflexivity.
Qed.

(** What one iteration leaves of the pipeline's other fields. *)
Lemma on_step_execute (pipeline_id : string) (stored : option Pipeline) (r : awaited)
    (i : nat) (p : Pipeline) (env : Env) :
  let x := on_step i (_execute_step pipeline_id stored r) p env in
  status (state_of x) = status p /\ completedSteps (state_of x) = completedSteps p
  /\ totalSteps (state_of x) = totalSteps p
  /\ length (steps (state_of x)) = length (steps p)
  /\ (forall j, j <> i -> steps (state_of x) !! j = steps p !! j).
Proof.
  destruct (steps p !! i) as [s|] eqn:Hs.
  - rewrite (on_step_Some _ _ _ _ _ Hs). unfold state_of at 1 2 3 4 5. simpl.
    rewrite length_insert. repeat split; auto.
    intros j Hj. now apply list_lookup_insert_ne.
  - rewrite (on_step_None _ _ _ _ Hs). simpl. repeat split; auto.
Qed.

(** The counter moves up, by at most one per position visited. *)
Lemma for_steps_completedSteps (pipeline_id : string) (script : nat -> awaited)
    (idxs : list nat) (p : Pipeline) (env : Env) :
  let p' := state_of (for_steps pipeline_id script idxs p env) in
  completedSteps p <= completedSteps p'
  /\ completedSteps p' <= completedSteps p + length idxs
  /\ totalSteps p' = totalSteps p
  /\ length (steps p') = length (steps p).
Proof.
  cbv zeta. revert p env. induction idxs as [|i rest IH]; intros p env.
  - unfold state_of. simpl. repeat split; lia.
  - rewrite for_steps_cons.
    destruct (PipelineStatus.eqb (status p) PipelineStatus.CANCELLED).
    { unfold state_of. simpl. repeat split; lia. }
    pose proof (on_step_execute pipeline_id (Some p) (script i) i p env) as Hx.
    destruct (on_step i (_execute_step pipeline_id (Some p) (script i)) p env)
      as [[[[]|e] p1] env1]; unfold state_of in Hx; simpl in Hx;
      destruct Hx as (Hst & Hcs & Htot & Hlen & _).
    + destruct (step_status <$> steps p1 !! i) as [[]|];
        try (specialize (IH p1 env1); simpl in IH |- *; lia);
        try (specialize (IH (set_completedSteps (completedSteps p1 + 1) p1) env1);
             simpl in IH |- *; lia);
        unfold state_of; simpl; lia.
    + unfold state_of. simpl. lia.
Qed.

(** Visiting [l1 ++ l2] is visiting [l1] and then, unless the loop ended, [l2]. *)
Lemma for_steps_app (pipeline_id : string) (script : nat -> awaited)
    (l1 l2 : list nat) (p : Pipeline) (env : Env) :
  let x1 := for_steps pipeline_id script l1 p env in
  for_steps pipeline_id script (app l1 l2) p env = x1
  \/ for_steps pipeline_id script (app l1 l2) p env =
     for_steps pipeline_id script l2 (state_of x1) (env_of x1).
Proof.
  cbv zeta. revert p env. induction l1 as [|i rest IH]; intros p env.
  - right. reflexivity.
  - change (app (i :: rest) l2) with (i :: app rest l2). rewrite !for_steps_cons.
    destruct (PipelineStatus.eqb (status p) PipelineStatus.CANCELLED); [now left|].
    destruct (on_step i (_execute_step pipeline_id (Some p) (script i)) p env)
      as [[[[]|e] p1] env1]; [|now left].
    destruct (step_status <$> steps p1 !! i) as [[]|]; try apply IH. now left.
Qed.

(** The counter along a run: after [k+1] positions it is what it was after [k],
    or one more. *)
Lemma for_steps_prefix (pipeline_id : string) (script : nat -> awaited)
    (k : nat) (p : Pipeline) (env : Env) :
  let pk := state_of (for_steps pipeline_id script (seq 0 k) p env) in
  let pk' := state_of (for_steps pipeline_id script (seq 0 (Datatypes.S k)) p env) in
  completedSteps pk <= completedSteps pk' /\ completedSteps pk' <= completedSteps pk + 1.
Proof.
  cbv zeta. rewrite seq_S. simpl.
  destruct (for_steps_app pipeline_id script (seq 0 k) [k] p env) as [E|E]; rewrite E.
  - lia.
  - pose proof (for_steps_completedSteps pipeline_id script [k]
                  (state_of (for_steps pipeline_id script (seq 0 k) p env))
                  (env_of (for_steps pipeline_id script (seq 0 k) p env))) as Hk.
    cbv zeta in Hk. change (length [k]) with 1 in Hk. lia.
Qed.

(** Replacing a step that is not COMPLETED. *)
Lemma count_completed_insert (l : list PipelineStep) (i : nat) (s s' : PipelineStep) :
  l !! i = Some s -> step_status s <> StepStatus.COMPLETED ->
  count_completed (<[i := s']> l) =
  count_completed l + Nat.b2n (StepStatus.eqb (step_status s') StepStatus.COMPLETED).
Proof.
  unfold count_completed. revert i. induction l as [|a l IH]; intros i Hi Hs.
  - discriminate.
  - destruct i as [|i]; simpl in *.
    + injection Hi as ->.
      destruct (StepStatus.eqb (step_status s) StepStatus.COMPLETED) eqn:E.
      { apply StepStatus_eqb_eq in E. contradiction. }
      destruct (StepStatus.eqb (step_status s') StepStatus.COMPLETED); simpl; lia.
    + specialize (IH i Hi Hs).
      destruct (StepStatus.eqb (step_status a) StepStatus.COMPLETED); simpl; lia.
Qed.

(** The counter and the COMPLETED steps, over positions visited once each. *)
Lemma for_steps_count (pipeline_id : string) (script : nat -> awaited)
    (idxs : list nat) (p : Pipeline) (env : Env) :
  NoDup idxs ->
  (forall i s, In i idxs -> steps p !! i = Some s ->
               step_status s <> StepStatus.COMPLETED) ->
  completedSteps p = count_completed (steps p) ->
  let x := for_steps pipeline_id script idxs p env in
  completedSteps (state_of x) <= count_completed (steps (state_of x))
  /\ (result_of x = Ok tt ->
      completedSteps (state_of x) = count_completed (steps (state_of x))).
Proof.
  cbv zeta. revert p env. induction idxs as [|i rest IH]; intros p env Hnd Hfresh Hcs.
  - unfold state_of. simpl. split; [lia|auto].
  - rewrite for_steps_cons.
    destruct (PipelineStatus.eqb (status p) PipelineStatus.CANCELLED).
    { unfold state_of. simpl. split; [lia|auto]. }
    apply NoDup_cons in Hnd as [Hi Hnd].
    assert (Hi' : ~ In i rest) by (now rewrite <- list_elem_of_In).
    destruct (steps p !! i) as [s|] eqn:Hs.
    + pose proof (execute_step_Ok_status pipeline_id (Some p) (script i) s env) as Hok.
      rewrite (on_step_Some _ _ _ _ _ Hs).
      destruct (_execute_step pipeline_id (Some p) (script i) s env) as [[r s'] env'].
      unfold result_of, state_of, env_of in Hok |- *. simpl in Hok |- *.
      assert (Hlt : i < length (steps p)) by (eapply lookup_lt_Some; eauto).
      assert (Hn : step_status s <> StepStatus.COMPLETED)
        by (apply (Hfresh i s); [now left|auto]).
      pose proof (count_completed_insert (steps p) i s s' Hs Hn) as Hc.
      destruct r as [[]|e]; simpl.
      * rewrite list_lookup_insert_eq by auto. simpl.
        assert (Hrest : forall q, steps q = <[i := s']> (steps p) ->
                  forall j s0, In j rest -> steps q !! j = Some s0 ->
                               step_status s0 <> StepStatus.COMPLETED).
        { intros q Hq j s0 Hj Hs0. rewrite Hq in Hs0.
          rewrite list_lookup_insert_ne in Hs0 by (intros ->; contradiction).
          apply (Hfresh j s0); [now right|auto]. }
        destruct (Hok eq_refl) as [E|E]; rewrite E in *; simpl in Hc.
        -- apply IH; auto.
           ++ apply Hrest. reflexivity.
           ++ simpl. lia.
        -- apply IH; auto.
           ++ apply Hrest. reflexivity.
           ++ simpl. lia.
      * split; [|discriminate].
        destruct (StepStatus.eqb (step_status s') StepStatus.COMPLETED); simpl in Hc; lia.
    + rewrite (on_step_None _ _ _ _ Hs). rewrite Hs. simpl.
      apply IH; auto. intros j s0 Hj. apply Hfresh. now right.
Qed.

(** ** The supervisor *)

(** The [try] block and its handler, after the loop. *)
Lemma execute_pipeline_try_unfold (pipeline_id : string) (script : nat -> awaited)
    (p : Pipeline) (env : Env) :
  _execute_pipeline_try pipeline_id script p env =
  match for_steps pipeline_id script (seq 0 (length (steps p))) p env with
  | (Ok _, p1, env1) =>
      if negb (PipelineStatus.eqb (status p1) PipelineStatus.FAILED)
      then (Ok tt,
            set_updatedAt (Some (now (Datatypes.S (ticks env1))))
              (set_completedAt (Some (now (ticks env1)))
                 (set_status PipelineStatus.COMPLETED p1)),
            mkEnv (Datatypes.S (Datatypes.S (ticks env1))) (draws env1))
      else (Ok tt, set_updatedAt (Some (now (ticks env1))) p1,
            mkEnv (Datatypes.S (ticks env1)) (draws env1))
  | (Raise e, p1, env1) =>
      if is_Exception e
      then (Raise (PipelineException
                     ("Pipeline " ++ pipeline_id ++ " failed: " ++ str e)),
            set_updatedAt (Some (now (ticks env1)))
              (set_status PipelineStatus.FAILED p1),
            mkEnv (Datatypes.S (ticks env1)) (draws env1))
      else (Raise e, p1, env1)
  end.
Proof.
  unfold _execute_pipeline_try, try_except.
  unfold bind at 1. unfold get_state at 1. cbv beta iota.
  unfold bind at 1.
  destruct (for_steps pipeline_id script (seq 0 (length (steps p))) p env)
    as [[[[]|e] p1] env1].
  - unfold bind at 1. unfold get_state at 1. cbv beta iota.
    destruct (PipelineStatus.eqb (status p1) PipelineStatus.FAILED); reflexivity.
  - destruct (is_Exception e); reflexivity.
Qed.

(** What the supervisor does after the loop leaves the counters alone. *)
Lemma execute_pipeline_try_counters (pipeline_id : string) (script : nat -> awaited)
    (p : Pipeline) (env : Env) :
  let p1 := state_of (for_steps pipeline_id script (seq 0 (length (steps p))) p env) in
  let p' := state_of (_execute_pipeline_try pipeline_id script p env) in
  completedSteps p' = completedSteps p1 /\ totalSteps p' = totalSteps p1
  /\ steps p' = steps p1.
Proof.
  cbv zeta. rewrite execute_pipeline_try_unfold.
  destruct (for_steps pipeline_id script (seq 0 (length (steps p))) p env)
    as [[[[]|e] p1] env1]; unfold state_of; simpl.
  - destruct (PipelineStatus.eqb (status p1) PipelineStatus.FAILED); simpl; auto.
  - destruct (is_Exception e); simpl; auto.
Qed.

Lemma Dict_del_absent {V} (k : string) (d : Dict.t V) :
  Dict.get k d = None -> Dict.del k d = d.
Proof.
  induction d as [|[k' v'] d IH]; simpl; auto.
  destruct (String.eqb k k'); [discriminate|]. intros Hd. now rewrite IH.
Qed.

(** The task's coroutine, in terms of what it does to the pipeline it holds. *)
Lemma execute_pipeline_lift (pipeline_id : string) (script : nat -> awaited)
    (w : World) (env : Env) (p : Pipeline) :
  get_pipeline pipeline_id w = Some p ->
  let x := _execute_pipeline_try pipeline_id script p env in
  _execute_pipeline pipeline_id script w env =
  (result_of x,
   set_running_pipelines (Dict.del pipeline_id (running_pipelines (manager w)))
     (set_pipelines (Dict.set pipeline_id (state_of x) (pipelines (manager w))) w),
   env_of x).
Proof.
  unfold get_pipeline. intros Hp. cbv zeta.
  unfold _execute_pipeline. unfold bind at 1. unfold get_state at 1. cbv beta iota.
  rewrite Hp. unfold try_finally, zoom.
  destruct (_execute_pipeline_try pipeline_id script p env) as [[r p'] env'].
  unfold result_of, state_of, env_of. simpl.
  unfold bind, get_state. simpl.
  destruct (Dict.contains pipeline_id (running_pipelines (manager w))) eqn:E.
  - reflexivity.
  - unfold ret. unfold Dict.contains in E.
    destruct (Dict.get pipeline_id (running_pipelines (manager w))) eqn:G; [discriminate|].
    rewrite (Dict_del_absent _ _ G). unfold set_running_pipelines, set_pipelines. simpl.
    reflexivity.
Qed.

Lemma execute_pipeline_stored (pipeline_id : string) (script : nat -> awaited)
    (w : World) (env : Env) (p : Pipeline) :
  get_pipeline pipeline_id w = Some p ->
  get_pipeline pipeline_id (state_of (_execute_pipeline pipeline_id script w env)) =
  Some (state_of (_execute_pipeline_try pipeline_id script p env)).
Proof.
  intros Hp. rewrite (execute_pipeline_lift _ _ _ _ _ Hp).
  unfold get_pipeline, state_of. simpl. apply Dict_get_set_eq.
Qed.

(** ** Calls on the manager *)

Lemma update_pipeline_Some (pipeline_id : string) (f : Pipeline -> Pipeline)
    (w : World) (env : Env) (p : Pipeline) :
  get_pipeline pipeline_id w = Some p ->
  update_pipeline pipeline_id f w env =
  (Ok tt, set_pipelines (Dict.set pipeline_id (f p) (pipelines (manager w))) w, env).
Proof. unfold get_pipeline, update_pipeline, modify. now intros ->. Qed.

Lemma Dict_set_set {V} (k : string) (v v' : V) (d : Dict.t V) :
  Dict.set k v' (Dict.set k v d) = Dict.set k v' d.
Proof.
  induction d as [|[k0 v0] d IH]; simpl.
  - now rewrite String.eqb_refl.
  - destruct (String.eqb k k0) eqn:E; simpl; rewrite ?String.eqb_refl, ?E; auto.
    now rewrite IH.
Qed.

(** [start_pipeline] on a known identifier, whatever the pipeline's status. *)
Lemma start_pipeline_Some (pipeline_id : string) (w : World) (env : Env) (p : Pipeline) :
  get_pipeline pipeline_id w = Some p ->
  start_pipeline pipeline_id w env =
  (Ok tt,
   mkWorld
     (mkManager
        (Dict.set pipeline_id
           (set_updatedAt (Some (now (ticks env)))
              (set_status PipelineStatus.PROCESSING p)) (pipelines (manager w)))
        (Dict.set pipeline_id (length (tasks w)) (running_pipelines (manager w))))
     (app (tasks w) [Scheduled pipeline_id])
     (background_tasks w),
   mkEnv (Datatypes.S (ticks env)) (draws env)).
Proof.
  intros Hp. unfold start_pipeline.
  unfold bind at 1. unfold get_state at 1. cbv beta iota.
  rewrite (Dict_contains_get _ _ _ Hp). cbn [negb]. cbv beta iota.
  unfold bind at 1. cbv beta. rewrite (update_pipeline_Some _ _ _ _ _ Hp). cbv beta iota.
  unfold bind at 1. unfold datetime_now at 1. cbv beta iota.
  unfold bind at 1. cbv beta.
  erewrite update_pipeline_Some
    by (unfold get_pipeline, set_pipelines; simpl; apply Dict_get_set_eq).
  cbv beta iota. unfold bind, create_task, modify, set_pipelines, set_tasks,
    set_running_pipelines. simpl. rewrite Dict_set_set. reflexivity.
Qed.

Lemma start_pipeline_None (pipeline_id : string) (w : World) (env : Env) :
  get_pipeline pipeline_id w = None ->
  start_pipeline pipeline_id w env =
  (Raise (PipelineException ("Pipeline " ++ pipeline_id ++ " not found")), w, env).
Proof.
  intros Hp. unfold start_pipeline.
  unfold bind at 1. unfold get_state at 1. cbv beta iota.
  rewrite (Dict_contains_None _ _ Hp). reflexivity.
Qed.

(** [cancel_pipeline] on a known identifier, whatever the pipeline's status. *)
Lemma cancel_pipeline_Some (pipeline_id : string) (w : World) (env : Env) (p : Pipeline) :
  get_pipeline pipeline_id w = Some p ->
  exists w',
    cancel_pipeline pipeline_id w env =
      (Ok true, w', mkEnv (Datatypes.S (ticks env)) (draws env))
    /\ pipelines (manager w') =
       Dict.set pipeline_id
         (set_updatedAt (Some (now (ticks env)))
            (set_status PipelineStatus.CANCELLED p)) (pipelines (manager w))
    /\ running_pipelines (manager w') =
       Dict.del pipeline_id (running_pipelines (manager w)).
Proof.
  intros Hp. unfold cancel_pipeline.
  unfold bind at 1. unfold get_state at 1. cbv beta iota.
  rewrite (Dict_contains_get _ _ _ Hp). cbn [negb]. cbv beta iota.
  unfold bind at 1. cbv beta. rewrite (update_pipeline_Some _ _ _ _ _ Hp). cbv beta iota.
  unfold bind at 1. unfold datetime_now at 1. cbv beta iota.
  unfold bind at 1. cbv beta.
  erewrite update_pipeline_Some
    by (unfold get_pipeline, set_pipelines; simpl; apply Dict_get_set_eq).
  cbv beta iota.
  unfold cancel_running_task, Task_cancel.
  unfold bind, get_state, modify, ret, set_pipelines, set_tasks, set_running_pipelines.
  simpl. rewrite Dict_set_set.
  destruct (Dict.get pipeline_id (running_pipelines (manager w))) as [h|] eqn:G; simpl.
  - eexists. split; [reflexivity|]. simpl. auto.
  - eexists. split; [reflexivity|]. simpl. split; auto.
    symmetry. now apply Dict_del_absent.
Qed.

Lemma cancel_pipeline_None (pipeline_id : string) (w : World) (env : Env) :
  get_pipeline pipeline_id w = None ->
  cancel_pipeline pipeline_id w env = (Ok false, w, env).
Proof.
  intros Hp. unfold cancel_pipeline.
  unfold bind at 1. unfold get_state at 1. cbv beta iota.
  rewrite (Dict_contains_None _ _ Hp). reflexivity.
Qed.

(** ** The validators *)

Lemma lstrip_all_space (s : string) : all_space s = true -> lstrip s = EmptyString.
Proof.
  induction s as [|c s IH]; simpl; auto.
  destruct (py_isspace c); simpl; [auto|discriminate].
Qed.

Lemma lstrip_head (s : string) :
  all_space s = false ->
  exists c s', lstrip s = String c s' /\ py_isspace c = false.
Proof.
  induction s as [|c s IH]; simpl; [discriminate|].
  destruct (py_isspace c) eqn:E; simpl; eauto.
Qed.

Lemma rstrip_head (c : ascii) (s : string) :
  py_isspace c = false -> rstrip (String c s) <> EmptyString.
Proof. intros E. simpl. destruct (rstrip s); rewrite ?E; discriminate. Qed.

(** [not prompt or not prompt.strip()] holds of the blank prompts and of no other. *)
Lemma blank_prompt (s : string) :
  str_falsy s || str_falsy (strip s) = all_space s.
Proof.
  destruct (all_space s) eqn:E.
  - unfold strip. rewrite (lstrip_all_space _ E). simpl. apply orb_true_r.
  - destruct (lstrip_head _ E) as (c & s' & Hl & Hc). unfold strip. rewrite Hl.
    pose proof (rstrip_head c s' Hc) as Hr.
    destruct s; [discriminate|]. destruct (rstrip (String c s')); [contradiction|reflexivity].
Qed.

Lemma validate_prompt_raises {S} (prompt : string) (s : S) (env : Env) :
  all_space prompt = true \/ 1000 < String.length prompt ->
  exists msg, validate_prompt prompt s env = (Raise (ValidationException msg), s, env).
Proof.
  intros Hbad. unfold validate_prompt. rewrite blank_prompt.
  destruct (all_space prompt); [eexists; reflexivity|].
  destruct Hbad as [Hb|Hl]; [discriminate|].
  apply Nat.ltb_lt in Hl. rewrite Hl. eexists; reflexivity.
Qed.

(** Each of the first two validators returns without a trace or raises without one. *)
Lemma validate_uuid_cases {S} (u f : string) (s : S) (env : Env) :
  validate_uuid u f s env = (Ok true, s, env)
  \/ exists msg, validate_uuid u f s env = (Raise (ValidationException msg), s, env).
Proof. unfold validate_uuid. destruct (is_uuid u); [now left|right; eexists; reflexivity]. Qed.

Lemma validate_video_url_cases {S} (url : string) (s : S) (env : Env) :
  validate_video_url url s env = (Ok true, s, env)
  \/ exists msg, validate_video_url url s env = (Raise (ValidationException msg), s, env).
Proof.
  unfold validate_video_url. destruct (str_falsy url); [right; eexists; reflexivity|].
  destruct (negb _); [right; eexists; reflexivity|now left].
Qed.

(** ** More on the loop *)

Lemma for_steps_status (pipeline_id : string) (script : nat -> awaited)
    (idxs : list nat) (p : Pipeline) (env : Env) :
  status (state_of (for_steps pipeline_id script idxs p env)) = status p
  \/ status (state_of (for_steps pipeline_id script idxs p env)) = PipelineStatus.FAILED.
Proof.
  revert p env. induction idxs as [|i rest IH]; intros p env.
  - now left.
  - rewrite for_steps_cons.
    destruct (PipelineStatus.eqb (status p) PipelineStatus.CANCELLED); [now left|].
    pose proof (on_step_execute pipeline_id (Some p) (script i) i p env) as Hx.
    destruct (on_step i (_execute_step pipeline_id (Some p) (script i)) p env)
      as [[[[]|e] p1] env1]; unfold state_of in Hx; simpl in Hx;
      destruct Hx as (Hst & _).
    + destruct (step_status <$> steps p1 !! i) as [[]|];
        try (rewrite <- Hst; apply IH).
      * specialize (IH (set_completedSteps (completedSteps p1 + 1) p1) env1).
        simpl in IH. rewrite <- Hst. exact IH.
      * now right.
    + left. exact Hst.
Qed.

(** A run entered in status FAILED ends in status FAILED. *)
Lemma execute_pipeline_try_keeps_failed (pipeline_id : string) (script : nat -> awaited)
    (p : Pipeline) (env : Env) :
  status p = PipelineStatus.FAILED ->
  status (state_of (_execute_pipeline_try pipeline_id script p env)) = PipelineStatus.FAILED.
Proof.
  intros Hf. rewrite execute_pipeline_try_unfold.
  pose proof (for_steps_status pipeline_id script (seq 0 (length (steps p))) p env) as Hs.
  rewrite Hf in Hs.
  destruct (for_steps pipeline_id script (seq 0 (length (steps p))) p env)
    as [[[[]|e] p1] env1]; unfold state_of in *; simpl in *.
  - assert (E : status p1 = PipelineStatus.FAILED) by (destruct Hs; auto).
    rewrite E. simpl. exact E.
  - destruct (is_Exception e); simpl; [reflexivity|destruct Hs; auto].
Qed.

(** ** Creation *)

Lemma fresh_steps_types (d : nat) (l : list (StepType * pydict)) :
  stepType <$> imap (fresh_step d) l = fst <$> l.
Proof.
  rewrite fmap_imap, <- imap_const. apply imap_ext. intros i [ty inp] _. reflexivity.
Qed.

Lemma fmap_custom_types (cs : list pydict) :
  (fst ∘ (fun d : pydict => (CUSTOM_PROCESS, d))) <$> cs =
  replicate (length cs) CUSTOM_PROCESS.
Proof.
  induction cs as [|a cs IH]; [reflexivity|].
  rewrite fmap_cons. simpl length. simpl replicate. f_equal. exact IH.
Qed.

(** C3 (amended).  For every [create_pipeline] call whose URL the [Pipeline] model
    accepts, the returned pipeline has [totalSteps] equal to one if
    [enableRunwayVideo] is set, zero otherwise, plus the number of custom steps
    (the three other flags are forced off before the steps are built, so they are
    not counted); [totalSteps] is the length of [steps]; the steps are the
    primary-transform step, if enabled, followed by the custom steps; and
    [steps[i].order = i] for every [i].  The step builder [_create_steps] itself,
    on any configuration, yields as many steps as there are enabled flags plus
    custom steps, in the precedence order, numbered from zero. *)
Theorem create_pipeline_step_count (video_id video_url prompt : string)
    (config : option PipelineConfig) (w : World) (env : Env) :
  HttpUrl_error video_url = None ->
  let c := default PipelineConfig_default config in
  (exists p w' env',
     create_pipeline video_id video_url prompt config w env = (Ok p, w', env')
     /\ totalSteps p = Nat.b2n (enableRunwayVideo c) + length (customSteps c)
     /\ totalSteps p = length (steps p)
     /\ stepType <$> steps p =
        app (if enableRunwayVideo c then [RUNWAY_VIDEO] else [])
            (replicate (length (customSteps c)) CUSTOM_PROCESS)
     /\ (forall i s, steps p !! i = Some s -> order s = i))
  /\ (forall (cfg : PipelineConfig) (e : Env),
        exists l,
          _create_steps cfg w e = (Ok l, w, mkEnv (ticks e) (draws e + length l))
          /\ length l = enabled_flags cfg + length (customSteps cfg)
          /\ (fun s => (stepType s, input s)) <$> l = planned_steps cfg
          /\ (forall i s, l !! i = Some s -> order s = i)).
Proof.
  intros Hurl c. split.
  - pose proof (create_pipeline_spec video_id video_url prompt config w env Hurl) as E.
    cbv zeta in E. do 3 eexists. split; [exact E|]. simpl.
    fold c. rewrite length_imap.
    assert (Hplan : planned_steps (force_disabled c) =
                    app (if enableRunwayVideo c then [(RUNWAY_VIDEO, [])] else [])
                        ((fun d => (CUSTOM_PROCESS, d)) <$> customSteps c))
      by reflexivity.
    split; [|split; [reflexivity|split]].
    + rewrite Hplan, length_app, length_fmap. destruct (enableRunwayVideo c); reflexivity.
    + rewrite fresh_steps_types, Hplan, fmap_app, <- list_fmap_compose.
      f_equal; [destruct (enableRunwayVideo c); reflexivity|].
      apply fmap_custom_types.
    + intros i s. apply fresh_steps_order.
  - intros cfg e. exists (imap (fresh_step (draws e)) (planned_steps cfg)).
    split; [|split; [|split]].
    + rewrite (create_steps_spec cfg w e), length_imap. reflexivity.
    + rewrite length_imap. apply planned_steps_length.
    + apply fresh_steps_kind.
    + intros i s. apply fresh_steps_order.
Qed.

(** C9.  [create_pipeline] sets [enableFfmpeg], [enableWhisper] and [enableGpt4]
    to false before it builds the steps, whatever the configuration says: the
    steps of the created (and stored) pipeline are those [_create_steps] builds
    for the configuration with the three flags off, that is the runway step when
    [enableRunwayVideo] is set, followed by one custom step per entry of
    [customSteps] carrying that entry as its input; no step is of type
    FFMPEG_PROCESS, WHISPER_TRANSCRIBE or GPT4_ANALYSIS. *)
Theorem create_pipeline_only_runway_and_custom (video_id video_url prompt : string)
    (config : option PipelineConfig) (w : World) (env : Env) :
  HttpUrl_error video_url = None ->
  let c := default PipelineConfig_default config in
  exists p w' env',
    create_pipeline video_id video_url prompt config w env = (Ok p, w', env')
    /\ get_pipeline (pipelineId p) w' = Some p
    /\ result_of (_create_steps
                    (mkConfig (enableRunwayVideo c) false false false (customSteps c))
                    w (mkEnv (ticks env) (Datatypes.S (draws env)))) = Ok (steps p)
    /\ (fun s => (stepType s, input s)) <$> steps p =
       app (if enableRunwayVideo c then [(RUNWAY_VIDEO, [])] else [])
           ((fun d => (CUSTOM_PROCESS, d)) <$> customSteps c)
    /\ Forall (fun s => stepType s = RUNWAY_VIDEO \/ stepType s = CUSTOM_PROCESS) (steps p).
Proof.
  intros Hurl c.
  pose proof (create_pipeline_spec video_id video_url prompt config w env Hurl) as E.
  cbv zeta in E. do 3 eexists. split; [exact E|]. fold c.
  assert (Hkind : (fun s => (stepType s, input s)) <$>
                    imap (fresh_step (Datatypes.S (draws env)))
                         (planned_steps (force_disabled c)) =
                  app (if enableRunwayVideo c then [(RUNWAY_VIDEO, [])] else [])
                      ((fun d => (CUSTOM_PROCESS, d)) <$> customSteps c))
    by (rewrite fresh_steps_kind; reflexivity).
  split; [|split; [|split]].
  - unfold get_pipeline, set_pipelines. simpl. apply Dict_get_set_eq.
  - rewrite (create_steps_spec _ w _). reflexivity.
  - exact Hkind.
  - simpl steps. apply Forall_forall. intros s Hs.
    pose proof (list_elem_of_fmap_2 (fun s => (stepType s, input s)) _ _ Hs) as Hin.
    rewrite Hkind in Hin.
    apply elem_of_app in Hin as [Hin|Hin].
    + destruct (enableRunwayVideo c).
      * apply list_elem_of_singleton in Hin. injection Hin as -> _. now left.
      * inversion Hin.
    + apply list_elem_of_fmap in Hin as (d & Hd & _). injection Hd as -> _. now right.
Qed.

(** ** Start and cancel *)

(** C1 (amended).  A terminal status is not final in this manager.
    [cancel_pipeline] on a known identifier sets the status to CANCELLED and
    returns true whatever the status was (so only a pipeline already CANCELLED
    keeps its status; COMPLETED and FAILED are overwritten), records the update
    time and leaves every other pipeline as it was; on an unknown identifier it
    returns false and changes nothing.  A run of the supervisor entered in status
    FAILED ends in status FAILED: its completion transition does not overwrite a
    failure. *)
Theorem cancel_pipeline_overwrites_status (pipeline_id : string) (w : World) (env : Env) :
  (forall p, get_pipeline pipeline_id w = Some p ->
     result_of (cancel_pipeline pipeline_id w env) = Ok true
     /\ get_pipeline pipeline_id (state_of (cancel_pipeline pipeline_id w env)) =
        Some (set_updatedAt (Some (now (ticks env)))
                (set_status PipelineStatus.CANCELLED p))
     /\ (forall other, other <> pipeline_id ->
           get_pipeline other (state_of (cancel_pipeline pipeline_id w env)) =
           get_pipeline other w))
  /\ (get_pipeline pipeline_id w = None ->
      cancel_pipeline pipeline_id w env = (Ok false, w, env))
  /\ (forall script p env',
        status p = PipelineStatus.FAILED ->
        status (state_of (_execute_pipeline_try pipeline_id script p env')) =
        PipelineStatus.FAILED).
Proof.
  split; [|split].
  - intros p Hp. destruct (cancel_pipeline_Some pipeline_id w env p Hp) as (w' & E & Hps & _).
    rewrite E. unfold result_of, state_of, get_pipeline. simpl. rewrite Hps.
    split; [reflexivity|split].
    + apply Dict_get_set_eq.
    + intros other Hne. now apply Dict_get_set_ne.
  - apply cancel_pipeline_None.
  - intros script p env'. apply execute_pipeline_try_keeps_failed.
Qed.

(** C2 (amended).  [start_pipeline] requires only that the pipeline exist.  On a
    known identifier, whatever the pipeline's status, it returns normally, sets
    the status to PROCESSING, records the update time, spawns the execution task
    and registers its handle; every other pipeline is left as it was.  On an
    unknown identifier it changes nothing and raises [PipelineException] with
    the text "Pipeline <id> not found". *)
Theorem start_pipeline_ignores_status (pipeline_id : string) (w : World) (env : Env) :
  (forall p, get_pipeline pipeline_id w = Some p ->
     let w' := state_of (start_pipeline pipeline_id w env) in
     result_of (start_pipeline pipeline_id w env) = Ok tt
     /\ get_pipeline pipeline_id w' =
        Some (set_updatedAt (Some (now (ticks env)))
                (set_status PipelineStatus.PROCESSING p))
     /\ tasks w' = app (tasks w) [Scheduled pipeline_id]
     /\ Dict.get pipeline_id (running_pipelines (manager w')) = Some (length (tasks w))
     /\ (forall other, other <> pipeline_id -> get_pipeline other w' = get_pipeline other w))
  /\ (get_pipeline pipeline_id w = None ->
      start_pipeline pipeline_id w env =
      (Raise (PipelineException ("Pipeline " ++ pipeline_id ++ " not found")), w, env)).
Proof.
  split.
  - intros p Hp. cbv zeta. rewrite (start_pipeline_Some pipeline_id w env p Hp).
    unfold result_of, state_of, get_pipeline. simpl.
    split; [reflexivity|split; [|split; [reflexivity|split]]].
    + apply Dict_get_set_eq.
    + apply Dict_get_set_eq.
    + intros other Hne. now apply Dict_get_set_ne.
  - apply start_pipeline_None.
Qed.

(** ** Validation *)

(** C8.  A transform request whose prompt is empty, made of white space only, or
    longer than 1000 characters is refused with a [ValidationException]:
    [validate_prompt] raises it, the body of [transform_video] ends by raising a
    [ValidationException] (that of the prompt, or that of an earlier validator),
    and the endpoint answers with status 400 and the exception's text, while the
    manager, the event loop, the queue of background tasks, the clock and the
    identifier source are exactly as before: no pipeline is created or stored. *)
Theorem bad_prompt_rejected (request : VideoRequest) (w : World) (env : Env) :
  req_prompt request = "" \/ all_space (req_prompt request) = true
  \/ 1000 < String.length (req_prompt request) ->
  (exists msg,
     validate_prompt (req_prompt request) w env = (Raise (ValidationException msg), w, env))
  /\ (exists msg,
        transform_video_try request w env = (Raise (ValidationException msg), w, env)
        /\ transform_video request w env = (inr (HTTPException 400 msg), w, env)).
Proof.
  intros Hbad.
  assert (Hbad' : all_space (req_prompt request) = true
                  \/ 1000 < String.length (req_prompt request)).
  { destruct Hbad as [E|[E|E]]; auto. left. now rewrite E. }
  destruct (validate_prompt_raises (req_prompt request) w env Hbad') as (msg & Hp).
  split; [now exists msg|].
  assert (Htry : exists m, transform_video_try request w env =
                           (Raise (ValidationException m), w, env)).
  { unfold transform_video_try. unfold bind at 1.
    destruct (validate_uuid_cases (req_videoId request) "videoId" w env)
      as [E|(m & E)]; rewrite E; [|now exists m].
    unfold bind at 1.
    destruct (validate_video_url_cases (req_videoUrl request) w env)
      as [E'|(m & E')]; rewrite E'; [|now exists m].
    unfold bind at 1. rewrite Hp. now exists msg. }
  destruct Htry as (m & Htry). exists m. split; [exact Htry|].
  unfold transform_video. rewrite Htry. reflexivity.
Qed.

(** ** Runs of the supervisor *)

Lemma success_result_ok (result : pydict) :
  Dict.get "status" result = Some (PyStr "success") ->
  truthy (Some result) && is_success (Some result) = true.
Proof.
  intros Hs. unfold is_success. rewrite Hs. destruct result; [discriminate|reflexivity].
Qed.

(** C7.  A started pipeline (status PROCESSING, nothing completed yet) has a single
    step, of type RUNWAY_VIDEO, and the executor returns a result whose "status"
    is "success" and whose "video_url" is [url].  Then the supervisor returns
    normally and the stored pipeline is COMPLETED with [completedSteps = 1]; its
    step is COMPLETED with progress 100 and its output is the executor's result,
    so that [steps[0].output["video_url"]] is [url]. *)
Theorem single_step_success (pipeline_id : string) (script : nat -> awaited)
    (w : World) (env : Env) (p : Pipeline) (s0 : PipelineStep)
    (result : pydict) (url : string) :
  get_pipeline pipeline_id w = Some p ->
  status p = PipelineStatus.PROCESSING ->
  completedSteps p = 0 ->
  steps p = [s0] ->
  stepType s0 = RUNWAY_VIDEO ->
  script 0 = Returns (Some result) ->
  Dict.get "status" result = Some (PyStr "success") ->
  Dict.get "video_url" result = Some (PyStr url) ->
  exists p' s0',
    result_of (_execute_pipeline pipeline_id script w env) = Ok tt
    /\ get_pipeline pipeline_id (state_of (_execute_pipeline pipeline_id script w env)) =
       Some p'
    /\ status p' = PipelineStatus.COMPLETED
    /\ completedSteps p' = 1
    /\ steps p' = [s0']
    /\ step_status s0' = StepStatus.COMPLETED
    /\ progress s0' = 100
    /\ output s0' = Some result
    /\ match output s0' with
       | Some out => Dict.get "video_url" out
       | None => None
       end = Some (PyStr url).
Proof.
  intros Hp Hst Hcs Hsteps Hty Hscript Hok Hurl.
  pose proof (success_result_ok result Hok) as Hsucc.
  rewrite (execute_pipeline_stored _ _ _ _ _ Hp).
  rewrite (execute_pipeline_lift _ _ _ _ _ Hp). cbv zeta.
  unfold result_of at 1. simpl fst.
  rewrite execute_pipeline_try_unfold. rewrite Hsteps. simpl seq.
  rewrite for_steps_cons. rewrite Hst. simpl PipelineStatus.eqb. cbv iota.
  assert (H0 : steps p !! 0 = Some s0) by (now rewrite Hsteps).
  rewrite (on_step_Some _ _ _ _ _ H0). rewrite Hscript.
  rewrite (execute_step_runway_success _ _ _ _ _ Hty Hsucc).
  unfold result_of, state_of, env_of. simpl. rewrite Hsteps. simpl.
  unfold ret. simpl. rewrite Hst. simpl. rewrite Hcs.
  do 2 eexists. repeat split; auto.
Qed.

Lemma failure_result_ko (result : pydict) :
  is_success (Some result) = false ->
  truthy (Some result) && is_success (Some result) = false.
Proof. intros ->. apply andb_false_r. Qed.

Lemma failure_result_text (result : pydict) (msg : string) :
  Dict.get "error" result = Some (PyStr msg) -> failure_text (Some result) = msg.
Proof.
  intros He. unfold failure_text. destruct result; [discriminate|]. now rewrite He.
Qed.

(** C4 (amended).  The first step of a started pipeline is of type RUNWAY_VIDEO and
    its executor fails: either it returns a result that is not a success and
    carries the error text [msg] (for instance "quota exceeded"), and then
    [text] is "Runway service failed: " followed by [msg]; or the awaited call
    itself raises an [Exception], and then [text] is that exception's message.
    Then the supervisor ends by raising [PipelineException]; in the stored
    pipeline the first step is FAILED with progress 0 and its error is [text]
    (for a returned failure, the executor's text behind the prefix, not the bare
    text); the pipeline's status is FAILED; [completedSteps] is still 0; and
    every later step is exactly as it was (PENDING if it was PENDING): none of
    them is executed. *)
Theorem runway_failure_outcome (pipeline_id : string) (script : nat -> awaited)
    (w : World) (env : Env) (p : Pipeline) (s0 : PipelineStep) (text : string) :
  get_pipeline pipeline_id w = Some p ->
  status p = PipelineStatus.PROCESSING ->
  completedSteps p = 0 ->
  steps p !! 0 = Some s0 ->
  stepType s0 = RUNWAY_VIDEO ->
  (exists result msg,
     script 0 = Returns (Some result)
     /\ is_success (Some result) = false
     /\ Dict.get "error" result = Some (PyStr msg)
     /\ text = "Runway service failed: " ++ msg)
  \/ (exists e, script 0 = Throws e /\ is_Exception e = true /\ text = str e) ->
  exists p' s0',
    result_of (_execute_pipeline pipeline_id script w env) =
      Raise (PipelineException
               ("Pipeline " ++ pipeline_id ++ " failed: Step " ++ stepId s0
                  ++ " failed: " ++ text))
    /\ get_pipeline pipeline_id (state_of (_execute_pipeline pipeline_id script w env)) =
       Some p'
    /\ status p' = PipelineStatus.FAILED
    /\ completedSteps p' = 0
    /\ steps p' !! 0 = Some s0'
    /\ step_status s0' = StepStatus.FAILED
    /\ error s0' = Some text
    /\ progress s0' = 0
    /\ (forall j, 0 < j -> steps p' !! j = steps p !! j).
Proof.
  intros Hp Hst Hcs H0 Hty Hfail.
  rewrite (execute_pipeline_stored _ _ _ _ _ Hp).
  rewrite (execute_pipeline_lift _ _ _ _ _ Hp). cbv zeta.
  unfold result_of at 1. simpl fst.
  rewrite execute_pipeline_try_unfold.
  assert (Hlen : 0 < length (steps p)) by (eapply lookup_lt_Some; eauto).
  destruct (length (steps p)) as [|n] eqn:En; [lia|].
  rewrite <- cons_seq. rewrite for_steps_cons.
  rewrite Hst. simpl PipelineStatus.eqb. cbv iota.
  rewrite (on_step_Some _ _ _ _ _ H0).
  assert (Hstep : _execute_step pipeline_id (Some p) (script 0) s0 env =
            (Raise (ServiceException ("Step " ++ stepId s0 ++ " failed: " ++ text)),
             set_step_completedAt (Some (now (Datatypes.S (ticks env))))
               (set_progress 0 (set_error (Some text)
                  (set_step_status StepStatus.FAILED (begun (now (ticks env)) s0)))),
             mkEnv (Datatypes.S (Datatypes.S (ticks env))) (draws env))).
  { destruct Hfail as [(result & msg & Hscript & Hko & Herr & ->)
                      |(e & Hscript & He & ->)]; rewrite Hscript.
    - rewrite (execute_step_runway_failure _ _ _ _ _ Hty (failure_result_ko result Hko)).
      cbv zeta. rewrite (failure_result_text result msg Herr). reflexivity.
    - apply execute_step_raised; auto. }
  rewrite Hstep. unfold result_of, state_of, env_of. simpl.
  do 2 eexists. split; [reflexivity|]. split; [reflexivity|]. simpl.
  split; [reflexivity|]. split; [exact Hcs|].
  split; [apply list_lookup_insert_eq; lia|].
  split; [reflexivity|]. split; [reflexivity|]. split; [reflexivity|].
  intros j Hj. apply list_lookup_insert_ne. lia.
Qed.

(** C10.  The cleanup of [_execute_step] always records [completedAt] and never
    leaves the step PROCESSING.  When the awaited executor call of a RUNWAY_VIDEO
    or CUSTOM_PROCESS step is aborted by [CancelledError], which is not an
    [Exception], no handler runs: the cleanup marks the step COMPLETED with
    progress 100, its output is what it was before the call (none, for a fresh
    step), the loop stops by propagating [CancelledError], and the supervisor
    changes neither [completedSteps] nor the pipeline's status. *)
Theorem cancelled_await_marks_completed (pipeline_id : string) (script : nat -> awaited)
    (p : Pipeline) (env : Env) (s0 : PipelineStep) :
  status p <> PipelineStatus.CANCELLED ->
  steps p !! 0 = Some s0 ->
  stepType s0 = RUNWAY_VIDEO \/ stepType s0 = CUSTOM_PROCESS ->
  script 0 = Throws CancelledError ->
  (forall stored r s e,
     step_completedAt (state_of (_execute_step pipeline_id stored r s e)) =
       Some (now (Datatypes.S (ticks e)))
     /\ step_status (state_of (_execute_step pipeline_id stored r s e))
        <> StepStatus.PROCESSING)
  /\ exists s0',
       _execute_pipeline_try pipeline_id script p env =
         (Raise CancelledError, set_steps (<[0 := s0']> (steps p)) p,
          mkEnv (Datatypes.S (Datatypes.S (ticks env))) (draws env))
       /\ step_status s0' = StepStatus.COMPLETED
       /\ progress s0' = 100
       /\ output s0' = output s0
       /\ step_completedAt s0' = Some (now (Datatypes.S (ticks env)))
       /\ completedSteps (state_of (_execute_pipeline_try pipeline_id script p env)) =
          completedSteps p
       /\ status (state_of (_execute_pipeline_try pipeline_id script p env)) = status p.
Proof.
  intros Hst H0 Hty Hscript. split.
  - intros stored r s e. destruct s as [sid ty st o inp out err sa ca pr].
    unfold _execute_step, _execute_runway_step, _execute_custom_step,
      _execute_ffmpeg_step_placeholder, _execute_whisper_step_placeholder,
      _execute_gpt4_step_placeholder, await, state_of,
      try_finally, try_except, bind, modify, get_state, ret, raise, datetime_now.
    destruct ty; simpl; try (split; [reflexivity|discriminate]);
      try (destruct stored as [q|]; simpl; [|split; [reflexivity|discriminate]]);
      destruct r as [v|ex]; simpl;
      try (destruct (truthy v && is_success v); simpl);
      try (destruct (is_Exception ex); simpl);
      (split; [reflexivity|discriminate]).
  - rewrite execute_pipeline_try_unfold.
    assert (Hlen : 0 < length (steps p)) by (eapply lookup_lt_Some; eauto).
    destruct (length (steps p)) as [|n] eqn:En; [lia|].
    rewrite <- cons_seq. rewrite for_steps_cons.
    destruct (PipelineStatus.eqb (status p) PipelineStatus.CANCELLED) eqn:Ec.
    { apply PipelineStatus_eqb_eq in Ec. contradiction. }
    rewrite (on_step_Some _ _ _ _ _ H0). rewrite Hscript.
    rewrite (execute_step_interrupted _ _ CancelledError _ _ Hty eq_refl).
    unfold result_of, state_of, env_of. simpl.
    eexists. split; [reflexivity|]. simpl. repeat split; reflexivity.
Qed.

(** C6 (amended).  In a run of the supervisor entered with the counters as
    [create_pipeline] leaves them ([completedSteps = 0], [totalSteps] the number
    of steps, every step PENDING), that is in the first run of a pipeline, at
    every step boundary: [completedSteps] has not decreased and has grown by at
    most one since the previous boundary; it does not exceed [totalSteps], which
    is unchanged; and as long as the loop has not ended by an exception it equals
    the number of steps whose status is COMPLETED, so that it was incremented
    exactly once for each step executed to completion.  At the end of the run
    [completedSteps] still does not exceed [totalSteps]. *)
Theorem completedSteps_first_run (pipeline_id : string) (script : nat -> awaited)
    (p : Pipeline) (env : Env) (k : nat) :
  completedSteps p = 0 ->
  totalSteps p = length (steps p) ->
  Forall (fun s => step_status s = StepStatus.PENDING) (steps p) ->
  k < length (steps p) ->
  let before := for_steps pipeline_id script (seq 0 k) p env in
  let after := for_steps pipeline_id script (seq 0 (Datatypes.S k)) p env in
  let final := _execute_pipeline_try pipeline_id script p env in
  completedSteps (state_of before) <= completedSteps (state_of after)
  /\ completedSteps (state_of after) <= completedSteps (state_of before) + 1
  /\ completedSteps (state_of after) <= totalSteps (state_of after)
  /\ totalSteps (state_of after) = totalSteps p
  /\ (result_of after = Ok tt ->
      completedSteps (state_of after) = count_completed (steps (state_of after)))
  /\ completedSteps (state_of final) <= totalSteps (state_of final)
  /\ totalSteps (state_of final) = totalSteps p.
Proof.
  intros Hcs Htot Hfresh Hk. cbv zeta.
  pose proof (for_steps_prefix pipeline_id script k p env) as Hpre. cbv zeta in Hpre.
  pose proof (for_steps_completedSteps pipeline_id script (seq 0 (Datatypes.S k)) p env)
    as Hbound. cbv zeta in Hbound. rewrite length_seq in Hbound.
  pose proof (for_steps_completedSteps pipeline_id script (seq 0 (length (steps p))) p env)
    as Hall. cbv zeta in Hall. rewrite length_seq in Hall.
  pose proof (execute_pipeline_try_counters pipeline_id script p env) as Hfin.
  cbv zeta in Hfin.
  assert (Hzero : count_completed (steps p) = 0).
  { unfold count_completed. clear -Hfresh.
    induction Hfresh as [|s l Hs _ IH]; simpl; [reflexivity|]. now rewrite Hs. }
  assert (Hcount := for_steps_count pipeline_id script (seq 0 (Datatypes.S k)) p env).
  cbv zeta in Hcount.
  destruct Hcount as [_ Hcount].
  { apply NoDup_ListNoDup, seq_NoDup. }
  { intros i s _ Hs. rewrite Forall_forall in Hfresh.
    assert (Hin : s ∈ steps p) by (eapply list_elem_of_lookup_2; eauto).
    rewrite (Hfresh s Hin). discriminate. }
  { now rewrite Hcs, Hzero. }
  destruct Hfin as (Hf1 & Hf2 & _).
  split; [lia|]. split; [lia|]. split; [lia|]. split; [lia|].
  split; [exact Hcount|]. split; lia.
Qed.

(** ** Removal *)

Lemma cancel_running_task_spec (pipeline_id : string) (w : World) (env : Env) :
  cancel_running_task pipeline_id w env =
  (Ok tt,
   mkWorld
     (mkManager (pipelines (manager w))
                (Dict.del pipeline_id (running_pipelines (manager w))))
     (match Dict.get pipeline_id (running_pipelines (manager w)) with
      | Some h => alter (fun t => match t with
                                  | Scheduled pid => CancelRequested pid
                                  | _ => t
                                  end) h (tasks w)
      | None => tasks w
      end)
     (background_tasks w),
   env).
Proof.
  unfold cancel_running_task, Task_cancel.
  unfold bind, get_state, modify, ret, set_tasks, set_running_pipelines. simpl.
  destruct (Dict.get pipeline_id (running_pipelines (manager w))) as [h|] eqn:G; simpl.
  - reflexivity.
  - rewrite (Dict_del_absent _ _ G). destruct w as [[ps rs] ts bs]. reflexivity.
Qed.

Lemma delete_pipeline_Some (pipeline_id : string) (w : World) (env : Env) (p : Pipeline) :
  get_pipeline pipeline_id w = Some p ->
  delete_pipeline pipeline_id w env =
  (Ok true,
   mkWorld
     (mkManager (Dict.del pipeline_id (pipelines (manager w)))
                (Dict.del pipeline_id (running_pipelines (manager w))))
     (match Dict.get pipeline_id (running_pipelines (manager w)) with
      | Some h => alter (fun t => match t with
                                  | Scheduled pid => CancelRequested pid
                                  | _ => t
                                  end) h (tasks w)
      | None => tasks w
      end)
     (background_tasks w),
   env).
Proof.
  intros Hp. unfold delete_pipeline.
  unfold bind at 1. unfold get_state at 1. cbv beta iota.
  rewrite (Dict_contains_get _ _ _ Hp). cbn [negb]. cbv beta iota.
  unfold bind at 1. cbv beta. rewrite cancel_running_task_spec. cbv beta iota.
  reflexivity.
Qed.

(** [delete_pipeline] on a known identifier returns true without reading the
    clock; the pipeline is gone from the store, its task handle is deregistered
    and the task it named, if still scheduled, is asked to cancel; every other
    pipeline and every other handle is untouched.  On an unknown identifier it
    returns false and changes nothing. *)
Theorem delete_pipeline_removes (pipeline_id : string) (w : World) (env : Env) :
  (forall p, get_pipeline pipeline_id w = Some p ->
     let x := delete_pipeline pipeline_id w env in
     result_of x = Ok true
     /\ env_of x = env
     /\ get_pipeline pipeline_id (state_of x) = None
     /\ Dict.get pipeline_id (running_pipelines (manager (state_of x))) = None
     /\ (forall h, Dict.get pipeline_id (running_pipelines (manager w)) = Some h ->
                   tasks w !! h = Some (Scheduled pipeline_id) ->
                   tasks (state_of x) !! h = Some (CancelRequested pipeline_id))
     /\ (forall other, other <> pipeline_id ->
           get_pipeline other (state_of x) = get_pipeline other w
           /\ Dict.get other (running_pipelines (manager (state_of x))) =
              Dict.get other (running_pipelines (manager w))))
  /\ (get_pipeline pipeline_id w = None ->
      delete_pipeline pipeline_id w env = (Ok false, w, env)).
Proof.
  split.
  - intros p Hp. cbv zeta. rewrite (delete_pipeline_Some _ _ _ _ Hp).
    unfold result_of, state_of, env_of, get_pipeline.
    simpl. split; [reflexivity|]. split; [reflexivity|].
    split; [apply Dict_get_del_eq|]. split; [apply Dict_get_del_eq|]. split.
    + intros h Hh Ht. rewrite Hh. rewrite list_lookup_alter_eq, Ht. reflexivity.
    + intros other Hne. split; now apply Dict_get_del_ne.
  - intros Hp. unfold delete_pipeline.
    unfold bind at 1. unfold get_state at 1. cbv beta iota.
    rewrite (Dict_contains_None _ _ Hp). reflexivity.
Qed.

(** Once deleted, a pipeline is unknown to every other call: reading it gives
    nothing, [start_pipeline] raises "not found", [cancel_pipeline] and a second
    [delete_pipeline] return false, and a task still holding its identifier dies
    with [KeyError] on entry; none of these calls changes anything. *)
Theorem deleted_pipeline_is_unknown (pipeline_id : string) (w : World) (env env' : Env)
    (p : Pipeline) (script : nat -> awaited) :
  get_pipeline pipeline_id w = Some p ->
  let w' := state_of (delete_pipeline pipeline_id w env) in
  get_pipeline pipeline_id w' = None
  /\ start_pipeline pipeline_id w' env' =
     (Raise (PipelineException ("Pipeline " ++ pipeline_id ++ " not found")), w', env')
  /\ cancel_pipeline pipeline_id w' env' = (Ok false, w', env')
  /\ delete_pipeline pipeline_id w' env' = (Ok false, w', env')
  /\ _execute_pipeline pipeline_id script w' env' =
     (Raise (PyException "KeyError" ("'" ++ pipeline_id ++ "'")), w', env').
Proof.
  intros Hp w'.
  assert (Hgone : get_pipeline pipeline_id w' = None).
  { unfold w'. rewrite (delete_pipeline_Some _ _ _ _ Hp).
    unfold state_of, get_pipeline. simpl. apply Dict_get_del_eq. }
  split; [exact Hgone|]. split; [now apply start_pipeline_None|].
  split; [now apply cancel_pipeline_None|]. split.
  - unfold delete_pipeline. unfold bind at 1. unfold get_state at 1. cbv beta iota.
    rewrite (Dict_contains_None _ _ Hgone). reflexivity.
  - unfold _execute_pipeline. unfold bind at 1. unfold get_state at 1. cbv beta iota.
    unfold get_pipeline in Hgone. rewrite Hgone. reflexivity.
Qed.

(** ** The task and the registry *)

(** Whatever the executors do, a run of the coroutine on a stored pipeline ends
    with the pipeline's handle deregistered; it touches no other pipeline, no
    other handle, not the event loop's task table and not the queue of
    background tasks, and it draws no identifier. *)
Theorem execute_pipeline_deregisters (pipeline_id : string) (script : nat -> awaited)
    (w : World) (env : Env) (p : Pipeline) :
  get_pipeline pipeline_id w = Some p ->
  let x := _execute_pipeline pipeline_id script w env in
  Dict.get pipeline_id (running_pipelines (manager (state_of x))) = None
  /\ (forall other, other <> pipeline_id ->
        get_pipeline other (state_of x) = get_pipeline other w
        /\ Dict.get other (running_pipelines (manager (state_of x))) =
           Dict.get other (running_pipelines (manager w)))
  /\ tasks (state_of x) = tasks w
  /\ background_tasks (state_of x) = background_tasks w
  /\ Dict.keys (pipelines (manager (state_of x))) = Dict.keys (pipelines (manager w)).
Proof.
  intros Hp. cbv zeta. rewrite (execute_pipeline_lift _ _ _ _ _ Hp). cbv zeta.
  unfold state_of at 1 3 5 7 9 11. unfold get_pipeline. simpl.
  split; [apply Dict_get_del_eq|]. split.
  { intros other Hne. split; [now apply Dict_get_set_ne|now apply Dict_get_del_ne]. }
  split; [reflexivity|]. split; [reflexivity|].
  unfold get_pipeline in Hp. clear -Hp.
  generalize (state_of (_execute_pipeline_try pipeline_id script p env)). intros q.
  induction (pipelines (manager w)) as [|[k v] d IH]; simpl in *; [discriminate|].
  destruct (String.eqb pipeline_id k) eqn:E; simpl.
  - apply String.eqb_eq in E. now subst.
  - f_equal. auto.
Qed.

(** ** What a run leaves of the pipeline *)

Lemma on_step_result (pipeline_id : string) (stored : option Pipeline) (r : awaited)
    (i : nat) (p : Pipeline) (env : Env) (p1 : Pipeline) (env1 : Env) :
  on_step i (_execute_step pipeline_id stored r) p env = (Ok tt, p1, env1) ->
  step_status <$> steps p1 !! i = Some StepStatus.COMPLETED
  \/ step_status <$> steps p1 !! i = Some StepStatus.SKIPPED
  \/ step_status <$> steps p1 !! i = None.
Proof.
  destruct (steps p !! i) as [s|] eqn:Hs.
  - rewrite (on_step_Some _ _ _ _ _ Hs). intros E.
    pose proof (execute_step_Ok_status pipeline_id stored r s env) as Hok.
    injection E as Hr <- _. specialize (Hok Hr). simpl.
    rewrite list_lookup_insert_eq by (eapply lookup_lt_Some; eauto). simpl.
    destruct Hok as [-> | ->]; auto.
  - rewrite (on_step_None _ _ _ _ Hs). intros [= <- _]. rewrite Hs. auto.
Qed.

(** A loop that returns has not changed the status. *)
Lemma for_steps_Ok_status (pipeline_id : string) (script : nat -> awaited)
    (idxs : list nat) (p : Pipeline) (env : Env) :
  result_of (for_steps pipeline_id script idxs p env) = Ok tt ->
  status (state_of (for_steps pipeline_id script idxs p env)) = status p.
Proof.
  revert p env. induction idxs as [|i rest IH]; intros p env.
  - reflexivity.
  - rewrite for_steps_cons.
    destruct (PipelineStatus.eqb (status p) PipelineStatus.CANCELLED); [reflexivity|].
    pose proof (on_step_execute pipeline_id (Some p) (script i) i p env) as Hx.
    pose proof (on_step_result pipeline_id (Some p) (script i) i p env) as Hr.
    destruct (on_step i (_execute_step pipeline_id (Some p) (script i)) p env)
      as [[[[]|e] p1] env1]; unfold state_of in Hx; simpl in Hx;
      destruct Hx as (Hst & _); [|discriminate].
    destruct (Hr p1 env1 eq_refl) as [E|[E|E]]; rewrite E; intros Hok.
    + rewrite (IH _ _ Hok). exact Hst.
    + rewrite (IH _ _ Hok). exact Hst.
    + rewrite (IH _ _ Hok). exact Hst.
Qed.

(** A run of the supervisor ends in one of three ways.  If it returns, the
    pipeline is COMPLETED with its completion time set, unless the run was
    entered in status FAILED, which it keeps; the status is COMPLETED even for a
    run entered in status CANCELLED.  If an executor raised an [Exception], the
    pipeline is FAILED and the run raises [PipelineException].  Otherwise the
    run was interrupted by something that is not an [Exception], which it lets
    through.  In the first two cases the update time is set: the pipeline is
    never left PENDING or PROCESSING. *)
Theorem run_ends_terminal (pipeline_id : string) (script : nat -> awaited)
    (p : Pipeline) (env : Env) :
  let x := _execute_pipeline_try pipeline_id script p env in
  (result_of x = Ok tt ->
     updatedAt (state_of x) <> None
     /\ (status p <> PipelineStatus.FAILED ->
         status (state_of x) = PipelineStatus.COMPLETED
         /\ completedAt (state_of x) <> None)
     /\ (status p = PipelineStatus.FAILED ->
         status (state_of x) = PipelineStatus.FAILED
         /\ completedAt (state_of x) = completedAt p))
  /\ (forall e, result_of x = Raise e ->
        (is_Exception e = false)
        \/ (status (state_of x) = PipelineStatus.FAILED
            /\ updatedAt (state_of x) <> None
            /\ exists m, e = PipelineException
                               ("Pipeline " ++ pipeline_id ++ " failed: " ++ m))).
Proof.
  cbv zeta. rewrite execute_pipeline_try_unfold.
  pose proof (for_steps_Ok_status pipeline_id script (seq 0 (length (steps p))) p env)
    as Hst.
  assert (Hca : forall idxs q e,
            completedAt (state_of (for_steps pipeline_id script idxs q e)) = completedAt q).
  { induction idxs as [|i rest IH]; intros q e; [reflexivity|].
    rewrite for_steps_cons.
    destruct (PipelineStatus.eqb (status q) PipelineStatus.CANCELLED); [reflexivity|].
    assert (Hq : completedAt (state_of (on_step i (_execute_step pipeline_id (Some q)
                                                     (script i)) q e)) = completedAt q).
    { unfold on_step. destruct (steps q !! i); [|reflexivity].
      destruct (_execute_step pipeline_id (Some q) (script i) p0 e) as [[r s'] e'].
      reflexivity. }
    destruct (on_step i (_execute_step pipeline_id (Some q) (script i)) q e)
      as [[[[]|ex] q1] e1]; unfold state_of in Hq; simpl in Hq; [|exact Hq].
    destruct (step_status <$> steps q1 !! i) as [[]|]; rewrite ?IH; auto. }
  specialize (Hca (seq 0 (length (steps p))) p env).
  destruct (for_steps pipeline_id script (seq 0 (length (steps p))) p env)
    as [[[[]|e] p1] env1]; unfold result_of, state_of in *; simpl in *.
  - specialize (Hst eq_refl). rewrite Hst. split.
    + intros _.
      destruct (PipelineStatus.eqb (status p) PipelineStatus.FAILED) eqn:E; simpl.
      * apply PipelineStatus_eqb_eq in E.
        split; [discriminate|]. split; [intros Hn; contradiction|].
        intros _. split; [congruence|exact Hca].
      * split; [discriminate|]. split; [intros _; split; [reflexivity|discriminate]|].
        intros Hf. rewrite Hf in E. discriminate.
    + intros e. destruct (negb _); discriminate.
  - split.
    + destruct (is_Exception e); discriminate.
    + intros e0. destruct (is_Exception e) eqn:E; simpl.
      * intros [= <-]. right. split; [reflexivity|]. split; [discriminate|]. eauto.
      * intros [= <-]. now left.
Qed.

Lemma same_identity_refl (s : PipelineStep) : same_identity s s.
Proof. unfold same_identity. auto. Qed.

Lemma same_identity_trans (s1 s2 s3 : PipelineStep) :
  same_identity s1 s2 -> same_identity s2 s3 -> same_identity s1 s3.
Proof. unfold same_identity. intros (a & b & c & d) (a' & b' & c' & d'). repeat split; congruence. Qed.

Lemma Forall2_same_identity_refl (l : list PipelineStep) : Forall2 same_identity l l.
Proof. induction l; constructor; auto using same_identity_refl. Qed.

Lemma Forall2_same_identity_trans (l1 l2 l3 : list PipelineStep) :
  Forall2 same_identity l1 l2 -> Forall2 same_identity l2 l3 -> Forall2 same_identity l1 l3.
Proof.
  intros H12. revert l3. induction H12; intros l3 H23; inversion H23; subst; constructor;
    eauto using same_identity_trans.
Qed.

Lemma on_step_identity (pipeline_id : string) (stored : option Pipeline) (r : awaited)
    (i : nat) (p : Pipeline) (env : Env) :
  Forall2 same_identity (steps p)
          (steps (state_of (on_step i (_execute_step pipeline_id stored r) p env))).
Proof.
  destruct (steps p !! i) as [s|] eqn:Hs.
  - rewrite (on_step_Some _ _ _ _ _ Hs). unfold state_of at 1. simpl.
    rewrite <- (list_insert_id _ _ _ Hs) at 1.
    apply Forall2_insert; [apply Forall2_same_identity_refl|].
    apply execute_step_frame.
  - rewrite (on_step_None _ _ _ _ Hs). apply Forall2_same_identity_refl.
Qed.

Lemma on_step_header (i : nat) (m : M PipelineStep unit) (p : Pipeline) (env : Env) :
  let p' := state_of (on_step i m p env) in
  pipelineId p' = pipelineId p /\ videoId p' = videoId p /\ videoUrl p' = videoUrl p
  /\ prompt p' = prompt p /\ createdAt p' = createdAt p /\ totalSteps p' = totalSteps p.
Proof.
  unfold on_step. destruct (steps p !! i); [|simpl; auto 10].
  destruct (m p0 env) as [[r s'] e']. simpl. auto 10.
Qed.

Lemma for_steps_identity (pipeline_id : string) (script : nat -> awaited)
    (idxs : list nat) (p : Pipeline) (env : Env) :
  let p' := state_of (for_steps pipeline_id script idxs p env) in
  Forall2 same_identity (steps p) (steps p')
  /\ pipelineId p' = pipelineId p /\ videoId p' = videoId p /\ videoUrl p' = videoUrl p
  /\ prompt p' = prompt p /\ createdAt p' = createdAt p /\ totalSteps p' = totalSteps p.
Proof.
  cbv zeta. revert p env. induction idxs as [|i rest IH]; intros p env.
  - simpl. split; [apply Forall2_same_identity_refl|auto 10].
  - rewrite for_steps_cons.
    destruct (PipelineStatus.eqb (status p) PipelineStatus.CANCELLED).
    { simpl. split; [apply Forall2_same_identity_refl|auto 10]. }
    pose proof (on_step_identity pipeline_id (Some p) (script i) i p env) as Hid.
    pose proof (on_step_header i (_execute_step pipeline_id (Some p) (script i)) p env) as Hh.
    cbv zeta in Hh.
    destruct (on_step i (_execute_step pipeline_id (Some p) (script i)) p env)
      as [[[[]|e] p1] env1]; unfold state_of in Hid, Hh; simpl in Hid, Hh;
      destruct Hh as (h1 & h2 & h3 & h4 & h5 & h6).
    + assert (Hgo : forall q, steps q = steps p1 -> pipelineId q = pipelineId p1 ->
                videoId q = videoId p1 -> videoUrl q = videoUrl p1 ->
                prompt q = prompt p1 -> createdAt q = createdAt p1 ->
                totalSteps q = totalSteps p1 ->
                Forall2 same_identity (steps p)
                  (steps (state_of (for_steps pipeline_id script rest q env1)))
                /\ pipelineId (state_of (for_steps pipeline_id script rest q env1)) = pipelineId p
                /\ videoId (state_of (for_steps pipeline_id script rest q env1)) = videoId p
                /\ videoUrl (state_of (for_steps pipeline_id script rest q env1)) = videoUrl p
                /\ prompt (state_of (for_steps pipeline_id script rest q env1)) = prompt p
                /\ createdAt (state_of (for_steps pipeline_id script rest q env1)) = createdAt p
                /\ totalSteps (state_of (for_steps pipeline_id script rest q env1)) = totalSteps p).
      { intros q e0 e1 e2 e3 e4 e5 e6.
        destruct (IH q env1) as (F & g1 & g2 & g3 & g4 & g5 & g6). rewrite e0 in F.
        split; [eapply Forall2_same_identity_trans; eauto|].
        repeat split; congruence. }
      destruct (step_status <$> steps p1 !! i) as [[]|]; try (apply Hgo; reflexivity).
      unfold state_of. simpl. split; [exact Hid|auto 10].
    + unfold state_of. simpl. split; [exact Hid|auto 10].
Qed.

(** No run adds, removes or reorders steps, and no run changes a step's
    identifier, type, order or input, nor the pipeline's identifier, video,
    prompt, creation time or [totalSteps], whatever the executors do. *)
Theorem run_preserves_identity (pipeline_id : string) (script : nat -> awaited)
    (p : Pipeline) (env : Env) :
  let p' := state_of (_execute_pipeline_try pipeline_id script p env) in
  Forall2 same_identity (steps p) (steps p')
  /\ length (steps p') = length (steps p)
  /\ pipelineId p' = pipelineId p /\ videoId p' = videoId p /\ videoUrl p' = videoUrl p
  /\ prompt p' = prompt p /\ createdAt p' = createdAt p /\ totalSteps p' = totalSteps p.
Proof.
  cbv zeta.
  pose proof (for_steps_identity pipeline_id script (seq 0 (length (steps p))) p env) as Hl.
  cbv zeta in Hl. rewrite execute_pipeline_try_unfold.
  destruct (for_steps pipeline_id script (seq 0 (length (steps p))) p env)
    as [[[[]|e] p1] env1]; unfold state_of in *; simpl in *;
    destruct Hl as (F & g1 & g2 & g3 & g4 & g5 & g6);
    pose proof (Forall2_length _ _ _ F) as Hlen.
  - destruct (negb _); simpl; auto 10.
  - destruct (is_Exception e); simpl; auto 10.
Qed.

(** ** Executors that do not fail *)

(** A custom step whose wait returns is COMPLETED with progress 100, and its
    output carries the step's own input under "step_data" together with
    "status" "success"; its error is what it was.  The custom executor does not
    look the pipeline up, so this holds whatever the manager stores. *)
Theorem custom_step_output (pipeline_id : string) (stored : option Pipeline)
    (v : option pydict) (s : PipelineStep) (env : Env) :
  stepType s = CUSTOM_PROCESS ->
  let x := _execute_step pipeline_id stored (Returns v) s env in
  result_of x = Ok tt
  /\ step_status (state_of x) = StepStatus.COMPLETED
  /\ progress (state_of x) = 100
  /\ error (state_of x) = error s
  /\ startedAt (state_of x) = Some (now (ticks env))
  /\ step_completedAt (state_of x) = Some (now (Datatypes.S (ticks env)))
  /\ exists out,
       output (state_of x) = Some out
       /\ Dict.get "step_data" out = Some (PyDict (input s))
       /\ Dict.get "status" out = Some (PyStr "success").
Proof.
  destruct s as [sid ty st o inp out err sa ca pr]. simpl. intros ->.
  unfold _execute_step, _execute_custom_step, await, result_of, state_of,
    try_finally, try_except, bind, modify, get_state, ret, raise, datetime_now.
  simpl. repeat split; auto. eexists. repeat split; reflexivity.
Qed.

Lemma execute_step_cooperative (pipeline_id : string) (q : Pipeline) (r : awaited)
    (s : PipelineStep) (env : Env) :
  cooperates r s = true ->
  exists s',
    _execute_step pipeline_id (Some q) r s env =
      (Ok tt, s', mkEnv (Datatypes.S (Datatypes.S (ticks env))) (draws env))
    /\ executed_well s s'.
Proof.
  destruct s as [sid ty st o inp out err sa ca pr]. unfold cooperates, executed_well.
  simpl. intros Hc.
  unfold _execute_step, _execute_runway_step, _execute_custom_step,
    _execute_ffmpeg_step_placeholder, _execute_whisper_step_placeholder,
    _execute_gpt4_step_placeholder, await,
    try_finally, try_except, bind, modify, get_state, ret, raise, datetime_now.
  destruct ty; simpl; try (eexists; split; [reflexivity|simpl; repeat split; discriminate]);
    destruct r as [v|e]; try discriminate; simpl.
  - rewrite Hc. simpl. eexists; split; [reflexivity|simpl; repeat split; discriminate].
  - eexists; split; [reflexivity|simpl; repeat split; discriminate].
Qed.

Lemma for_steps_cooperative (pipeline_id : string) (script : nat -> awaited)
    (idxs : list nat) (p : Pipeline) (env : Env) :
  status p <> PipelineStatus.CANCELLED ->
  NoDup idxs ->
  (forall i s, In i idxs -> steps p !! i = Some s -> cooperates (script i) s = true) ->
  let x := for_steps pipeline_id script idxs p env in
  result_of x = Ok tt
  /\ status (state_of x) = status p
  /\ (forall i s, In i idxs -> steps p !! i = Some s ->
        exists s', steps (state_of x) !! i = Some s' /\ executed_well s s')
  /\ (forall j, ~ In j idxs -> steps (state_of x) !! j = steps p !! j).
Proof.
  cbv zeta. revert p env. induction idxs as [|i rest IH]; intros p env Hst Hnd Hco.
  - unfold result_of, state_of. simpl. repeat split; auto. intros i s [].
  - pattern (for_steps pipeline_id script (i :: rest) p env).
    match goal with |- ?Q _ => set (Post := Q) end.
    rewrite for_steps_cons.
    destruct (PipelineStatus.eqb (status p) PipelineStatus.CANCELLED) eqn:Ec.
    { apply PipelineStatus_eqb_eq in Ec. contradiction. }
    apply NoDup_cons in Hnd as [Hi Hnd].
    assert (Hi' : ~ In i rest) by (now rewrite <- list_elem_of_In).
    destruct (steps p !! i) as [s|] eqn:Hs.
    + destruct (execute_step_cooperative pipeline_id p (script i) s env
                  (Hco i s (or_introl eq_refl) Hs)) as (s' & E & Hw).
      rewrite (on_step_Some _ _ _ _ _ Hs), E.
      assert (Hlt : i < length (steps p)) by (eapply lookup_lt_Some; eauto).
      assert (Hgo : forall q, steps q = <[i := s']> (steps p) -> status q = status p ->
                Post (for_steps pipeline_id script rest q
                        (mkEnv (Datatypes.S (Datatypes.S (ticks env))) (draws env)))).
      { intros q Hq Hqs. unfold Post.
        destruct (IH q (mkEnv (Datatypes.S (Datatypes.S (ticks env))) (draws env)))
          as (R & S1 & Hin & Hout).
        - now rewrite Hqs.
        - exact Hnd.
        - intros j s0 Hj Hs0. rewrite Hq in Hs0.
          rewrite list_lookup_insert_ne in Hs0 by (intros ->; contradiction).
          apply (Hco j s0); [now right|auto].
        - split; [exact R|]. split; [congruence|]. split.
          + intros i0 s0 [<-|Hi0] Hs0.
            * rewrite Hout by auto. rewrite Hq.
              rewrite list_lookup_insert_eq by auto.
              rewrite Hs in Hs0. injection Hs0 as <-. eauto.
            * apply Hin; auto. rewrite Hq.
              rewrite list_lookup_insert_ne by (intros ->; contradiction). auto.
          + intros j Hj. rewrite Hout by (intros Hr; apply Hj; now right).
            rewrite Hq. apply list_lookup_insert_ne. intros ->. apply Hj. now left. }
      unfold result_of at 1, state_of at 1, env_of at 1. simpl fst. simpl snd.
      cbn [steps set_steps]. rewrite list_lookup_insert_eq by auto.
      destruct Hw as (Hw1 & Hw2 & Hw3). cbn [fmap option_fmap option_map]. rewrite Hw1.
      destruct (executes (stepType s)); cbv iota; apply Hgo; reflexivity.
    + rewrite (on_step_None _ _ _ _ Hs). rewrite Hs. cbn [fmap option_fmap option_map].
      unfold Post.
      destruct (IH p env Hst Hnd) as (R & S1 & Hin & Hout).
      { intros j s0 Hj. apply Hco. now right. }
      split; [exact R|]. split; [exact S1|]. split.
      * intros i0 s0 [<-|Hi0] Hs0; [congruence|]. now apply Hin.
      * intros j Hj. apply Hout. intros Hr. apply Hj. now right.
Qed.

Lemma count_completed_executed (l l' : list PipelineStep) :
  Forall2 executed_well l l' ->
  count_completed l' = length (List.filter (fun s => executes (stepType s)) l).
Proof.
  unfold count_completed. induction 1 as [|s s' l l' (Hs & _) _ IH]; [reflexivity|].
  simpl. rewrite Hs. destruct (executes (stepType s)); simpl; auto.
Qed.

Lemma cooperative_try (pipeline_id : string) (script : nat -> awaited)
    (p : Pipeline) (env : Env) :
  status p = PipelineStatus.PROCESSING ->
  completedSteps p = 0 ->
  Forall (fun s => step_status s = StepStatus.PENDING) (steps p) ->
  (forall i s, steps p !! i = Some s -> cooperates (script i) s = true) ->
  let x := _execute_pipeline_try pipeline_id script p env in
  result_of x = Ok tt
  /\ status (state_of x) = PipelineStatus.COMPLETED
  /\ Forall2 executed_well (steps p) (steps (state_of x))
  /\ completedSteps (state_of x) = count_completed (steps (state_of x))
  /\ totalSteps (state_of x) = totalSteps p.
Proof.
  intros Hst Hcs Hfresh Hco. cbv zeta.
  assert (Hnc : status p <> PipelineStatus.CANCELLED) by (rewrite Hst; discriminate).
  pose proof (for_steps_cooperative pipeline_id script (seq 0 (length (steps p))) p env
                Hnc (proj2 (NoDup_ListNoDup _) (seq_NoDup _ _))
                (fun i s _ Hs => Hco i s Hs)) as Hloop.
  cbv zeta in Hloop. destruct Hloop as (R & S1 & Hin & _).
  pose proof (for_steps_completedSteps pipeline_id script (seq 0 (length (steps p))) p env)
    as Hb. cbv zeta in Hb. destruct Hb as (_ & _ & Htot' & Hlen).
  assert (Hzero : count_completed (steps p) = 0).
  { unfold count_completed. clear -Hfresh.
    induction Hfresh as [|s l Hs _ IH]; simpl; [reflexivity|]. now rewrite Hs. }
  assert (Hcount := for_steps_count pipeline_id script (seq 0 (length (steps p))) p env).
  cbv zeta in Hcount. destruct Hcount as [_ Hcount].
  { apply NoDup_ListNoDup, seq_NoDup. }
  { intros i s _ Hs. rewrite Forall_forall in Hfresh.
    assert (Hi : s ∈ steps p) by (eapply list_elem_of_lookup_2; eauto).
    rewrite (Hfresh s Hi). discriminate. }
  { now rewrite Hcs, Hzero. }
  specialize (Hcount R).
  assert (HF : Forall2 executed_well (steps p)
                 (steps (state_of (for_steps pipeline_id script
                                     (seq 0 (length (steps p))) p env)))).
  { apply Forall2_same_length_lookup. split; [now rewrite Hlen|].
    intros i s s' Hs Hs'.
    destruct (Hin i s) as (s1 & Hs1 & Hw); auto.
    - apply in_seq. split; [lia|]. simpl. eapply lookup_lt_Some; eauto.
    - congruence. }
  rewrite execute_pipeline_try_unfold.
  destruct (for_steps pipeline_id script (seq 0 (length (steps p))) p env)
    as [[[[]|e] p1] env1]; unfold result_of, state_of in *; simpl in *; [|discriminate].
  rewrite S1, Hst. simpl. auto.
Qed.

Lemma filter_all {A} (f : A -> bool) (l : list A) :
  Forall (fun a => f a = true) l -> length (List.filter f l) = length l.
Proof. induction 1 as [|a l Ha _ IH]; simpl; [reflexivity|]. rewrite Ha. simpl. now rewrite IH. Qed.

(** When no executor fails (every runway call returns a successful result and
    every custom wait returns), the first run of a pipeline returns normally
    and leaves the pipeline COMPLETED; every step that has an executor is
    COMPLETED with progress 100, every step of a disabled service is SKIPPED
    with progress 10; and [completedSteps] is the number of steps that have an
    executor, which is [totalSteps] when no step is of a disabled service. *)
Theorem cooperative_run_completes (pipeline_id : string) (script : nat -> awaited)
    (p : Pipeline) (env : Env) :
  status p = PipelineStatus.PROCESSING ->
  completedSteps p = 0 ->
  totalSteps p = length (steps p) ->
  Forall (fun s => step_status s = StepStatus.PENDING) (steps p) ->
  (forall i s, steps p !! i = Some s -> cooperates (script i) s = true) ->
  let x := _execute_pipeline_try pipeline_id script p env in
  result_of x = Ok tt
  /\ status (state_of x) = PipelineStatus.COMPLETED
  /\ Forall2 executed_well (steps p) (steps (state_of x))
  /\ completedSteps (state_of x) =
     length (List.filter (fun s => executes (stepType s)) (steps p))
  /\ (Forall (fun s => executes (stepType s) = true) (steps p) ->
      completedSteps (state_of x) = totalSteps (state_of x)).
Proof.
  intros Hst Hcs Htot Hfresh Hco. cbv zeta.
  destruct (cooperative_try pipeline_id script p env Hst Hcs Hfresh Hco)
    as (R & S1 & HF & Hcount & Htot').
  split; [exact R|]. split; [exact S1|]. split; [exact HF|].
  rewrite Hcount, (count_completed_executed _ _ HF). split; [reflexivity|].
  intros Hall. rewrite Htot', Htot. now apply filter_all.
Qed.

(** ** Cancelling a task that has not run *)

Lemma cancel_pipeline_world (pipeline_id : string) (w : World) (env : Env) (p : Pipeline) :
  get_pipeline pipeline_id w = Some p ->
  cancel_pipeline pipeline_id w env =
  (Ok true,
   mkWorld
     (mkManager
        (Dict.set pipeline_id
           (set_updatedAt (Some (now (ticks env)))
              (set_status PipelineStatus.CANCELLED p)) (pipelines (manager w)))
        (Dict.del pipeline_id (running_pipelines (manager w))))
     (match Dict.get pipeline_id (running_pipelines (manager w)) with
      | Some h => alter (fun t => match t with
                                  | Scheduled pid => CancelRequested pid
                                  | _ => t
                                  end) h (tasks w)
      | None => tasks w
      end)
     (background_tasks w),
   mkEnv (Datatypes.S (ticks env)) (draws env)).
Proof.
  intros Hp. unfold cancel_pipeline.
  unfold bind at 1. unfold get_state at 1. cbv beta iota.
  rewrite (Dict_contains_get _ _ _ Hp). cbn [negb]. cbv beta iota.
  unfold bind at 1. cbv beta. rewrite (update_pipeline_Some _ _ _ _ _ Hp). cbv beta iota.
  unfold bind at 1. unfold datetime_now at 1. cbv beta iota.
  unfold bind at 1. cbv beta.
  erewrite update_pipeline_Some
    by (unfold get_pipeline, set_pipelines; simpl; apply Dict_get_set_eq).
  cbv beta iota. unfold bind at 1. cbv beta. rewrite cancel_running_task_spec.
  cbv beta iota. unfold ret, set_pipelines. simpl. rewrite Dict_set_set. reflexivity.
Qed.

(** A pipeline is cancelled while its task is registered and has not run yet.
    Then the task, when the loop reaches it, ends without entering the
    coroutine, whatever the executors would have answered: the pipeline stays
    CANCELLED, no step is touched, [completedSteps] is what it was, and no
    clock is read by the task. *)
Theorem cancel_before_run (pipeline_id : string) (script : nat -> awaited)
    (w : World) (env : Env) (p : Pipeline) (h : nat) :
  get_pipeline pipeline_id w = Some p ->
  Dict.get pipeline_id (running_pipelines (manager w)) = Some h ->
  tasks w !! h = Some (Scheduled pipeline_id) ->
  let c := cancel_pipeline pipeline_id w env in
  let r := run_task h script (state_of c) (env_of c) in
  result_of c = Ok true
  /\ snd r = env_of c
  /\ tasks (fst r) !! h = Some Finished
  /\ exists p',
       get_pipeline pipeline_id (fst r) = Some p'
       /\ status p' = PipelineStatus.CANCELLED
       /\ steps p' = steps p
       /\ completedSteps p' = completedSteps p
       /\ completedAt p' = completedAt p.
Proof.
  intros Hp Hh Ht. cbv zeta. rewrite (cancel_pipeline_world _ _ _ _ Hp).
  unfold result_of, state_of, env_of. simpl. rewrite Hh.
  assert (Hlt : h < length (tasks w)) by (eapply lookup_lt_Some; eauto).
  unfold run_task. simpl. rewrite list_lookup_alter_eq, Ht. simpl.
  split; [reflexivity|]. split; [reflexivity|]. split.
  - apply list_lookup_insert_eq. now rewrite length_alter.
  - eexists. split; [unfold get_pipeline; simpl; apply Dict_get_set_eq|].
    repeat split; reflexivity.
Qed.

(** ** Creation, continued *)

Lemma Dict_values_set_absent {V} (k : string) (v : V) (d : Dict.t V) :
  Dict.get k d = None -> Dict.values (Dict.set k v d) = app (Dict.values d) [v].
Proof.
  unfold Dict.values. induction d as [|[k' v'] d IH]; simpl; [reflexivity|].
  destruct (String.eqb k k'); [discriminate|]. intros Hd. simpl. now rewrite IH.
Qed.

Lemma Dict_values_set_length {V} (k : string) (v v0 : V) (d : Dict.t V) :
  Dict.get k d = Some v0 -> length (Dict.values (Dict.set k v d)) = length (Dict.values d).
Proof.
  unfold Dict.values. induction d as [|[k' v'] d IH]; simpl; [discriminate|].
  destruct (String.eqb k k'); simpl; [reflexivity|]. intros Hd. now rewrite IH.
Qed.

Lemma create_pipeline_rejected (video_id video_url text : string)
    (config : option PipelineConfig) (w : World) (env : Env) (msg : string) :
  HttpUrl_error video_url = Some msg ->
  exists env', create_pipeline video_id video_url text config w env =
               (Raise (PyException "ValidationError" msg), w, env').
Proof.
  intros Hurl. unfold create_pipeline.
  unfold bind at 1. unfold uuid4_str at 1. cbv beta iota.
  unfold bind at 1. rewrite (create_steps_spec _ w _). cbv beta iota.
  unfold bind at 1. unfold datetime_now at 1. cbv beta iota.
  unfold bind at 1. unfold Pipeline_new. simpl. rewrite Hurl.
  eexists. reflexivity.
Qed.

(** [create_pipeline] does not start anything.  When the model accepts the URL,
    the new pipeline is PENDING with nothing completed and no update or
    completion time, it carries the caller's video identifier and prompt, its
    URL is the text of the [HttpUrl] the model built from the caller's string
    (the normalised text, which need not be the string given), every step is as built (PENDING, progress 0, no output, error or times), the
    pipeline is stored under its identifier and is the last of the list as long
    as the identifier was not already a key; no task is created, no handle is
    registered, nothing is queued, and every other pipeline is untouched.  When
    the model rejects the URL, the call raises and the manager is unchanged. *)
Theorem create_pipeline_fresh (video_id video_url text : string)
    (config : option PipelineConfig) (w : World) (env : Env) :
  let x := create_pipeline video_id video_url text config w env in
  (HttpUrl_error video_url = None ->
     exists p,
       result_of x = Ok p
       /\ get_pipeline (pipelineId p) (state_of x) = Some p
       /\ pipelineId p = uuid4 (draws env)
       /\ videoId p = video_id /\ videoUrl p = HttpUrl_text video_url /\ prompt p = text
       /\ status p = PipelineStatus.PENDING /\ completedSteps p = 0
       /\ createdAt p = now (ticks env) /\ updatedAt p = None /\ completedAt p = None
       /\ Forall untouched (steps p)
       /\ tasks (state_of x) = tasks w
       /\ running_pipelines (manager (state_of x)) = running_pipelines (manager w)
       /\ background_tasks (state_of x) = background_tasks w
       /\ (forall other, other <> pipelineId p ->
             get_pipeline other (state_of x) = get_pipeline other w)
       /\ (get_pipeline (pipelineId p) w = None ->
           get_all_pipelines (state_of x) = app (get_all_pipelines w) [p]))
  /\ (forall msg, HttpUrl_error video_url = Some msg ->
        result_of x = Raise (PyException "ValidationError" msg)
        /\ state_of x = w).
Proof.
  cbv zeta. split.
  - intros Hurl.
    rewrite (create_pipeline_spec video_id video_url text config w env Hurl).
    unfold result_of, state_of, get_pipeline, get_all_pipelines. simpl.
    eexists. split; [reflexivity|]. simpl.
    split; [apply Dict_get_set_eq|].
    do 9 (split; [reflexivity|]).
    split.
    { apply Forall_forall. intros s Hs. apply list_elem_of_lookup in Hs as [i Hi].
      rewrite list_lookup_imap in Hi.
      destruct (planned_steps _ !! i); simpl in Hi; [|discriminate].
      injection Hi as <-. unfold untouched, fresh_step. simpl. auto 10. }
    do 3 (split; [reflexivity|]). split.
    + intros other Hne. now apply Dict_get_set_ne.
    + intros Hnone. now apply Dict_values_set_absent.
  - intros msg Hurl.
    destruct (create_pipeline_rejected video_id video_url text config w env msg Hurl)
      as (env' & ->).
    split; reflexivity.
Qed.

(** ** The validators, continued *)

Lemma validate_prompt_eq {S} (prompt : string) (s : S) (env : Env) :
  validate_prompt prompt s env =
  if all_space prompt
  then (Raise (ValidationException "Prompt cannot be empty"), s, env)
  else if 1000 <? String.length prompt
       then (Raise (ValidationException "Prompt too long (max 1000 characters)"), s, env)
       else (Ok true, s, env).
Proof.
  unfold validate_prompt. rewrite blank_prompt.
  destruct (all_space prompt); [reflexivity|].
  destruct (1000 <? String.length prompt); reflexivity.
Qed.

(** [validate_prompt] returns true exactly on the prompts that have a character
    that is not white space and at most 1000 characters.  A prompt without such
    a character is refused as empty, whatever its length; any other prompt of
    more than 1000 characters is refused as too long.  The state is never
    touched. *)
Theorem validate_prompt_outcomes {S} (prompt : string) (s : S) (env : Env) :
  (validate_prompt prompt s env = (Ok true, s, env)
   <-> all_space prompt = false /\ String.length prompt <= 1000)
  /\ (all_space prompt = true ->
      validate_prompt prompt s env =
      (Raise (ValidationException "Prompt cannot be empty"), s, env))
  /\ (all_space prompt = false -> 1000 < String.length prompt ->
      validate_prompt prompt s env =
      (Raise (ValidationException "Prompt too long (max 1000 characters)"), s, env)).
Proof.
  rewrite validate_prompt_eq. split; [|split].
  - destruct (all_space prompt); [split; [discriminate|intros [? _]; discriminate]|].
    destruct (1000 <? String.length prompt) eqn:E.
    + apply Nat.ltb_lt in E. split; [discriminate|intros [_ ?]; lia].
    + apply Nat.ltb_ge in E. split; auto.
  - intros ->. reflexivity.
  - intros -> Hl. apply Nat.ltb_lt in Hl. now rewrite Hl.
Qed.

Lemma check_config_keys_cases {S} (ks : list string) (s : S) (env : Env) :
  if forallb (fun k => existsb (String.eqb k) allowed_keys) ks
  then check_config_keys ks s env = (Ok true, s, env)
  else exists m, check_config_keys ks s env = (Raise (ValidationException m), s, env).
Proof.
  induction ks as [|k ks IH]; cbn [check_config_keys forallb]; [reflexivity|].
  destruct (existsb (String.eqb k) allowed_keys); cbn [negb andb]; cbv iota.
  - exact IH.
  - eexists. reflexivity.
Qed.

(** [validate_pipeline_config] returns true exactly when every key of the
    configuration is one of the five allowed keys (the values are not looked
    at); otherwise it raises [ValidationException] naming the first key, in the
    dict's order, that is not allowed.  The state is never touched. *)
Theorem validate_pipeline_config_outcomes {S} (config : pydict) (s : S) (env : Env) :
  (Forall (fun k => In k allowed_keys) (Dict.keys config)
   /\ validate_pipeline_config config s env = (Ok true, s, env))
  \/ exists pre key post,
       Dict.keys config = app pre (key :: post)
       /\ Forall (fun k => In k allowed_keys) pre
       /\ ~ In key allowed_keys
       /\ validate_pipeline_config config s env =
          (Raise (ValidationException ("Invalid pipeline config key: " ++ key)), s, env).
Proof.
  unfold validate_pipeline_config. generalize (Dict.keys config). intros ks.
  induction ks as [|k ks IH]; cbn [check_config_keys].
  - left. split; [constructor|reflexivity].
  - destruct (existsb (String.eqb k) allowed_keys) eqn:E.
    + assert (Hk : In k allowed_keys).
      { apply existsb_exists in E as (a & Ha & Hka). apply String.eqb_eq in Hka.
        now subst. }
      cbn [negb]. cbv iota.
      destruct IH as [[Hall Hr]|(pre & key & post & -> & Hpre & Hkey & Hr)].
      * left. split; [constructor; auto|exact Hr].
      * right. exists (k :: pre), key, post.
        split; [reflexivity|]. split; [constructor; auto|]. split; [exact Hkey|exact Hr].
    + right. exists [], k, ks. split; [reflexivity|]. split; [constructor|]. split.
      * intros Hk.
        assert (existsb (String.eqb k) allowed_keys = true)
          by (apply existsb_exists; exists k; split; [auto|apply String.eqb_refl]).
        congruence.
      * reflexivity.
Qed.

(** ** The transform endpoint *)

Lemma acceptable_validators (request : VideoRequest) (w : World) (env : Env) :
  acceptable request = true ->
  validate_uuid (req_videoId request) "videoId" w env = (Ok true, w, env)
  /\ validate_video_url (req_videoUrl request) w env = (Ok true, w, env)
  /\ validate_prompt (req_prompt request) w env = (Ok true, w, env)
  /\ (if truthy (pipelineConfig request)
      then validate_pipeline_config (default [] (pipelineConfig request))
      else ret true) w env = (Ok true, w, env).
Proof.
  unfold acceptable. rewrite !andb_true_iff.
  intros (((((Hu & Hurl) & Hpre) & Hsp) & Hlen) & Hcfg).
  split; [unfold validate_uuid; now rewrite Hu|].
  split.
  { unfold validate_video_url. apply negb_true_iff in Hurl. rewrite Hurl, Hpre. reflexivity. }
  split.
  { rewrite validate_prompt_eq. apply negb_true_iff in Hsp. rewrite Hsp.
    apply Nat.leb_le in Hlen. destruct (1000 <? String.length (req_prompt request)) eqn:E;
      [apply Nat.ltb_lt in E; lia|reflexivity]. }
  destruct (truthy (pipelineConfig request)); [|reflexivity].
  unfold validate_pipeline_config.
  pose proof (check_config_keys_cases (Dict.keys (default [] (pipelineConfig request)))
                w env) as Hc.
  rewrite Hcfg in Hc. exact Hc.
Qed.

Lemma transform_video_try_accepted (request : VideoRequest) (w : World) (env : Env) :
  acceptable request = true ->
  transform_video_try request w env =
  match pipelines_of_video (req_videoId request) w with
  | existing_pipeline :: _ =>
      (Ok (VideoResponse_of request existing_pipeline
             ("Pipeline already exists with status: "
                ++ format_status (status existing_pipeline))
             (updatedAt existing_pipeline)), w, env)
  | [] =>
      match parsed_config request with
      | None =>
          match PipelineConfig_parse (default [] (pipelineConfig request)) with
          | inr msg => (Raise (PyException "ValidationError" msg), w, env)
          | inl _ => (Raise (PyException "ValidationError" ""), w, env)
          end
      | Some config =>
          match create_pipeline (req_videoId request) (req_videoUrl request)
                                (req_prompt request) config w env with
          | (Ok pipeline, w', env') =>
              (Ok (VideoResponse_of request pipeline "Pipeline created and started" None),
               set_background_tasks (app (background_tasks w') [pipelineId pipeline]) w',
               env')
          | (Raise e, w', env') => (Raise e, w', env')
          end
      end
  end.
Proof.
  intros Hacc. destruct (acceptable_validators request w env Hacc) as (E1 & E2 & E3 & E4).
  unfold transform_video_try.
  unfold bind at 1. rewrite E1. cbv beta iota.
  unfold bind at 1. rewrite E2. cbv beta iota.
  unfold bind at 1. rewrite E3. cbv beta iota.
  unfold bind at 1. rewrite E4. cbv beta iota.
  unfold bind at 1. unfold get_state at 1. cbv beta iota.
  unfold pipelines_of_video, parsed_config.
  destruct (filter _ (get_all_pipelines w)) as [|existing rest]; [|reflexivity].
  unfold bind at 1.
  destruct (truthy (pipelineConfig request)).
  - destruct (PipelineConfig_parse (default [] (pipelineConfig request))) as [c|msg];
      [|reflexivity].
    unfold ret at 1. cbv beta iota. unfold bind at 1.
    destruct (create_pipeline _ _ _ (Some c) w env) as [[[pl|e] w'] env']; reflexivity.
  - unfold ret at 1. cbv beta iota. unfold bind at 1.
    destruct (create_pipeline _ _ _ None w env) as [[[pl|e] w'] env']; reflexivity.
Qed.

(** A request that passes the validators for a video that already has a
    pipeline gets the oldest such pipeline back, with its current status and
    counters, and nothing is created, queued or changed, not even the clock. *)
Theorem transform_video_existing (request : VideoRequest) (w : World) (env : Env)
    (existing : Pipeline) (rest : list Pipeline) :
  acceptable request = true ->
  pipelines_of_video (req_videoId request) w = existing :: rest ->
  transform_video request w env =
  (inl (mkResponse (req_videoId request) (pipelineId existing) (status existing)
          ("Pipeline already exists with status: " ++ format_status (status existing))
          (totalSteps existing) (completedSteps existing) (createdAt existing)
          (updatedAt existing)),
   w, env).
Proof.
  intros Hacc Hex. unfold transform_video.
  rewrite (transform_video_try_accepted _ _ _ Hacc), Hex. reflexivity.
Qed.

(** A request that passes the validators for a video without a pipeline, with a
    configuration that parses and a URL the model accepts, creates exactly the
    pipeline [create_pipeline] makes and queues its start; the answer says
    "Pipeline created and started" but reports status PENDING with nothing
    completed, and indeed no task exists yet: the event loop's task table and
    the registry of handles are as before. *)
Theorem transform_video_creates (request : VideoRequest) (w : World) (env : Env)
    (config : option PipelineConfig) :
  acceptable request = true ->
  pipelines_of_video (req_videoId request) w = [] ->
  parsed_config request = Some config ->
  HttpUrl_error (req_videoUrl request) = None ->
  exists p w1 env1,
    create_pipeline (req_videoId request) (req_videoUrl request) (req_prompt request)
                    config w env = (Ok p, w1, env1)
    /\ transform_video request w env =
       (inl (mkResponse (req_videoId request) (pipelineId p) PipelineStatus.PENDING
               "Pipeline created and started" (totalSteps p) 0 (createdAt p) None),
        set_background_tasks (app (background_tasks w) [pipelineId p]) w1, env1)
    /\ get_pipeline (pipelineId p)
         (set_background_tasks (app (background_tasks w) [pipelineId p]) w1) = Some p
    /\ tasks w1 = tasks w
    /\ running_pipelines (manager w1) = running_pipelines (manager w).
Proof.
  intros Hacc Hnone Hcfg Hurl.
  pose proof (create_pipeline_spec (req_videoId request) (req_videoUrl request)
                (req_prompt request) config w env Hurl) as E. cbv zeta in E.
  do 3 eexists. split; [exact E|]. split.
  - unfold transform_video.
    rewrite (transform_video_try_accepted _ _ _ Hacc), Hnone, Hcfg, E. reflexivity.
  - split; [unfold get_pipeline; simpl; apply Dict_get_set_eq|]. split; reflexivity.
Qed.

Lemma create_pipeline_cases (video_id video_url text : string)
    (config : option PipelineConfig) (w : World) (env : Env) :
  (exists p, result_of (create_pipeline video_id video_url text config w env) = Ok p)
  \/ (exists msg,
        result_of (create_pipeline video_id video_url text config w env) =
        Raise (PyException "ValidationError" msg)).
Proof.
  destruct (HttpUrl_error video_url) as [msg|] eqn:Hurl.
  - right. exists msg.
    destruct (create_pipeline_rejected video_id video_url text config w env msg Hurl)
      as (env' & ->). reflexivity.
  - left. rewrite (create_pipeline_spec video_id video_url text config w env Hurl).
    eexists. reflexivity.
Qed.

(** Whenever [transform_video] answers with status 400, nothing was touched:
    the manager, the task table, the queue, the clock and the identifier source
    are as before.  Status 400 only ever comes from a validator. *)
Theorem transform_video_400_untouched (request : VideoRequest) (w w' : World)
    (env env' : Env) (detail : string) :
  transform_video request w env = (inr (HTTPException 400 detail), w', env') ->
  w' = w /\ env' = env /\ acceptable request = false.
Proof.
  destruct (acceptable request) eqn:Hacc.
  - unfold transform_video. rewrite (transform_video_try_accepted _ _ _ Hacc).
    destruct (pipelines_of_video (req_videoId request) w); [|discriminate].
    destruct (parsed_config request) as [config|].
    + pose proof (create_pipeline_cases (req_videoId request) (req_videoUrl request)
                    (req_prompt request) config w env) as Hc.
      destruct (create_pipeline _ _ _ config w env) as [[[p|e] w1] env1];
        [discriminate|].
      unfold result_of in Hc. simpl in Hc.
      destruct Hc as [(p & Hp)|(msg & Hm)]; [discriminate|].
      injection Hm as ->. discriminate.
    + destruct (PipelineConfig_parse _); discriminate.
  - unfold transform_video, transform_video_try. unfold bind at 1.
    destruct (validate_uuid_cases (req_videoId request) "videoId" w env)
      as [E|(m & E)]; rewrite E; [|intros [= _ <- <-]; auto].
    unfold bind at 1.
    destruct (validate_video_url_cases (req_videoUrl request) w env)
      as [E'|(m & E')]; rewrite E'; [|intros [= _ <- <-]; auto].
    unfold bind at 1. rewrite validate_prompt_eq.
    destruct (all_space (req_prompt request)) eqn:Hsp; [intros [= _ <- <-]; auto|].
    destruct (1000 <? String.length (req_prompt request)) eqn:Hlen;
      [intros [= _ <- <-]; auto|].
    unfold bind at 1.
    assert (Hcfg : exists m, (if truthy (pipelineConfig request)
                    then validate_pipeline_config (default [] (pipelineConfig request))
                    else ret true) w env = (Raise (ValidationException m), w, env)).
    { unfold validate_uuid in E. destruct (is_uuid (req_videoId request)) eqn:Hu;
        [|discriminate].
      unfold validate_video_url in E'.
      destruct (str_falsy (req_videoUrl request)) eqn:Hf; [discriminate|].
      destruct (String.prefix "http://" (req_videoUrl request)
                || String.prefix "https://" (req_videoUrl request)) eqn:Hpre;
        [|discriminate].
      unfold acceptable in Hacc. rewrite Hu, Hf, Hpre, Hsp in Hacc.
      apply Nat.ltb_ge in Hlen. apply Nat.leb_le in Hlen. rewrite Hlen in Hacc.
      cbn [negb andb] in Hacc.
      destruct (truthy (pipelineConfig request)); [|discriminate].
      unfold validate_pipeline_config.
      pose proof (check_config_keys_cases
                    (Dict.keys (default [] (pipelineConfig request))) w env) as Hc.
      rewrite Hacc in Hc. exact Hc. }
    destruct Hcfg as (m & ->). intros [= _ <- <-]. auto.
Qed.

Lemma filter_values_set (P : Pipeline -> Prop) `{forall p, Decision (P p)}
    (k : string) (p : Pipeline) (d : Dict.t Pipeline) :
  filter P (Dict.values d) = [] -> P p -> filter P (Dict.values (Dict.set k p d)) = [p].
Proof.
  intros Hd Hp. unfold Dict.values in *.
  induction d as [|[k' v'] d IH]; simpl in *.
  - rewrite filter_cons_True by auto. reflexivity.
  - rewrite filter_cons in Hd. destruct (decide (P v')) as [Hv|Hv]; [discriminate|].
    destruct (String.eqb k k'); simpl.
    + rewrite filter_cons_True by auto. now rewrite Hd.
    + rewrite filter_cons_False by auto. auto.
Qed.

(** Sending again a request that has just created a pipeline creates nothing:
    the second answer names the pipeline of the first, still PENDING (its start
    is only queued), and the manager, the queue and the clock are as the first
    call left them. *)
Theorem transform_video_resubmitted (request : VideoRequest) (w : World) (env : Env)
    (config : option PipelineConfig) :
  acceptable request = true ->
  pipelines_of_video (req_videoId request) w = [] ->
  parsed_config request = Some config ->
  HttpUrl_error (req_videoUrl request) = None ->
  let first := transform_video request w env in
  exists r1,
    fst (fst first) = inl r1
    /\ transform_video request (snd (fst first)) (snd first) =
       (inl (mkResponse (req_videoId request) (resp_pipelineId r1) PipelineStatus.PENDING
               ("Pipeline already exists with status: "
                  ++ format_status PipelineStatus.PENDING)
               (resp_totalSteps r1) 0 (resp_createdAt r1) None),
        snd (fst first), snd first).
Proof.
  intros Hacc Hnone Hcfg Hurl. cbv zeta.
  pose proof (create_pipeline_spec (req_videoId request) (req_videoUrl request)
                (req_prompt request) config w env Hurl) as E. cbv zeta in E.
  assert (Ht : transform_video request w env =
               (inl (VideoResponse_of request
                       (mkPipeline (uuid4 (draws env)) (req_videoId request)
                          (HttpUrl_text (req_videoUrl request)) (req_prompt request)
                          PipelineStatus.PENDING
                          (imap (fresh_step (Datatypes.S (draws env)))
                             (planned_steps
                                (force_disabled (default PipelineConfig_default config))))
                          (now (ticks env)) None None
                          (length (imap (fresh_step (Datatypes.S (draws env)))
                             (planned_steps
                                (force_disabled (default PipelineConfig_default config)))))
                          0)
                       "Pipeline created and started" None),
                set_background_tasks
                  (app (background_tasks w) [uuid4 (draws env)])
                  (set_pipelines
                     (Dict.set (uuid4 (draws env))
                        (mkPipeline (uuid4 (draws env)) (req_videoId request)
                           (HttpUrl_text (req_videoUrl request)) (req_prompt request)
                           PipelineStatus.PENDING
                           (imap (fresh_step (Datatypes.S (draws env)))
                              (planned_steps
                                 (force_disabled (default PipelineConfig_default config))))
                           (now (ticks env)) None None
                           (length (imap (fresh_step (Datatypes.S (draws env)))
                              (planned_steps
                                 (force_disabled (default PipelineConfig_default config)))))
                           0)
                        (pipelines (manager w))) w),
                mkEnv (Datatypes.S (ticks env))
                      (Datatypes.S (draws env)
                       + length (planned_steps
                                   (force_disabled
                                      (default PipelineConfig_default config)))))).
  { unfold transform_video.
    rewrite (transform_video_try_accepted _ _ _ Hacc), Hnone, Hcfg, E. reflexivity. }
  rewrite Ht. simpl.
  eexists. split; [reflexivity|].
  unfold transform_video. rewrite (transform_video_try_accepted _ _ _ Hacc).
  unfold pipelines_of_video, get_all_pipelines, set_background_tasks, set_pipelines in *.
  simpl.
  rewrite (filter_values_set _ _ _ _ Hnone) by (simpl; apply String.eqb_refl).
  reflexivity.
Qed.

(** ** The other endpoints *)

Lemma cancel_endpoint_unfold (pipeline_id : string) (w : World) (env : Env) :
  main.cancel_pipeline pipeline_id w env =
  if is_uuid pipeline_id
  then match cancel_pipeline pipeline_id w env with
       | (Ok true, w', env') => (inl "Pipeline cancelled successfully", w', env')
       | (Ok false, w', env') => (inr (HTTPException 404 "Pipeline not found"), w', env')
       | (Raise e, w', env') => main.handle_errors (Raise e, w', env')
       end
  else (inr (HTTPException 400 ("Invalid pipelineId format: " ++ pipeline_id)), w, env).
Proof.
  unfold main.cancel_pipeline, validate_uuid. unfold bind at 1.
  destruct (is_uuid pipeline_id); [|reflexivity].
  unfold ret at 1. cbv beta iota. unfold bind at 1.
  destruct (cancel_pipeline pipeline_id w env) as [[[[]|e] w'] env']; reflexivity.
Qed.

Lemma delete_endpoint_unfold (pipeline_id : string) (w : World) (env : Env) :
  main.delete_pipeline pipeline_id w env =
  if is_uuid pipeline_id
  then match delete_pipeline pipeline_id w env with
       | (Ok true, w', env') => (inl "Pipeline deleted successfully", w', env')
       | (Ok false, w', env') => (inr (HTTPException 404 "Pipeline not found"), w', env')
       | (Raise e, w', env') => main.handle_errors (Raise e, w', env')
       end
  else (inr (HTTPException 400 ("Invalid pipelineId format: " ++ pipeline_id)), w, env).
Proof.
  unfold main.delete_pipeline, validate_uuid. unfold bind at 1.
  destruct (is_uuid pipeline_id); [|reflexivity].
  unfold ret at 1. cbv beta iota. unfold bind at 1.
  destruct (delete_pipeline pipeline_id w env) as [[[[]|e] w'] env']; reflexivity.
Qed.

Lemma status_endpoint_unfold (pipeline_id : string) (w : World) (env : Env) :
  main.get_pipeline_status pipeline_id w env =
  (if is_uuid pipeline_id
   then match get_pipeline pipeline_id w with
        | Some p =>
            inl (mkStatusResponse (pipelineId p) (videoId p) (status p)
                   ("Pipeline status: " ++ format_status (status p))
                   (steps p) (totalSteps p) (completedSteps p)
                   (createdAt p) (updatedAt p) (completedAt p))
        | None => inr (HTTPException 404 "Pipeline not found")
        end
   else inr (HTTPException 400 ("Invalid pipelineId format: " ++ pipeline_id)),
   w, env).
Proof.
  unfold main.get_pipeline_status, validate_uuid. unfold bind at 1.
  destruct (is_uuid pipeline_id); [|reflexivity].
  unfold ret at 1. cbv beta iota. unfold bind, get_state.
  destruct (get_pipeline pipeline_id w); reflexivity.
Qed.


(** The delete endpoint answers with the success message for a stored pipeline;
    from then on the status, cancel and delete endpoints all answer 404 for that
    identifier and change nothing. *)
Theorem delete_endpoint_then_404 (pipeline_id : string) (w : World) (env env' : Env)
    (p : Pipeline) :
  is_uuid pipeline_id = true ->
  get_pipeline pipeline_id w = Some p ->
  let d := main.delete_pipeline pipeline_id w env in
  let w' := snd (fst d) in
  fst (fst d) = inl "Pipeline deleted successfully"
  /\ snd d = env
  /\ main.get_pipeline_status pipeline_id w' env' =
     (inr (HTTPException 404 "Pipeline not found"), w', env')
  /\ main.cancel_pipeline pipeline_id w' env' =
     (inr (HTTPException 404 "Pipeline not found"), w', env')
  /\ main.delete_pipeline pipeline_id w' env' =
     (inr (HTTPException 404 "Pipeline not found"), w', env').
Proof.
  intros Hu Hp. cbv zeta.
  rewrite (delete_endpoint_unfold pipeline_id w env), Hu.
  rewrite (delete_pipeline_Some _ _ _ _ Hp). cbn [fst snd].
  split; [reflexivity|]. split; [reflexivity|].
  match goal with |- context [main.get_pipeline_status _ ?W _] => set (w' := W) end.
  assert (Hgone : get_pipeline pipeline_id w' = None)
    by (unfold w', get_pipeline; simpl; apply Dict_get_del_eq).
  rewrite status_endpoint_unfold, cancel_endpoint_unfold, delete_endpoint_unfold, Hu.
  rewrite Hgone, (cancel_pipeline_None _ _ _ Hgone).
  split; [reflexivity|]. split; [reflexivity|].
  unfold delete_pipeline. unfold bind at 1. unfold get_state at 1. cbv beta iota.
  rewrite (Dict_contains_None _ _ Hgone). reflexivity.
Qed.

(** The three reading endpoints (status, list, legacy status) never change the
    manager, the task table, the queue, the clock or the identifier source; the
    list endpoint never fails, and its "total" is the number of entries it
    returns, one per stored pipeline in the order of the store. *)
Theorem read_endpoints_change_nothing (pipeline_id : string) (w : World) (env : Env) :
  snd (fst (main.get_pipeline_status pipeline_id w env)) = w
  /\ snd (main.get_pipeline_status pipeline_id w env) = env
  /\ snd (fst (main.get_video_status_legacy pipeline_id w env)) = w
  /\ snd (main.get_video_status_legacy pipeline_id w env) = env
  /\ exists l,
       main.get_all_pipelines w env = (inl (l, length l), w, env)
       /\ ps_pipelineId <$> l = pipelineId <$> get_all_pipelines w.
Proof.
  rewrite status_endpoint_unfold. split; [reflexivity|]. split; [reflexivity|].
  assert (Hl : exists a, main.get_video_status_legacy pipeline_id w env = (a, w, env)).
  { unfold main.get_video_status_legacy, validate_uuid. unfold bind at 1.
    destruct (is_uuid pipeline_id); [|eexists; reflexivity].
    unfold ret at 1. cbv beta iota. unfold bind, get_state.
    destruct (filter _ (get_all_pipelines w)); eexists; reflexivity. }
  destruct Hl as (a & ->). split; [reflexivity|]. split; [reflexivity|].
  unfold main.get_all_pipelines. unfold bind, get_state, ret. simpl.
  eexists. split.
  - rewrite length_map. reflexivity.
  - generalize (get_all_pipelines w). intros l.
    induction l as [|q l IH]; [reflexivity|]. cbn. f_equal. exact IH.
Qed.

(** ** The runway service *)

Lemma os_path_join_truthy (a b : string) :
  str_falsy b = false -> str_falsy (os_path_join a b) = false.
Proof.
  intros Hb. unfold os_path_join. destruct a as [|c a]; [exact Hb|].
  simpl str_falsy. cbv iota.
  destruct (String.eqb _ "/"); reflexivity.
Qed.

Lemma download_video_outcomes {S} (tmpdir pipeline_id : string) (get : fetched)
    (wr : written) (s : S) (env : Env) :
  download_video tmpdir pipeline_id get wr s env =
  (match get, wr with
   | Responds c, Written =>
       if c =? 200 then Ok (Some (os_path_join tmpdir ("video_" ++ pipeline_id ++ ".mp4")))
       else Ok None
   | Responds c, WriteThrows e =>
       if c =? 200 then (if is_Exception e then Ok None else Raise e) else Ok None
   | FetchThrows e, _ => if is_Exception e then Ok None else Raise e
   end, s, env).
Proof.
  unfold download_video, try_except, bind, ret, raise.
  destruct get as [c|e]; [|destruct (is_Exception e); reflexivity].
  destruct (c =? 200); [|destruct wr; reflexivity].
  destruct wr as [|e]; [reflexivity|]. destruct (is_Exception e); reflexivity.
Qed.

Lemma process_video_outcomes {S} (tmpdir video_url text pipeline_id : string)
    (get : fetched) (wr : written) (sdk : sdk_task) (s : S) (env : Env) :
  let download_failed := [("error", PyStr "Failed to download video from URL");
                          ("status", PyStr "failed")] in
  process_video tmpdir video_url text pipeline_id get wr sdk s env =
  (match get with
   | FetchThrows e => if is_Exception e then Ok (Some download_failed) else Raise e
   | Responds c =>
       if c =? 200
       then match wr with
            | WriteThrows e => if is_Exception e then Ok (Some download_failed) else Raise e
            | Written =>
                match sdk with
                | TaskOutput (Some out) =>
                    if py_truthy out
                    then Ok (Some [("video_url", output_url_of out);
                                   ("processing_time", PyStr "2.5s");
                                   ("model", PyStr "gen4_image");
                                   ("status", PyStr "success")])
                    else Ok None
                | TaskOutput None => Ok None
                | TaskFailedError d =>
                    Ok (Some [("error", PyStr (py_str d)); ("status", PyStr "failed")])
                | SdkThrows e =>
                    if is_Exception e
                    then Ok (Some [("error", PyStr (str e)); ("status", PyStr "failed")])
                    else Raise e
                end
            end
       else Ok (Some download_failed)
   end, s, env).
Proof.
  cbv zeta. unfold process_video, try_except. unfold bind at 1.
  rewrite download_video_outcomes.
  pose proof (os_path_join_truthy tmpdir ("video_" ++ pipeline_id ++ ".mp4") eq_refl) as Hj.
  destruct get as [c|e].
  - destruct (c =? 200).
    + destruct wr as [|e].
      * cbv beta iota. unfold path_falsy. rewrite Hj. cbv iota.
        destruct sdk as [[out|]|d|e]; try reflexivity.
        -- destruct (py_truthy out); reflexivity.
        -- unfold raise. destruct (is_Exception e) eqn:E; simpl; rewrite ?E; reflexivity.
      * destruct (is_Exception e) eqn:E; simpl; rewrite ?E; reflexivity.
    + destruct wr; reflexivity.
  - destruct (is_Exception e) eqn:E; simpl; rewrite ?E; reflexivity.
Qed.

(** [process_video] never raises an [Exception] and never touches the state:
    every failure of the download, of the file write or of the SDK comes back
    as a returned value.  What it returns is either no result at all (the SDK
    task ended without output), a success carrying "video_url", or the failure
    dict made of an "error" text and the status "failed"; it only raises what is
    not an [Exception], and only when one of its three collaborators did. *)
Theorem process_video_returns_failures {S} (tmpdir video_url text pipeline_id : string)
    (get : fetched) (wr : written) (sdk : sdk_task) (s : S) (env : Env) :
  let x := process_video tmpdir video_url text pipeline_id get wr sdk s env in
  state_of x = s /\ env_of x = env
  /\ match result_of x with
     | Raise e =>
         is_Exception e = false
         /\ (get = FetchThrows e \/ wr = WriteThrows e \/ sdk = SdkThrows e)
     | Ok None => exists output, sdk = TaskOutput output
     | Ok (Some d) =>
         (is_success (Some d) = true /\ truthy (Some d) = true
          /\ exists out, sdk = TaskOutput (Some out)
                         /\ Dict.get "video_url" d = Some (output_url_of out))
         \/ (is_success (Some d) = false
             /\ exists msg, d = [("error", PyStr msg); ("status", PyStr "failed")])
     end.
Proof.
  cbv zeta. rewrite process_video_outcomes. cbv zeta.
  unfold result_of, state_of, env_of. cbn [fst snd].
  split; [reflexivity|]. split; [reflexivity|].
  destruct get as [c|e].
  - destruct (c =? 200).
    + destruct wr as [|e].
      * destruct sdk as [[out|]|d|e].
        -- destruct (py_truthy out); [|eauto].
           left. split; [reflexivity|]. split; [reflexivity|]. eauto.
        -- eauto.
        -- right. split; [reflexivity|]. eauto.
        -- destruct (is_Exception e) eqn:E; [|auto].
           right. split; [reflexivity|]. eauto.
      * destruct (is_Exception e) eqn:E; [|auto].
        right. split; [reflexivity|]. eauto.
    + right. split; [reflexivity|]. eauto.
  - destruct (is_Exception e) eqn:E; [|auto].
    right. split; [reflexivity|]. eauto.
Qed.

(** [process_video] reports success exactly when the download answered with
    status 200, the temporary file was written, and the SDK task ended with a
    truthy output. *)
Theorem process_video_success_iff {S} (tmpdir video_url text pipeline_id : string)
    (get : fetched) (wr : written) (sdk : sdk_task) (s : S) (env : Env) :
  (exists d,
     result_of (process_video tmpdir video_url text pipeline_id get wr sdk s env)
       = Ok (Some d)
     /\ is_success (Some d) = true)
  <-> (get = Responds 200 /\ wr = Written
       /\ exists out, sdk = TaskOutput (Some out) /\ py_truthy out = true).
Proof.
  rewrite process_video_outcomes. cbv zeta. unfold result_of. cbn [fst]. split.
  - intros (d & Hr & Hs). destruct get as [c|e].
    + destruct (c =? 200) eqn:Hc.
      * apply Nat.eqb_eq in Hc. subst c. destruct wr as [|e].
        -- destruct sdk as [[out|]|dt|e].
           ++ destruct (py_truthy out) eqn:Ht; [|discriminate]. eauto 10.
           ++ discriminate.
           ++ injection Hr as <-. discriminate.
           ++ destruct (is_Exception e); [injection Hr as <-|]; discriminate.
        -- destruct (is_Exception e); [injection Hr as <-|]; discriminate.
      * injection Hr as <-. discriminate.
    + destruct (is_Exception e); [injection Hr as <-|]; discriminate.
  - intros (-> & -> & out & -> & Ht). simpl. rewrite Ht. eexists. split; reflexivity.
Qed.


(** ** From creation to completion *)

Lemma created_steps_execute (d : nat) (c : PipelineConfig) :
  Forall (fun s => executes (stepType s) = true)
         (imap (fresh_step d) (planned_steps (force_disabled c))).
Proof.
  apply Forall_forall. intros s Hs.
  pose proof (list_elem_of_fmap_2 stepType _ _ Hs) as Hin.
  rewrite fresh_steps_types in Hin. unfold planned_steps, force_disabled in Hin.
  simpl in Hin. rewrite fmap_app in Hin.
  apply elem_of_app in Hin as [Hin|Hin].
  - destruct (enableRunwayVideo c); simpl in Hin.
    + apply list_elem_of_singleton in Hin. now rewrite Hin.
    + inversion Hin.
  - apply list_elem_of_fmap in Hin as (x & -> & Hx).
    apply list_elem_of_fmap in Hx as (d0 & -> & _). reflexivity.
Qed.

Lemma created_steps_pending (d : nat) (l : list (StepType * pydict)) :
  Forall (fun s => step_status s = StepStatus.PENDING) (imap (fresh_step d) l).
Proof.
  apply Forall_forall. intros s Hs.
  apply list_elem_of_lookup_1 in Hs as (i & Hi).
  rewrite list_lookup_imap in Hi. destruct (l !! i); simpl in Hi; [|discriminate].
  now injection Hi as <-.
Qed.

Lemma created_step_kind (d : nat) (c : PipelineConfig) (i : nat) (s : PipelineStep) :
  imap (fresh_step d) (planned_steps (force_disabled c)) !! i = Some s ->
  (stepType s = RUNWAY_VIDEO /\ i = 0 /\ enableRunwayVideo c = true)
  \/ (stepType s = CUSTOM_PROCESS /\ (enableRunwayVideo c = false \/ 0 < i)).
Proof.
  rewrite list_lookup_imap. unfold planned_steps, force_disabled. simpl.
  destruct (enableRunwayVideo c); simpl.
  - destruct i as [|i]; simpl.
    + intros [= <-]. left. auto.
    + rewrite list_lookup_fmap. destruct (customSteps c !! i); simpl; [|discriminate].
      intros [= <-]. right. split; [reflexivity|right; lia].
  - rewrite list_lookup_fmap. destruct (customSteps c !! i); simpl; [|discriminate].
    intros [= <-]. right. auto.
Qed.

(** From creation to completion.  A pipeline is created (with a URL the model
    accepts, whatever the configuration), started, and its task then runs once;
    every awaited call returns: the runway call, which is the first await when
    the runway step is enabled, returns a successful result, and the sleep of
    each custom step returns whatever it returns (nothing, for
    [asyncio.sleep]).  Then the pipeline ends COMPLETED and stored under its
    identifier: each of its steps is COMPLETED at progress 100,
    [completedSteps] equals [totalSteps], which is the number of steps, the
    identifier is no longer in [running_pipelines], and the task is finished. *)
Theorem created_pipeline_runs_to_completion
    (video_id video_url text : string) (config : option PipelineConfig)
    (script : nat -> awaited) (w : World) (env : Env) :
  HttpUrl_error video_url = None ->
  (enableRunwayVideo (default PipelineConfig_default config) = true ->
   exists r, script 0 = Returns r /\ truthy r && is_success r = true) ->
  (forall i, enableRunwayVideo (default PipelineConfig_default config) = false \/ 0 < i ->
             exists v, script i = Returns v) ->
  let pipeline_id := uuid4 (draws env) in
  let st := run_calls [Create video_id video_url text config; Start pipeline_id;
                       Run (length (tasks w)) script] (w, env) in
  exists p,
    get_pipeline pipeline_id (fst st) = Some p
    /\ status p = PipelineStatus.COMPLETED
    /\ completedSteps p = totalSteps p
    /\ totalSteps p = length (steps p)
    /\ Forall (fun s => step_status s = StepStatus.COMPLETED /\ progress s = 100) (steps p)
    /\ Dict.get pipeline_id (running_pipelines (manager (fst st))) = None
    /\ tasks (fst st) !! length (tasks w) = Some Finished.
Proof.
  intros Hurl Hrunway Hsleep pipeline_id. cbv zeta.
  unfold run_calls. cbn [fold_left apply_call].
  pose proof (create_pipeline_spec video_id video_url text config w env Hurl) as Ec.
  cbv zeta in Ec. fold pipeline_id in Ec. rewrite Ec. clear Ec.
  cbn [apply_call].
  set (l := imap (fresh_step (Datatypes.S (draws env)))
              (planned_steps (force_disabled (default PipelineConfig_default config)))).
  set (p0 := mkPipeline pipeline_id video_id (HttpUrl_text video_url) text
               PipelineStatus.PENDING l
               (now (ticks env)) None None (length l) 0).
  set (w1 := set_pipelines (Dict.set pipeline_id p0 (pipelines (manager w))) w).
  set (env1 := mkEnv _ _).
  assert (Hp0 : get_pipeline pipeline_id w1 = Some p0)
    by (unfold get_pipeline, w1; simpl; apply Dict_get_set_eq).
  rewrite (start_pipeline_Some _ _ _ _ Hp0). cbn [apply_call].
  set (p1 := set_updatedAt _ (set_status PipelineStatus.PROCESSING p0)).
  set (w2 := mkWorld _ _ _).
  set (env2 := mkEnv _ (draws env1)).
  assert (Htask : tasks w2 !! length (tasks w) = Some (Scheduled pipeline_id)).
  { unfold w2, w1. simpl. rewrite lookup_app_r by lia.
    now rewrite Nat.sub_diag. }
  assert (Hp1 : get_pipeline pipeline_id w2 = Some p1)
    by (unfold get_pipeline, w2; simpl; apply Dict_get_set_eq).
  unfold run_task. rewrite Htask, (execute_pipeline_lift _ _ _ _ _ Hp1). cbv zeta.
  assert (Hco : forall i s, steps p1 !! i = Some s -> cooperates (script i) s = true).
  { intros i s Hs. unfold cooperates.
    destruct (created_step_kind _ _ _ _ Hs) as [(-> & -> & Hon)|(-> & Hoff)].
    - destruct (Hrunway Hon) as (r & -> & Hr). exact Hr.
    - destruct (Hsleep i Hoff) as (v & ->). reflexivity. }
  destruct (cooperative_try pipeline_id script p1 env2 eq_refl eq_refl
              (created_steps_pending _ _) Hco)
    as (_ & Hst & HF & Hcount & Htot).
  set (x := _execute_pipeline_try pipeline_id script p1 env2) in *.
  exists (state_of x). cbn [fst].
  assert (Hlen : length (steps (state_of x)) = length l)
    by (symmetry; exact (Forall2_length _ _ _ HF)).
  assert (Hall : Forall (fun s => step_status s = StepStatus.COMPLETED /\ progress s = 100)
                   (steps (state_of x))).
  { apply Forall_forall. intros s' Hs'.
    apply list_elem_of_lookup_1 in Hs' as (i & Hi).
    destruct (Forall2_lookup_r _ _ _ _ _ HF Hi) as (s & Hs & Hw & Hpr & _).
    pose proof (created_steps_execute (Datatypes.S (draws env))
                  (default PipelineConfig_default config)) as Hex.
    rewrite Forall_forall in Hex.
    assert (Hin : s ∈ l) by (eapply list_elem_of_lookup_2; exact Hs).
    rewrite (Hex s Hin) in Hw, Hpr. auto. }
  split; [unfold get_pipeline; simpl; apply Dict_get_set_eq|].
  split; [exact Hst|]. split; [|split; [|split; [exact Hall|split]]].
  - rewrite Hcount, Htot. simpl. rewrite <- Hlen.
    unfold count_completed. apply filter_all.
    eapply Forall_impl; [exact Hall|]. intros s [-> _]. reflexivity.
  - rewrite Htot. simpl. now rewrite Hlen.
  - simpl. apply Dict_get_del_eq.
  - simpl. apply list_lookup_insert_eq. rewrite length_app. simpl. lia.
Qed.

(** ** Steps of a disabled service *)





End Properties.

(** * The theorems at work on the sample environment *)

Section Samples.
#[local] Existing Instance sample_oracles.

(** C1, refuted as stated: a pipeline that reached COMPLETED is CANCELLED after
    [cancel_pipeline], which reports success. *)
Lemma terminal_status_not_final :
  status <$> get_pipeline "a-uuid" (fst completed_state) = Some PipelineStatus.COMPLETED
  /\ result_of (cancel_pipeline "a-uuid" (fst completed_state) (snd completed_state))
     = Ok true
  /\ status <$> get_pipeline "a-uuid"
                  (state_of (cancel_pipeline "a-uuid" (fst completed_state)
                                             (snd completed_state)))
     = Some PipelineStatus.CANCELLED.
Proof. vm_compute. repeat split; reflexivity. Qed.

(** On the sample state: a cancel after completion, a cancel of an unknown
    identifier, and a run entered in status FAILED. *)
Lemma cancel_pipeline_overwrites_status_witness :
  status <$> get_pipeline "a-uuid"
               (state_of (cancel_pipeline "a-uuid" (fst completed_state)
                                          (snd completed_state)))
    = Some PipelineStatus.CANCELLED
  /\ cancel_pipeline "no-such-id" (fst completed_state) (snd completed_state)
     = (Ok false, fst completed_state, snd completed_state)
  /\ status (state_of (_execute_pipeline_try "a-uuid" success_script
                         (set_status PipelineStatus.FAILED started_pipeline) env0))
     = PipelineStatus.FAILED.
Proof.
  destruct (cancel_pipeline_overwrites_status "a-uuid" (fst completed_state)
              (snd completed_state)) as (Hknown & _ & Hfailed).
  destruct (cancel_pipeline_overwrites_status "no-such-id" (fst completed_state)
              (snd completed_state)) as (_ & Hunknown & _).
  split; [|split].
  - destruct (get_pipeline "a-uuid" (fst completed_state)) as [p|] eqn:E;
      [|vm_compute in E; discriminate].
    destruct (Hknown p eq_refl) as (_ & -> & _). reflexivity.
  - apply Hunknown. reflexivity.
  - apply Hfailed. reflexivity.
Defined.

(** The other way round: with the task started twice, the first run deregisters
    the handle of the second, [cancel_pipeline] then finds no task to cancel, and
    the second run, which sees CANCELLED and leaves the loop, sets COMPLETED. *)
Example completion_after_cancellation :
  let calls := [create_default; Start "a-uuid"; Start "a-uuid"; Run 0 success_script;
                Cancel "a-uuid"] in
  status <$> get_pipeline "a-uuid" (fst (run_calls calls (World_init, env0)))
    = Some PipelineStatus.CANCELLED
  /\ status <$> get_pipeline "a-uuid"
                  (fst (run_calls (app calls [Run 1 success_script]) (World_init, env0)))
     = Some PipelineStatus.COMPLETED.
Proof. vm_compute. split; reflexivity. Qed.

(** C2, refuted as stated: [start_pipeline] on a COMPLETED pipeline returns
    normally, sets PROCESSING and spawns a second task. *)
Lemma start_pipeline_accepts_non_pending :
  status <$> get_pipeline "a-uuid" (fst completed_state) = Some PipelineStatus.COMPLETED
  /\ result_of (start_pipeline "a-uuid" (fst completed_state) (snd completed_state))
     = Ok tt
  /\ status <$> get_pipeline "a-uuid"
                  (state_of (start_pipeline "a-uuid" (fst completed_state)
                                            (snd completed_state)))
     = Some PipelineStatus.PROCESSING
  /\ tasks (state_of (start_pipeline "a-uuid" (fst completed_state) (snd completed_state)))
     = [Finished; Scheduled "a-uuid"].
Proof. vm_compute. repeat split; reflexivity. Qed.

(** On the sample state: a start after completion, and a start of an unknown
    identifier. *)
Lemma start_pipeline_ignores_status_witness :
  status <$> get_pipeline "a-uuid"
               (state_of (start_pipeline "a-uuid" (fst completed_state)
                                         (snd completed_state)))
    = Some PipelineStatus.PROCESSING
  /\ start_pipeline "no-such-id" (fst completed_state) (snd completed_state)
     = (Raise (PipelineException "Pipeline no-such-id not found"),
        fst completed_state, snd completed_state).
Proof.
  destruct (start_pipeline_ignores_status "a-uuid" (fst completed_state)
              (snd completed_state)) as (Hknown & _).
  destruct (start_pipeline_ignores_status "no-such-id" (fst completed_state)
              (snd completed_state)) as (_ & Hunknown).
  split.
  - destruct (get_pipeline "a-uuid" (fst completed_state)) as [p|] eqn:E;
      [|vm_compute in E; discriminate].
    destruct (Hknown p eq_refl) as (_ & -> & _). reflexivity.
  - apply Hunknown. reflexivity.
Defined.

(** C3, refuted as stated: five steps are asked for, four flags and one custom
    step; the created pipeline has two. *)
Lemma create_pipeline_ignores_three_flags :
  enabled_flags all_enabled + length (customSteps all_enabled) = 5
  /\ totalSteps <$> get_pipeline "a-uuid"
       (state_of (create_pipeline "vid-1" "https://x/in.mp4" "make it blue"
                                  (Some all_enabled) World_init env0))
     = Some 2
  /\ (fun p => stepType <$> steps p) <$> get_pipeline "a-uuid"
       (state_of (create_pipeline "vid-1" "https://x/in.mp4" "make it blue"
                                  (Some all_enabled) World_init env0))
     = Some [RUNWAY_VIDEO; CUSTOM_PROCESS].
Proof. vm_compute. repeat split; reflexivity. Qed.

(** On the configuration with every flag set and one custom step: two steps,
    numbered from zero. *)
Lemma create_pipeline_step_count_witness :
  HttpUrl_error "https://x/in.mp4" = None
  /\ exists p w' env',
       create_pipeline "vid-1" "https://x/in.mp4" "make it blue" (Some all_enabled)
                       World_init env0 = (Ok p, w', env')
       /\ totalSteps p = 2
       /\ forall i s, steps p !! i = Some s -> order s = i.
Proof.
  assert (Hurl : HttpUrl_error "https://x/in.mp4" = None) by reflexivity.
  split; [exact Hurl|].
  destruct (create_pipeline_step_count "vid-1" "https://x/in.mp4" "make it blue"
              (Some all_enabled) World_init env0 Hurl)
    as [(p & w' & env' & E & Ht & _ & _ & Ho) _].
  exists p, w', env'. split; [exact E|]. split; [exact Ht|exact Ho].
Defined.

(** On the configuration with every flag set and one custom step: the runway
    step, then the custom step with its payload. *)
Lemma create_pipeline_only_runway_and_custom_witness :
  HttpUrl_error "https://x/in.mp4" = None
  /\ exists p w' env',
       create_pipeline "vid-1" "https://x/in.mp4" "make it blue" (Some all_enabled)
                       World_init env0 = (Ok p, w', env')
       /\ (fun s => (stepType s, input s)) <$> steps p =
          [(RUNWAY_VIDEO, []); (CUSTOM_PROCESS, [("type", PyStr "resize")])].
Proof.
  assert (Hurl : HttpUrl_error "https://x/in.mp4" = None) by reflexivity.
  split; [exact Hurl|].
  destruct (create_pipeline_only_runway_and_custom "vid-1" "https://x/in.mp4"
              "make it blue" (Some all_enabled) World_init env0 Hurl)
    as (p & w' & env' & E & _ & _ & Hk & _).
  exists p, w', env'. split; [exact E|exact Hk].
Defined.

(** C4, refuted as stated: after the executor's failure "quota exceeded" the
    step's error is not that text but the text with a prefix. *)
Lemma quota_error_is_prefixed :
  (fun p => error <$> steps p !! 0) <$> get_pipeline "a-uuid"
       (fst (run_calls [Run 0 quota_script] started_state))
    = Some (Some (Some "Runway service failed: quota exceeded"))
  /\ Some "Runway service failed: quota exceeded" <> Some "quota exceeded".
Proof. split; [vm_compute; reflexivity|discriminate]. Qed.

(** On the started sample pipeline, with the executor failing on its quota. *)
Lemma runway_failure_outcome_witness :
  get_pipeline "a-uuid" (fst started_state) = Some started_pipeline
  /\ exists p' s0',
       get_pipeline "a-uuid"
         (state_of (_execute_pipeline "a-uuid" quota_script (fst started_state)
                                      (snd started_state))) = Some p'
       /\ status p' = PipelineStatus.FAILED
       /\ completedSteps p' = 0
       /\ steps p' !! 0 = Some s0'
       /\ step_status s0' = StepStatus.FAILED
       /\ error s0' = Some "Runway service failed: quota exceeded".
Proof.
  assert (Hp : get_pipeline "a-uuid" (fst started_state) = Some started_pipeline)
    by reflexivity.
  split; [exact Hp|].
  destruct (runway_failure_outcome "a-uuid" quota_script (fst started_state)
              (snd started_state) started_pipeline (pending_step "b-uuid" RUNWAY_VIDEO 0)
              "Runway service failed: quota exceeded" Hp eq_refl eq_refl eq_refl eq_refl
              (or_introl (ex_intro _ quota_result
                 (ex_intro _ "quota exceeded"
                    (conj eq_refl (conj eq_refl (conj eq_refl eq_refl)))))))
    as (p' & s0' & _ & Hg & Hs & Hc & H0 & Hf & He & _).
  exists p', s0'. repeat split; assumption.
Defined.



(** C6, refuted as stated: started a second time after its completion, a
    pipeline of one step counts two completed steps. *)
Lemma completedSteps_exceeds_totalSteps :
  (fun p => (completedSteps p, totalSteps p)) <$> get_pipeline "a-uuid"
       (fst (run_calls [Start "a-uuid"; Run 1 success_script] completed_state))
    = Some (2, 1)
  /\ ~ 2 <= 1.
Proof. split; [vm_compute; reflexivity|lia]. Qed.

(** On a fresh pipeline of two steps, at the boundary after the second step. *)
Lemma completedSteps_first_run_witness :
  let p := processing_pipeline [pending_step "s-0" RUNWAY_VIDEO 0;
                                pending_step "s-1" CUSTOM_PROCESS 1] in
  let after := for_steps "p-1" success_script (seq 0 2) p env0 in
  (completedSteps p = 0 /\ totalSteps p = length (steps p)
   /\ Forall (fun s => step_status s = StepStatus.PENDING) (steps p)
   /\ 1 < length (steps p))
  /\ completedSteps (state_of after) <= totalSteps (state_of after)
  /\ (result_of after = Ok tt ->
      completedSteps (state_of after) = count_completed (steps (state_of after))).
Proof.
  cbv zeta.
  assert (Hfresh : Forall (fun s => step_status s = StepStatus.PENDING)
                     (steps (processing_pipeline [pending_step "s-0" RUNWAY_VIDEO 0;
                                                  pending_step "s-1" CUSTOM_PROCESS 1])))
    by (repeat constructor).
  assert (Hk : 1 < length (steps (processing_pipeline
                                    [pending_step "s-0" RUNWAY_VIDEO 0;
                                     pending_step "s-1" CUSTOM_PROCESS 1])))
    by (simpl; lia).
  split; [repeat split; [exact Hfresh|exact Hk]|].
  destruct (completedSteps_first_run "p-1" success_script
              (processing_pipeline [pending_step "s-0" RUNWAY_VIDEO 0;
                                    pending_step "s-1" CUSTOM_PROCESS 1])
              env0 1 eq_refl eq_refl Hfresh Hk)
    as (_ & _ & Hle & _ & Hcount & _).
  split; [exact Hle|exact Hcount].
Defined.

(** Scenario B on the started sample pipeline. *)
Lemma single_step_success_witness :
  get_pipeline "a-uuid" (fst started_state) = Some started_pipeline
  /\ exists p' s0',
       get_pipeline "a-uuid"
         (state_of (_execute_pipeline "a-uuid" success_script (fst started_state)
                                      (snd started_state))) = Some p'
       /\ status p' = PipelineStatus.COMPLETED
       /\ completedSteps p' = 1
       /\ steps p' = [s0']
       /\ match output s0' with
          | Some out => Dict.get "video_url" out
          | None => None
          end = Some (PyStr "https://x/out.mp4").
Proof.
  assert (Hp : get_pipeline "a-uuid" (fst started_state) = Some started_pipeline)
    by reflexivity.
  split; [exact Hp|].
  destruct (single_step_success "a-uuid" success_script (fst started_state)
              (snd started_state) started_pipeline (pending_step "b-uuid" RUNWAY_VIDEO 0)
              success_result "https://x/out.mp4" Hp eq_refl eq_refl eq_refl eq_refl
              eq_refl eq_refl eq_refl)
    as (p' & s0' & _ & Hg & Hs & Hc & Hl & _ & _ & _ & Hu).
  exists p', s0'. repeat split; assumption.
Defined.

(** A prompt of three spaces, sent when a pipeline is already stored. *)
Lemma bad_prompt_rejected_witness :
  all_space "   " = true
  /\ exists msg,
       transform_video (mkRequest "vid-1" "https://x/in.mp4" "   " None)
                       (fst completed_state) (snd completed_state)
       = (inr (HTTPException 400 msg), fst completed_state, snd completed_state).
Proof.
  assert (Hblank : all_space "   " = true) by reflexivity.
  split; [exact Hblank|].
  destruct (bad_prompt_rejected (mkRequest "vid-1" "https://x/in.mp4" "   " None)
              (fst completed_state) (snd completed_state) (or_intror (or_introl Hblank)))
    as (_ & msg & _ & E).
  exists msg. exact E.
Defined.

(** A task cancelled while its first executor call is in flight. *)
Lemma cancelled_await_marks_completed_witness :
  let p := processing_pipeline [pending_step "s-0" RUNWAY_VIDEO 0;
                                pending_step "s-1" CUSTOM_PROCESS 1] in
  status p <> PipelineStatus.CANCELLED
  /\ exists s0',
       _execute_pipeline_try "p-1" (fun _ => Throws CancelledError) p env0 =
         (Raise CancelledError, set_steps (<[0 := s0']> (steps p)) p, mkEnv 2 0)
       /\ step_status s0' = StepStatus.COMPLETED
       /\ progress s0' = 100
       /\ output s0' = None.
Proof.
  cbv zeta.
  assert (Hst : status (processing_pipeline [pending_step "s-0" RUNWAY_VIDEO 0;
                                             pending_step "s-1" CUSTOM_PROCESS 1])
                <> PipelineStatus.CANCELLED) by discriminate.
  split; [exact Hst|].
  destruct (cancelled_await_marks_completed "p-1" (fun _ => Throws CancelledError)
              (processing_pipeline [pending_step "s-0" RUNWAY_VIDEO 0;
                                    pending_step "s-1" CUSTOM_PROCESS 1])
              env0 (pending_step "s-0" RUNWAY_VIDEO 0) Hst eq_refl
              (or_introl eq_refl) eq_refl)
    as (_ & s0' & E & Hs & Hpr & Ho & _).
  exists s0'. repeat split; assumption.
Defined.

(** ** The further properties on the sample store *)

(** Deleting the stored pipeline, and deleting an unknown one. *)
Lemma delete_pipeline_removes_witness :
  get_pipeline "vid-1" stored_world = Some stored_pipeline
  /\ result_of (delete_pipeline "vid-1" stored_world env0) = Ok true
  /\ get_pipeline "vid-1" (state_of (delete_pipeline "vid-1" stored_world env0)) = None
  /\ tasks (state_of (delete_pipeline "vid-1" stored_world env0)) !! 0
     = Some (CancelRequested "vid-1")
  /\ delete_pipeline "vid-2" stored_world env0 = (Ok false, stored_world, env0).
Proof.
  assert (Hp : get_pipeline "vid-1" stored_world = Some stored_pipeline) by reflexivity.
  assert (Hh : Dict.get "vid-1" (running_pipelines (manager stored_world)) = Some 0)
    by reflexivity.
  assert (Ht : tasks stored_world !! 0 = Some (Scheduled "vid-1")) by reflexivity.
  assert (Hn : get_pipeline "vid-2" stored_world = None) by reflexivity.
  destruct (delete_pipeline_removes "vid-1" stored_world env0) as [Hknown _].
  destruct (delete_pipeline_removes "vid-2" stored_world env0) as [_ Hunknown].
  specialize (Hknown _ Hp). cbv zeta in Hknown.
  destruct Hknown as (R & _ & G & _ & Hc & _).
  split; [exact Hp|]. split; [exact R|]. split; [exact G|].
  split; [exact (Hc 0 Hh Ht)|exact (Hunknown Hn)].
Defined.

(** After the deletion, a start of the same identifier. *)
Lemma deleted_pipeline_is_unknown_witness :
  get_pipeline "vid-1" stored_world = Some stored_pipeline
  /\ result_of (start_pipeline "vid-1"
                  (state_of (delete_pipeline "vid-1" stored_world env0)) env0)
     = Raise (PipelineException "Pipeline vid-1 not found")
  /\ result_of (_execute_pipeline "vid-1" success_script
                  (state_of (delete_pipeline "vid-1" stored_world env0)) env0)
     = Raise (PyException "KeyError" "'vid-1'").
Proof.
  assert (Hp : get_pipeline "vid-1" stored_world = Some stored_pipeline) by reflexivity.
  pose proof (deleted_pipeline_is_unknown "vid-1" stored_world env0 env0 stored_pipeline
                success_script Hp) as P.
  cbv zeta in P. destruct P as (_ & Hs & _ & _ & He).
  split; [exact Hp|]. rewrite Hs, He. split; reflexivity.
Defined.

(** A run of the stored pipeline's task body. *)
Lemma execute_pipeline_deregisters_witness :
  get_pipeline "vid-1" stored_world = Some stored_pipeline
  /\ Dict.get "vid-1"
       (running_pipelines
          (manager (state_of (_execute_pipeline "vid-1" success_script stored_world env0))))
     = None
  /\ tasks (state_of (_execute_pipeline "vid-1" success_script stored_world env0))
     = [Scheduled "vid-1"].
Proof.
  assert (Hp : get_pipeline "vid-1" stored_world = Some stored_pipeline) by reflexivity.
  pose proof (execute_pipeline_deregisters "vid-1" success_script stored_world env0
                stored_pipeline Hp) as P.
  cbv zeta in P. destruct P as (Hd & _ & Ht & _).
  split; [exact Hp|]. split; [exact Hd|exact Ht].
Defined.

(** One run that returns and one whose executor fails. *)
Lemma run_ends_terminal_witness :
  result_of (_execute_pipeline_try "vid-1" (fun _ => Returns (Some success_result))
               stored_pipeline env0) = Ok tt
  /\ status (state_of (_execute_pipeline_try "vid-1" success_script stored_pipeline env0))
     = PipelineStatus.COMPLETED
  /\ status (state_of (_execute_pipeline_try "vid-1" quota_script stored_pipeline env0))
     = PipelineStatus.FAILED.
Proof.
  assert (R : result_of (_execute_pipeline_try "vid-1" success_script stored_pipeline env0)
              = Ok tt) by reflexivity.
  assert (E : result_of (_execute_pipeline_try "vid-1" quota_script stored_pipeline env0)
              = Raise (PipelineException
                         "Pipeline vid-1 failed: Step s-1 failed: Runway service failed: quota exceeded"))
    by reflexivity.
  assert (Hst : status stored_pipeline <> PipelineStatus.FAILED) by discriminate.
  pose proof (run_ends_terminal "vid-1" success_script stored_pipeline env0) as P.
  pose proof (run_ends_terminal "vid-1" quota_script stored_pipeline env0) as Q.
  cbv zeta in P, Q. destruct P as [Hok _]. destruct Q as [_ Hraise].
  destruct (Hok R) as (_ & Hc & _). destruct (Hc Hst) as [Hcompleted _].
  split; [exact R|]. split; [exact Hcompleted|].
  destruct (Hraise _ E) as [Hn|(Hf & _)]; [discriminate Hn|exact Hf].
Defined.

(** A custom step whose wait returns nothing, with the pipeline stored. *)
Lemma custom_step_output_witness :
  stepType (pending_step "s-3" CUSTOM_PROCESS 2) = CUSTOM_PROCESS
  /\ step_status (state_of (_execute_step "vid-1" (Some stored_pipeline) (Returns None)
                              (pending_step "s-3" CUSTOM_PROCESS 2) env0))
     = StepStatus.COMPLETED
  /\ progress (state_of (_execute_step "vid-1" (Some stored_pipeline) (Returns None)
                           (pending_step "s-3" CUSTOM_PROCESS 2) env0)) = 100.
Proof.
  assert (Hty : stepType (pending_step "s-3" CUSTOM_PROCESS 2) = CUSTOM_PROCESS)
    by reflexivity.
  pose proof (custom_step_output "vid-1" (Some stored_pipeline) None
                (pending_step "s-3" CUSTOM_PROCESS 2) env0 Hty) as P.
  cbv zeta in P. destruct P as (_ & Hs & Hp & _).
  split; [exact Hty|]. split; [exact Hs|exact Hp].
Defined.

(** The stored pipeline has a runway step, a step of a disabled service and a
    custom step: two of the three are counted. *)
Lemma cooperative_run_completes_witness :
  status stored_pipeline = PipelineStatus.PROCESSING
  /\ status (state_of (_execute_pipeline_try "vid-1" success_script stored_pipeline env0))
     = PipelineStatus.COMPLETED
  /\ completedSteps
       (state_of (_execute_pipeline_try "vid-1" success_script stored_pipeline env0)) = 2.
Proof.
  assert (Hst : status stored_pipeline = PipelineStatus.PROCESSING) by reflexivity.
  assert (Hcs : completedSteps stored_pipeline = 0) by reflexivity.
  assert (Htot : totalSteps stored_pipeline = length (steps stored_pipeline))
    by reflexivity.
  assert (Hfresh : Forall (fun s => step_status s = StepStatus.PENDING)
                     (steps stored_pipeline))
    by (repeat constructor).
  assert (Hco : forall i s, steps stored_pipeline !! i = Some s ->
                            cooperates (success_script i) s = true).
  { intros [|[|[|i]]] s Hs; simpl in Hs; inversion Hs; reflexivity. }
  pose proof (cooperative_run_completes "vid-1" success_script stored_pipeline env0
                Hst Hcs Htot Hfresh Hco) as P.
  cbv zeta in P. destruct P as (_ & Hc & _ & Hn & _).
  split; [exact Hst|]. split; [exact Hc|exact Hn].
Defined.

(** The stored pipeline is cancelled, then its task gets its turn. *)
Lemma cancel_before_run_witness :
  tasks stored_world !! 0 = Some (Scheduled "vid-1")
  /\ exists p',
       get_pipeline "vid-1"
         (fst (run_task 0 success_script
                 (state_of (cancel_pipeline "vid-1" stored_world env0))
                 (env_of (cancel_pipeline "vid-1" stored_world env0)))) = Some p'
       /\ status p' = PipelineStatus.CANCELLED
       /\ steps p' = mixed_steps.
Proof.
  assert (Hp : get_pipeline "vid-1" stored_world = Some stored_pipeline) by reflexivity.
  assert (Hh : Dict.get "vid-1" (running_pipelines (manager stored_world)) = Some 0)
    by reflexivity.
  assert (Ht : tasks stored_world !! 0 = Some (Scheduled "vid-1")) by reflexivity.
  pose proof (cancel_before_run "vid-1" success_script stored_world env0 stored_pipeline 0
                Hp Hh Ht) as P.
  cbv zeta in P. destruct P as (_ & _ & _ & p' & Hg & Hs & Hl & _).
  split; [exact Ht|]. exists p'. split; [exact Hg|]. split; [exact Hs|exact Hl].
Defined.

(** A creation whose URL the model normalises, and one whose URL it rejects. *)
Lemma create_pipeline_fresh_witness :
  HttpUrl_error "https://EXAMPLE.com" = None
  /\ (exists p,
        result_of (create_pipeline "vid-2" "https://EXAMPLE.com" "make it blue" None
                                   stored_world env0) = Ok p
        /\ videoUrl p = "https://example.com/"
        /\ status p = PipelineStatus.PENDING
        /\ Forall untouched (steps p)
        /\ get_pipeline "vid-1"
             (state_of (create_pipeline "vid-2" "https://EXAMPLE.com" "make it blue" None
                                        stored_world env0))
           = Some stored_pipeline)
  /\ state_of (create_pipeline "vid-2" "ftp://x/in.mp4" "make it blue" None
                               stored_world env0) = stored_world.
Proof.
  assert (Hurl : HttpUrl_error "https://EXAMPLE.com" = None) by reflexivity.
  assert (Hbad : HttpUrl_error "ftp://x/in.mp4" = Some "invalid or missing URL scheme")
    by reflexivity.
  pose proof (create_pipeline_fresh "vid-2" "https://EXAMPLE.com" "make it blue" None
                stored_world env0) as P.
  pose proof (create_pipeline_fresh "vid-2" "ftp://x/in.mp4" "make it blue" None
                stored_world env0) as Q.
  cbv zeta in P, Q. destruct P as [Hgood _]. destruct Q as [_ Hrej].
  destruct (Hgood Hurl)
    as (p & R & _ & Hid & _ & Hv & _ & Hs & _ & _ & _ & _ & Hu & _ & _ & _ & Ho & _).
  split; [exact Hurl|]. split.
  - exists p. split; [exact R|]. split; [exact Hv|]. split; [exact Hs|].
    split; [exact Hu|].
    rewrite Ho; [reflexivity|]. rewrite Hid. discriminate.
  - exact (proj2 (Hrej _ Hbad)).
Defined.

(** An ordinary prompt, and a prompt of a space, a no-break space and NEL. *)
Lemma validate_prompt_outcomes_witness :
  validate_prompt "make it blue" tt env0 = (Ok true, tt, env0)
  /\ all_space blank_prompt_latin1 = true
  /\ validate_prompt blank_prompt_latin1 tt env0
     = (Raise (ValidationException "Prompt cannot be empty"), tt, env0).
Proof.
  assert (Hb : all_space blank_prompt_latin1 = true) by reflexivity.
  destruct (validate_prompt_outcomes "make it blue" tt env0) as ([_ Hok] & _).
  destruct (validate_prompt_outcomes blank_prompt_latin1 tt env0) as (_ & Hblank & _).
  split; [|split; [exact Hb|]].
  - apply Hok. split; [reflexivity|simpl; lia].
  - apply Hblank. exact Hb.
Defined.

(** A request for a video that has a pipeline. *)
Lemma transform_video_existing_witness :
  acceptable (request_for "vid-2") = true
  /\ pipelines_of_video "vid-2" stored_world = [stored_pipeline]
  /\ fst (fst (transform_video (request_for "vid-2") stored_world env0))
     = inl (mkResponse "vid-2" "vid-1" PipelineStatus.PROCESSING
              "Pipeline already exists with status: PipelineStatus" 3 0 1000 (Some 1001))
  /\ snd (fst (transform_video (request_for "vid-2") stored_world env0)) = stored_world.
Proof.
  assert (Hacc : acceptable (request_for "vid-2") = true) by reflexivity.
  assert (Hex : pipelines_of_video (req_videoId (request_for "vid-2")) stored_world
                = [stored_pipeline]) by reflexivity.
  pose proof (transform_video_existing (request_for "vid-2") stored_world env0
                stored_pipeline [] Hacc Hex) as P.
  split; [exact Hacc|]. split; [exact Hex|]. rewrite P. split; reflexivity.
Defined.

(** A request for a video that has no pipeline. *)
Lemma transform_video_creates_witness :
  acceptable (request_for "vid-1") = true
  /\ pipelines_of_video "vid-1" stored_world = []
  /\ exists p,
       fst (fst (transform_video (request_for "vid-1") stored_world env0))
       = inl (mkResponse "vid-1" (pipelineId p) PipelineStatus.PENDING
                "Pipeline created and started" (totalSteps p) 0 (createdAt p) None)
       /\ get_pipeline (pipelineId p)
            (snd (fst (transform_video (request_for "vid-1") stored_world env0)))
          = Some p
       /\ background_tasks
            (snd (fst (transform_video (request_for "vid-1") stored_world env0)))
          = [pipelineId p].
Proof.
  assert (Hacc : acceptable (request_for "vid-1") = true) by reflexivity.
  assert (Hno : pipelines_of_video (req_videoId (request_for "vid-1")) stored_world = [])
    by reflexivity.
  assert (Hcfg : parsed_config (request_for "vid-1") = Some None) by reflexivity.
  assert (Hurl : HttpUrl_error (req_videoUrl (request_for "vid-1")) = None)
    by reflexivity.
  destruct (transform_video_creates (request_for "vid-1") stored_world env0 None
              Hacc Hno Hcfg Hurl) as (p & w1 & env1 & _ & Ht & Hg & _).
  split; [exact Hacc|]. split; [exact Hno|]. exists p. rewrite Ht.
  split; [reflexivity|]. split; [exact Hg|reflexivity].
Defined.

(** A request whose video identifier is not a UUID. *)
Lemma transform_video_400_untouched_witness :
  transform_video (request_for "video") stored_world env0
    = (inr (HTTPException 400 "Invalid videoId format: video"), stored_world, env0)
  /\ acceptable (request_for "video") = false.
Proof.
  assert (E : transform_video (request_for "video") stored_world env0
              = (inr (HTTPException 400 "Invalid videoId format: video"),
                 stored_world, env0)) by reflexivity.
  split; [exact E|].
  exact (proj2 (proj2 (transform_video_400_untouched _ _ _ _ _ _ E))).
Defined.

(** The same request sent twice. *)
Lemma transform_video_resubmitted_witness :
  acceptable (request_for "vid-1") = true
  /\ exists r1,
       fst (fst (transform_video (request_for "vid-1") stored_world env0)) = inl r1
       /\ fst (fst (transform_video (request_for "vid-1")
                      (snd (fst (transform_video (request_for "vid-1") stored_world env0)))
                      (snd (transform_video (request_for "vid-1") stored_world env0))))
          = inl (mkResponse "vid-1" (resp_pipelineId r1) PipelineStatus.PENDING
                   "Pipeline already exists with status: PipelineStatus"
                   (resp_totalSteps r1) 0 (resp_createdAt r1) None).
Proof.
  assert (Hacc : acceptable (request_for "vid-1") = true) by reflexivity.
  assert (Hno : pipelines_of_video (req_videoId (request_for "vid-1")) stored_world = [])
    by reflexivity.
  assert (Hcfg : parsed_config (request_for "vid-1") = Some None) by reflexivity.
  assert (Hurl : HttpUrl_error (req_videoUrl (request_for "vid-1")) = None)
    by reflexivity.
  pose proof (transform_video_resubmitted (request_for "vid-1") stored_world env0 None
                Hacc Hno Hcfg Hurl) as P.
  cbv zeta in P. destruct P as (r1 & H1 & H2).
  split; [exact Hacc|]. exists r1. split; [exact H1|]. rewrite H2. reflexivity.
Defined.


(** The delete endpoint, then the status endpoint on the same identifier. *)
Lemma delete_endpoint_then_404_witness :
  is_uuid "vid-1" = true
  /\ fst (fst (main.delete_pipeline "vid-1" stored_world env0))
     = inl "Pipeline deleted successfully"
  /\ fst (fst (main.get_pipeline_status "vid-1"
                 (snd (fst (main.delete_pipeline "vid-1" stored_world env0))) env0))
     = inr (HTTPException 404 "Pipeline not found").
Proof.
  assert (Hu1 : is_uuid "vid-1" = true) by reflexivity.
  assert (Hp1 : get_pipeline "vid-1" stored_world = Some stored_pipeline) by reflexivity.
  pose proof (delete_endpoint_then_404 "vid-1" stored_world env0 env0 stored_pipeline
                Hu1 Hp1) as P.
  cbv zeta in P. destruct P as (Hm & _ & Hs & _).
  split; [exact Hu1|]. split; [exact Hm|]. rewrite Hs. reflexivity.
Defined.

(** The three collaborators all succeed. *)
Lemma process_video_success_iff_witness :
  exists d,
    result_of (process_video "/tmp" "https://x/in.mp4" "make it blue" "vid-1"
                 (Responds 200) Written sdk_output tt env0) = Ok (Some d)
    /\ is_success (Some d) = true.
Proof.
  apply (proj2 (process_video_success_iff "/tmp" "https://x/in.mp4" "make it blue" "vid-1"
                  (Responds 200) Written sdk_output tt env0)).
  split; [reflexivity|]. split; [reflexivity|].
  exists (PyList [PyStr "https://x/out.mp4"]). split; reflexivity.
Defined.


(** With every flag set and one custom step: create, start, and a run in which
    the runway call succeeds and the custom step's sleep returns nothing. *)
Lemma created_pipeline_runs_to_completion_witness :
  HttpUrl_error "https://x/in.mp4" = None
  /\ runway_then_sleep 1 = Returns None
  /\ exists p,
       get_pipeline "a-uuid"
         (fst (run_calls [Create "vid-1" "https://x/in.mp4" "make it blue"
                                 (Some all_enabled);
                          Start "a-uuid"; Run 0 runway_then_sleep] (World_init, env0)))
       = Some p
       /\ status p = PipelineStatus.COMPLETED
       /\ completedSteps p = totalSteps p
       /\ totalSteps p = length (steps p)
       /\ length (steps p) = 2.
Proof.
  assert (Hurl : HttpUrl_error "https://x/in.mp4" = None) by reflexivity.
  assert (Hrunway : enableRunwayVideo (default PipelineConfig_default (Some all_enabled))
                    = true ->
                    exists r, runway_then_sleep 0 = Returns r
                              /\ truthy r && is_success r = true).
  { intros _. exists (Some success_result). split; reflexivity. }
  assert (Hsleep : forall i,
            enableRunwayVideo (default PipelineConfig_default (Some all_enabled)) = false
            \/ 0 < i -> exists v, runway_then_sleep i = Returns v).
  { intros [|i] _; eexists; reflexivity. }
  pose proof (created_pipeline_runs_to_completion "vid-1" "https://x/in.mp4"
                "make it blue" (Some all_enabled) runway_then_sleep World_init env0
                Hurl Hrunway Hsleep) as P.
  cbv zeta in P. destruct P as (p & Hg & Hs & Hc & Ht & _).
  split; [exact Hurl|]. split; [reflexivity|].
  exists p. split; [exact Hg|]. split; [exact Hs|]. split; [exact Hc|].
  split; [exact Ht|]. vm_compute in Hg. injection Hg as <-. reflexivity.
Defined.

End Samples.
